(** * PCA9685 (ucan) PWM expander driver: model and verified properties

    Shallow embedding of [src/drivers/pca9685_ucan/pca9685_ucan.cpp].

    - [float] is IEEE 754 binary32, taken from the Standard Library's
      executable specification [SpecFloat] at precision 24 and [emax] 128.
    - [uint8_t], [uint16_t] and [uint64_t] are integers in [Z] with the
      wrap-around written out.
    - The driver object and its surroundings (the I2C bus, the scheduler, the
      console) form a [Machine]; member functions are computations in a
      state monad with failure, where failure stands for behaviour the C++
      source leaves undefined. *)

From Stdlib Require Import ZArith Lia Bool List QArith Qround Floats.SpecFloat.
From stdpp Require Import base list.
Import ListNotations.
Open Scope Z_scope.

(* ===================================================================== *)
(** ** Single-precision arithmetic *)
(* ===================================================================== *)

Module F32.

Definition prec : Z := 24.
Definition emax : Z := 128.

Definition f32 : Type := spec_float.

(** Integer to [float] conversion, round to nearest even. *)
Definition of_Z (z : Z) : f32 := binary_normalize prec emax z 0 false.

Definition div : f32 -> f32 -> f32 := SFdiv prec emax.
Definition mul : f32 -> f32 -> f32 := SFmul prec emax.
Definition add : f32 -> f32 -> f32 := SFadd prec emax.
Definition sub : f32 -> f32 -> f32 := SFsub prec emax.

(** The literal [0.5f]. *)
Definition half : f32 := binary_normalize prec emax 1 (-1) false.

(** Truncation toward zero of a finite value; infinities and NaN have no
    integer part. *)
Definition trunc (x : f32) : option Z :=
  match x with
  | S754_zero _ => Some 0
  | S754_finite s m e => Some (cond_Zopp s (Z.shiftl (Zpos m) e))
  | S754_infinity _ | S754_nan => None
  end.

(** [float] to [w]-bit unsigned conversion.  ISO C++ defines the cast only
    when the truncated value fits the destination type.  The compilers
    used for the driver's targets convert to a narrow unsigned type through
    a 32-bit integer register and keep the low bits, so every truncated
    value in [0, 2^31) comes out reduced modulo [2^w] (unchanged when
    [w] is 31 or more); that is the behaviour modelled here.  Outside that
    interval, and for infinities and NaN, the targets disagree and the
    conversion is left undefined. *)
Definition to_uint (w : Z) (x : f32) : option Z :=
  match trunc x with
  | Some t => if (0 <=? t) && (t <? 2 ^ 31) then Some (t mod 2 ^ w) else None
  | None => None
  end.

(** Exact rational value of a finite [float]. *)
Definition to_Q (x : f32) : Q :=
  match x with
  | S754_finite s m e =>
      let v := if 0 <=? e then inject_Z (Zpos m * 2 ^ e)
               else Qmake (Zpos m) (Z.to_pos (2 ^ (- e))) in
      if s then Qopp v else v
  | _ => 0%Q
  end.

End F32.

(* ===================================================================== *)
(** ** Fixed-width integers *)
(* ===================================================================== *)

Definition u8 (z : Z) : Z := z mod 256.
Definition u16 (z : Z) : Z := z mod 65536.

(* ===================================================================== *)
(** ** Constants of the driver *)
(* ===================================================================== *)

(** Modelled from the spec: the platform's [OK] status (its header is not
    part of the tree).  The source compares the same return value against
    [OK] and against the literal [0]. *)
Definition OK : Z := 0.

Definition PCA9685_MODE1 : Z := 0x0.
Definition PCA9685_PRESCALE : Z := 0xFE.
Definition LED0_ON_L : Z := 0x6.
Definition ORB_SUB_UPDATE_PERIOD : Z := 10.
Definition NUMBER_PWM_CHANNELS : nat := 16.
Definition PWM_PERIOD_MIN_US : Z := 656.
Definition PWM_PERIOD_MAX_US : Z := 41666.

(* ===================================================================== *)
(** ** Data model *)
(* ===================================================================== *)

Inductive IOX_MODE : Type :=
| IOX_MODE_ON
| IOX_MODE_TEST_OUT.

(** Modelled from the spec: the uORB message [pca_pwm_s] (its generated
    header is not part of the tree): the commanded period in microseconds,
    a [uint16_t], and sixteen [uint16_t] pulse widths. *)
Record pca_pwm_s : Type := mk_pca_pwm {
  pwm_period : Z;
  pulse_width : list Z
}.

Record PCA9685 : Type := mkPCA9685 {
  _mode : IOX_MODE;
  _i2cpwm_interval : Z;
  _comms_errors : Z;
  _msg : list Z;
  _pca_pwm_sub : Z;
  _pca_pwm : pca_pwm_s;
  _pwm_period_us : Z;
  _pwm_freq : F32.f32;
  _test_pwm : Z;
  _current_values : list Z;
  _mode_on_initialized : bool;
  _updated : bool
}.

(** What the driver does to the outside world, in order. *)
Inductive event : Type :=
| EvTransfer (send : list Z) (recv_len : nat) (ret : Z)
| EvUsleep (us : Z)
| EvSchedule (delay : Z).

(** Console output ([DEVICE_DEBUG], [DEVICE_LOG], [warnx]). *)
Inductive diag : Type :=
| DbgFreq (freq : F32.f32) (period : Z)
| DbgChannel (i : nat) (current new pw : Z)
| DbgOutOfRange (new : Z)
| LogTransfer (ret : Z)
| WarnResetting.

(** The driver object together with its surroundings.  [bus k] is what the
    I2C transport answers to the [k]-th transfer since start-up: its return
    code and the byte it delivers when one is read. *)
Record Machine : Type := mkMachine {
  dev : PCA9685;
  bus : nat -> Z * Z;
  n_xfer : nat;
  trace : list event;
  console : list diag
}.

(** One poll of the command topic: the handle [orb_subscribe] would return
    and, when a fresh sample is pending, its content. *)
Record orb_in : Type := mk_orb_in {
  orb_handle : Z;
  orb_fresh : option pca_pwm_s
}.

(* --------------------------------------------------------------------- *)
(** *** Field updates *)

Definition set_mode (v : IOX_MODE) (d : PCA9685) : PCA9685 :=
  mkPCA9685 v (_i2cpwm_interval d) (_comms_errors d) (_msg d) (_pca_pwm_sub d)
    (_pca_pwm d) (_pwm_period_us d) (_pwm_freq d) (_test_pwm d)
    (_current_values d) (_mode_on_initialized d) (_updated d).

Definition set_comms_errors (v : Z) (d : PCA9685) : PCA9685 :=
  mkPCA9685 (_mode d) (_i2cpwm_interval d) v (_msg d) (_pca_pwm_sub d)
    (_pca_pwm d) (_pwm_period_us d) (_pwm_freq d) (_test_pwm d)
    (_current_values d) (_mode_on_initialized d) (_updated d).

Definition set_msg (v : list Z) (d : PCA9685) : PCA9685 :=
  mkPCA9685 (_mode d) (_i2cpwm_interval d) (_comms_errors d) v (_pca_pwm_sub d)
    (_pca_pwm d) (_pwm_period_us d) (_pwm_freq d) (_test_pwm d)
    (_current_values d) (_mode_on_initialized d) (_updated d).

Definition set_pca_pwm_sub (v : Z) (d : PCA9685) : PCA9685 :=
  mkPCA9685 (_mode d) (_i2cpwm_interval d) (_comms_errors d) (_msg d) v
    (_pca_pwm d) (_pwm_period_us d) (_pwm_freq d) (_test_pwm d)
    (_current_values d) (_mode_on_initialized d) (_updated d).

Definition set_pca_pwm (v : pca_pwm_s) (d : PCA9685) : PCA9685 :=
  mkPCA9685 (_mode d) (_i2cpwm_interval d) (_comms_errors d) (_msg d)
    (_pca_pwm_sub d) v (_pwm_period_us d) (_pwm_freq d) (_test_pwm d)
    (_current_values d) (_mode_on_initialized d) (_updated d).

Definition set_pwm_period_us (v : Z) (d : PCA9685) : PCA9685 :=
  mkPCA9685 (_mode d) (_i2cpwm_interval d) (_comms_errors d) (_msg d)
    (_pca_pwm_sub d) (_pca_pwm d) v (_pwm_freq d) (_test_pwm d)
    (_current_values d) (_mode_on_initialized d) (_updated d).

Definition set_pwm_freq (v : F32.f32) (d : PCA9685) : PCA9685 :=
  mkPCA9685 (_mode d) (_i2cpwm_interval d) (_comms_errors d) (_msg d)
    (_pca_pwm_sub d) (_pca_pwm d) (_pwm_period_us d) v (_test_pwm d)
    (_current_values d) (_mode_on_initialized d) (_updated d).

Definition set_test_pwm (v : Z) (d : PCA9685) : PCA9685 :=
  mkPCA9685 (_mode d) (_i2cpwm_interval d) (_comms_errors d) (_msg d)
    (_pca_pwm_sub d) (_pca_pwm d) (_pwm_period_us d) (_pwm_freq d) v
    (_current_values d) (_mode_on_initialized d) (_updated d).

Definition set_current_values (v : list Z) (d : PCA9685) : PCA9685 :=
  mkPCA9685 (_mode d) (_i2cpwm_interval d) (_comms_errors d) (_msg d)
    (_pca_pwm_sub d) (_pca_pwm d) (_pwm_period_us d) (_pwm_freq d) (_test_pwm d)
    v (_mode_on_initialized d) (_updated d).

Definition set_mode_on_initialized (v : bool) (d : PCA9685) : PCA9685 :=
  mkPCA9685 (_mode d) (_i2cpwm_interval d) (_comms_errors d) (_msg d)
    (_pca_pwm_sub d) (_pca_pwm d) (_pwm_period_us d) (_pwm_freq d) (_test_pwm d)
    (_current_values d) v (_updated d).

Definition set_updated (v : bool) (d : PCA9685) : PCA9685 :=
  mkPCA9685 (_mode d) (_i2cpwm_interval d) (_comms_errors d) (_msg d)
    (_pca_pwm_sub d) (_pca_pwm d) (_pwm_period_us d) (_pwm_freq d) (_test_pwm d)
    (_current_values d) (_mode_on_initialized d) v.

(* ===================================================================== *)
(** ** The monad of driver computations *)
(* ===================================================================== *)

(** A computation reads and updates the machine; [None] is undefined
    behaviour. *)
Definition M (A : Type) : Type := Machine -> option (A * Machine).

Definition ret {A} (a : A) : M A := fun m => Some (a, m).

Definition bind {A B} (c : M A) (k : A -> M B) : M B :=
  fun m => match c m with
           | Some (a, m') => k a m'
           | None => None
           end.

Notation "'let*' x ':=' c 'in' k" := (bind c (fun x => k))
  (at level 10, x name, c at level 100, k at level 200).

(** A value that exists only when the source's behaviour is defined. *)
Definition lift {A} (o : option A) : M A :=
  fun m => match o with Some a => Some (a, m) | None => None end.

Definition get_dev : M PCA9685 := fun m => Some (dev m, m).

Definition upd_dev (f : PCA9685 -> PCA9685) : M unit :=
  fun m => Some (tt, mkMachine (f (dev m)) (bus m) (n_xfer m) (trace m) (console m)).

Definition emit (e : event) : M unit :=
  fun m => Some (tt, mkMachine (dev m) (bus m) (n_xfer m) (trace m ++ [e]) (console m)).

Definition say (d : diag) : M unit :=
  fun m => Some (tt, mkMachine (dev m) (bus m) (n_xfer m) (trace m) (console m ++ [d])).

Definition when (b : bool) (c : M unit) : M unit := if b then c else ret tt.

(** [for (int i = start; i < start + n; i++) body(i)] *)
Fixpoint for_range (start n : nat) (body : nat -> M unit) : M unit :=
  match n with
  | O => ret tt
  | S n' => let* _ := body start in for_range (S start) n' body
  end.

(* ===================================================================== *)
(** ** Collaborators *)
(* ===================================================================== *)

(** [device::I2C::transfer(send, send_len, recv, recv_len)]: the transport
    answers with its next return code; the byte it delivers is stored in a
    [uint8_t]. *)
Definition transfer (send : list Z) (recv_len : nat) : M (Z * Z) :=
  fun m =>
    let '(r, rx) := bus m (n_xfer m) in
    Some ((r, u8 rx),
          mkMachine (dev m) (bus m) (S (n_xfer m))
                    (trace m ++ [EvTransfer send recv_len r]) (console m)).

Definition perf_count_comms_errors : M unit :=
  upd_dev (fun d => set_comms_errors (_comms_errors d + 1) d).

Definition usleep (us : Z) : M unit := emit (EvUsleep us).
Definition ScheduleDelayed (delay : Z) : M unit := emit (EvSchedule delay).
Definition ScheduleNow : M unit := emit (EvSchedule 0).

Definition orb_check (inp : orb_in) : bool :=
  match orb_fresh inp with Some _ => true | None => false end.

Definition orb_copy (inp : orb_in) (old : pca_pwm_s) : pca_pwm_s :=
  match orb_fresh inp with Some c => c | None => old end.

(* ===================================================================== *)
(** ** Register access *)
(* ===================================================================== *)

(** Writing [bytes] at the start of the message buffer. *)
Definition store_msg (bytes msg : list Z) : list Z :=
  bytes ++ drop (length bytes) msg.

(** The five bytes [setPWM] puts into [_msg]: register address of the
    channel's ON_L, then ON and OFF, low byte first. *)
Definition setPWM_frame (num on off : Z) : list Z :=
  [u8 (LED0_ON_L + 4 * num); u8 on; u8 (Z.shiftr on 8); u8 off; u8 (Z.shiftr off 8)].

Definition setPWM (num on off : Z) : M Z :=
  let* _ := upd_dev (fun d => set_msg (store_msg (setPWM_frame num on off) (_msg d)) d) in
  let* d := get_dev in
  let* r := transfer (take 5 (_msg d)) 0 in
  let ret_ := fst r in
  let* _ := when (negb (OK =? ret_))
              (let* _ := perf_count_comms_errors in say (LogTransfer ret_)) in
  ret ret_.

Definition setPin (num val : Z) : M Z :=
  let val := if val >? 4095 then 4095 else val in
  if val =? 4095 then setPWM num 4096 0
  else if val =? 0 then setPWM num 0 4096
  else setPWM num 0 val.

Definition write8 (addr value : Z) : M Z :=
  let* _ := upd_dev (fun d => set_msg (store_msg [addr; value] (_msg d)) d) in
  let* d := get_dev in
  let* r := transfer (take 2 (_msg d)) 0 in
  let ret_ := fst r in
  let* _ := when (negb (ret_ =? OK))
              (let* _ := perf_count_comms_errors in say (LogTransfer ret_)) in
  ret ret_.

(** [goto fail_read] *)
Definition fail_read (ret_ : Z) : M (Z * option Z) :=
  let* _ := perf_count_comms_errors in
  let* _ := say (LogTransfer ret_) in
  ret (ret_, None).

(** [read8(addr, value)]: the second component is what has been stored
    through the reference [value], if anything. *)
Definition read8 (addr : Z) : M (Z * option Z) :=
  let* r1 := transfer [addr] 0 in
  if negb (fst r1 =? OK) then fail_read (fst r1)
  else
    let* r2 := transfer [] 1 in
    if negb (fst r2 =? OK) then fail_read (fst r2)
    else ret (fst r2, Some (snd r2)).

Definition reset : M Z :=
  let* _ := say WarnResetting in
  write8 PCA9685_MODE1 0x0.

(* ===================================================================== *)
(** ** Frequency configuration *)
(* ===================================================================== *)

(** The prescaler byte of [setPWMFreq]: [uint8_t(prescaleval + 0.5f)]. *)
Definition prescale_of (freq : F32.f32) : option Z :=
  let prescaleval := F32.of_Z 25000000 in
  let prescaleval := F32.div prescaleval (F32.of_Z 4096) in
  let prescaleval := F32.div prescaleval freq in
  let prescaleval := F32.sub prescaleval (F32.of_Z 1) in
  F32.to_uint 8 (F32.add prescaleval F32.half).

Definition setPWMFreq (freq : F32.f32) : M Z :=
  let* prescale := lift (prescale_of freq) in
  let* r := read8 PCA9685_MODE1 in
  if negb (fst r =? OK) then ret (fst r)
  else
    let* oldmode := lift (snd r) in
    let newmode := u8 (Z.lor (Z.land oldmode 0x7F) 0x10) in
    let* ret_ := write8 PCA9685_MODE1 newmode in
    if negb (ret_ =? OK) then ret ret_
    else
      let* ret_ := write8 PCA9685_PRESCALE prescale in
      if negb (ret_ =? OK) then ret ret_
      else
        let* ret_ := write8 PCA9685_MODE1 oldmode in
        if negb (ret_ =? OK) then ret ret_
        else
          let* _ := usleep 5000 in
          let* ret_ := write8 PCA9685_MODE1 (u8 (Z.lor oldmode 0xa1)) in
          if negb (ret_ =? OK) then ret ret_
          else ret ret_.

(* ===================================================================== *)
(** ** Construction and start-up *)
(* ===================================================================== *)

(** The constructor.  Members are initialised in the order of their
    declaration: [_i2cpwm_interval] (declared before [_pwm_period_us]) is
    computed from [_pwm_period_us] before that member's initialiser has run,
    so it is computed from whatever the storage held, [stale_period]. *)
Definition PCA9685_ctor (stale_period : Z) : option PCA9685 :=
  match F32.to_uint 64 (F32.of_Z stale_period) with
  | Some interval =>
      Some (mkPCA9685 IOX_MODE_ON interval 0 (replicate 6 0) (-1)
              (mk_pca_pwm 0 (replicate 16 0)) 20000 (F32.of_Z 50) 0
              (replicate 16 0) false false)
  | None => None
  end.

(** [init()], after the transport's own [I2C::init()] returned [i2c_ret]. *)
Definition init (i2c_ret : Z) : M Z :=
  if negb (i2c_ret =? OK) then ret i2c_ret
  else
    let* ret_ := reset in
    if negb (ret_ =? OK) then ret ret_
    else
      let* d := get_dev in
      let* ret_ := setPWMFreq (_pwm_freq d) in
      let* _ := when (ret_ =? 0) ScheduleNow in
      ret ret_.

Definition custom_method (custom1 : Z) : M unit :=
  if custom1 =? 0 then let* _ := reset in ret tt
  else if custom1 =? 1 then upd_dev (set_mode IOX_MODE_TEST_OUT)
  else ret tt.

(* ===================================================================== *)
(** ** The periodic control loop *)
(* ===================================================================== *)

(** The duty computed for one channel:
    [(uint16_t)(((float)period / (float)pulse_width) * 4096.0f)]. *)
Definition new_value (period pw : Z) : option Z :=
  F32.to_uint 16 (F32.mul (F32.div (F32.of_Z period) (F32.of_Z pw)) (F32.of_Z 4096)).

(** Test mode: the body of the first branch of [RunImpl]. *)
Definition RunImpl_test : M unit :=
  let* d := get_dev in
  let* _ := when (_test_pwm d >? 4096) (upd_dev (set_test_pwm 0)) in
  let* _ := for_range 0 NUMBER_PWM_CHANNELS (fun i =>
              let* d := get_dev in
              let* _ := setPin (u8 (Z.of_nat i)) (_test_pwm d) in
              ret tt) in
  upd_dev (fun d => set_test_pwm (u16 (_test_pwm d + 4096 / 10)) d).

(** Adoption of the commanded period (the first statement after
    [orb_copy]). *)
Definition RunImpl_period : M unit :=
  let* d := get_dev in
  when (negb (_pwm_period_us d =? pwm_period (_pca_pwm d))
        && (pwm_period (_pca_pwm d) >=? PWM_PERIOD_MIN_US)
        && (pwm_period (_pca_pwm d) <=? PWM_PERIOD_MAX_US))
    (let* _ := upd_dev (fun d => set_pwm_period_us (pwm_period (_pca_pwm d)) d) in
     let* _ := upd_dev (fun d =>
                 set_pwm_freq (F32.div (F32.of_Z 1000000) (F32.of_Z (_pwm_period_us d))) d) in
     let* d := get_dev in
     say (DbgFreq (_pwm_freq d) (_pwm_period_us d))).

(** Body of the loop over the channels.  Reading an array out of bounds is
    undefined. *)
Definition RunImpl_channel (i : nat) : M unit :=
  let* d := get_dev in
  let* pw := lift (pulse_width (_pca_pwm d) !! i) in
  let* new_value := lift (new_value (_pwm_period_us d) pw) in
  let* cur := lift (_current_values d !! i) in
  let* _ := say (DbgChannel i cur new_value pw) in
  if negb (new_value =? cur) && (new_value <? 4096) then
    let* _ := setPin (u8 (Z.of_nat i)) new_value in
    upd_dev (fun d => set_current_values (<[i := new_value]> (_current_values d)) d)
  else
    when (new_value <? 4096) (say (DbgOutOfRange new_value)).

(** Normal mode: the body of the second branch of [RunImpl]. *)
Definition RunImpl_on (inp : orb_in) : M unit :=
  let* d := get_dev in
  let* _ := when (negb (_mode_on_initialized d))
              (upd_dev (fun d =>
                 set_mode_on_initialized true (set_pca_pwm_sub (orb_handle inp) d))) in
  let* _ := upd_dev (set_updated (orb_check inp)) in
  let* d := get_dev in
  when (_updated d)
    (let* _ := upd_dev (fun d => set_pca_pwm (orb_copy inp (_pca_pwm d)) d) in
     let* _ := RunImpl_period in
     for_range 0 NUMBER_PWM_CHANNELS RunImpl_channel).

Definition RunImpl (inp : orb_in) : M unit :=
  let* d := get_dev in
  let* _ := match _mode d with
            | IOX_MODE_TEST_OUT => RunImpl_test
            | IOX_MODE_ON => RunImpl_on inp
            end in
  let* d := get_dev in
  ScheduleDelayed (_i2cpwm_interval d).

(* ===================================================================== *)
(** ** Vocabulary of the properties *)
(* ===================================================================== *)

(** A non-negative significand [m] at exponent [e] whose leading bit lies
    below position [K]. *)
Definition fits (K m e : Z) : Prop := 0 <= m /\ Zdigits2 m + e <= K.

(** A positive zero, or a positive finite number below [2^K]. *)
Definition small_pos (K : Z) (x : F32.f32) : Prop :=
  match x with
  | S754_zero s => s = false
  | S754_finite s m e => s = false /\ Z.pos (digits2_pos m) + e <= K
  | _ => False
  end.

Definition u16_range (z : Z) : Prop := 0 <= z < 65536.

(** The driver object as the types of its members constrain it. *)
Definition dev_ok (d : PCA9685) : Prop :=
  u16_range (_pwm_period_us d)
  /\ length (_current_values d) = NUMBER_PWM_CHANNELS.

(** A command sample with sixteen pulse widths, none of them zero. *)
Definition cmd_ok (c : pca_pwm_s) : Prop :=
  u16_range (pwm_period c)
  /\ length (pulse_width c) = NUMBER_PWM_CHANNELS
  /\ Forall (fun w => 0 < w < 65536) (pulse_width c).

(** The guard of the channel update in [RunImpl]. *)
Definition applies (new_value cur : Z) : bool :=
  negb (new_value =? cur) && (new_value <? 4096).

(** The guard of the period adoption in [RunImpl]. *)
Definition period_accepted (cur p : Z) : Prop :=
  p <> cur /\ 656 <= p <= 41666.

(** Members that no register access touches. *)
Definition dev_kept (d d' : PCA9685) : Prop :=
  _mode d' = _mode d
  /\ _i2cpwm_interval d' = _i2cpwm_interval d
  /\ _pca_pwm_sub d' = _pca_pwm_sub d
  /\ _pca_pwm d' = _pca_pwm d
  /\ _pwm_period_us d' = _pwm_period_us d
  /\ _pwm_freq d' = _pwm_freq d
  /\ _test_pwm d' = _test_pwm d
  /\ _mode_on_initialized d' = _mode_on_initialized d
  /\ _updated d' = _updated d.

(** Register address of channel [i]'s ON_L. *)
Definition channel_reg (i : nat) : Z := LED0_ON_L + 4 * Z.of_nat i.

(** The messages of a trace that address register [reg]. *)
Definition frames_to (reg : Z) (t : list event) : list (list Z) :=
  flat_map (fun e => match e with
                     | EvTransfer (a :: rest) _ _ =>
                         if a =? reg then [a :: rest] else []
                     | _ => []
                     end) t.

Definition channel_frames (i : nat) (t : list event) : list (list Z) :=
  frames_to (channel_reg i) t.

(** The delays of the rescheduling calls of a trace. *)
Definition schedules (t : list event) : list Z :=
  flat_map (fun e => match e with EvSchedule d => [d] | _ => [] end) t.

Definition is_transfer (e : event) : Prop :=
  match e with EvTransfer _ _ _ => True | _ => False end.

(** Return code of the [j]-th transfer from now. *)
Definition ret_at (m : Machine) (j : nat) : Z := fst (bus m (n_xfer m + j)).

(** Byte delivered by the [j]-th transfer from now. *)
Definition byte_at (m : Machine) (j : nat) : Z := u8 (snd (bus m (n_xfer m + j))).

(* --------------------------------------------------------------------- *)
(** *** The specification's formulas, in exact arithmetic *)

Definition round_half_up (q : Q) : Z := Qfloor (q + (1 # 2)).

(** [new_duty = round(period_us / pulse_width_us * 4096)] *)
Definition spec_new_duty (period pw : Z) : Z :=
  round_half_up (inject_Z period / inject_Z pw * inject_Z 4096).

(** [prescale = round(25_000_000 / 4096 / freq) - 1] *)
Definition spec_prescale (freq : Q) : Z :=
  round_half_up (inject_Z 25000000 / inject_Z 4096 / freq) - 1.

(** The on/off pair of a duty value: clamped to [0, 4095]; fully on and
    fully off have their own encodings. *)
Definition pin_encoding (v : Z) : Z * Z :=
  let v := Z.max 0 (Z.min v 4095) in
  if v =? 4095 then (4096, 0)
  else if v =? 0 then (0, 4096)
  else (0, v).

(* --------------------------------------------------------------------- *)
(** *** Sample machines and inputs *)

(** A transport that acknowledges every transfer and delivers [old]. *)
Definition bus_ok (old : Z) : nat -> Z * Z := fun _ => (OK, old).

(** A transport on which every transfer fails with [code]. *)
Definition bus_fail (code : Z) : nat -> Z * Z := fun _ => (code, 0).

(** A transport whose [k]-th transfer fails with [code]. *)
Definition bus_fail_at (k : nat) (code old : Z) : nat -> Z * Z :=
  fun j => if (j =? k)%nat then (code, old) else (OK, old).

(** The machine right after construction, the stale storage of
    [_pwm_period_us] having held [stale_period]. *)
Definition boot (stale_period : Z) (b : nat -> Z * Z) : option Machine :=
  match PCA9685_ctor stale_period with
  | Some d => Some (mkMachine d b 0 [] [])
  | None => None
  end.

Definition fresh_dev : PCA9685 :=
  mkPCA9685 IOX_MODE_ON 20000 0 (replicate 6 0) (-1)
    (mk_pca_pwm 0 (replicate 16 0)) 20000 (F32.of_Z 50) 0
    (replicate 16 0) false false.

Definition fresh_machine (b : nat -> Z * Z) : Machine :=
  mkMachine fresh_dev b 0 [] [].

(** A fresh sample commanding [period] and the same pulse width [pw] on all
    channels. *)
Definition uniform_cmd (period pw : Z) : orb_in :=
  mk_orb_in 3 (Some (mk_pca_pwm period (replicate 16 pw))).

(* --------------------------------------------------------------------- *)
(** *** Stages of a tick, outcomes of the configuration sequence *)

(** Channel [i] is one of the [n] channels from [k] on. *)
Definition in_range (k n i : nat) : bool := (k <=? i)%nat && (i <? k + n)%nat.

(** The guard of the period adoption, as [RunImpl] evaluates it. *)
Definition period_guard (cur p : Z) : bool :=
  negb (cur =? p) && (p >=? PWM_PERIOD_MIN_US) && (p <=? PWM_PERIOD_MAX_US).

(** Inputs on which every step of a tick is defined: in normal mode with a
    fresh sample, a well-formed object and a well-formed sample. *)
Definition tick_ok (inp : orb_in) (m : Machine) : Prop :=
  match _mode (dev m), orb_fresh inp with
  | IOX_MODE_ON, Some cmd => dev_ok (dev m) /\ cmd_ok cmd
  | _, _ => True
  end.

(** The machine of a normal-mode tick once the fresh sample [cmd] has been
    copied and its period examined, before the loop over the channels. *)
Definition after_poll (inp : orb_in) (cmd : pca_pwm_s) (m : Machine) : Machine :=
  let d := dev m in
  let accepted := period_guard (_pwm_period_us d) (pwm_period cmd) in
  let freq' := F32.div (F32.of_Z 1000000) (F32.of_Z (pwm_period cmd)) in
  mkMachine
    (set_pwm_freq (if accepted then freq' else _pwm_freq d)
       (set_pwm_period_us (if accepted then pwm_period cmd else _pwm_period_us d)
          (set_pca_pwm cmd
             (set_updated true
                (set_mode_on_initialized true
                   (set_pca_pwm_sub
                      (if _mode_on_initialized d then _pca_pwm_sub d else orb_handle inp)
                      d))))))
    (bus m) (n_xfer m) (trace m)
    (console m ++ if accepted then [DbgFreq freq' (pwm_period cmd)] else []).

(** The events of a complete configuration sequence writing prescaler [p],
    with the return codes the transport gives from now on. *)
Definition freq_sequence (m : Machine) (p : Z) : list event :=
  let old := byte_at m 1 in
  [EvTransfer [PCA9685_MODE1] 0 (ret_at m 0);
   EvTransfer [] 1 (ret_at m 1);
   EvTransfer [PCA9685_MODE1; Z.lor (Z.land old 0x7F) 0x10] 0 (ret_at m 2);
   EvTransfer [PCA9685_PRESCALE; p] 0 (ret_at m 3);
   EvTransfer [PCA9685_MODE1; old] 0 (ret_at m 4);
   EvUsleep 5000;
   EvTransfer [PCA9685_MODE1; Z.lor old 0xa1] 0 (ret_at m 5)].

(** The first of the next [n] transfers, counted from the [j]-th, that the
    transport fails. *)
Fixpoint first_failure_from (m : Machine) (j n : nat) : option nat :=
  match n with
  | O => None
  | S n' => if ret_at m j =? OK then first_failure_from m (S j) n' else Some j
  end.

(** The prescaler computed for [f] Hz is the one of the exact formula, and
    fits the chip's range. *)
Definition prescale_matches (f : Z) : bool :=
  match prescale_of (F32.of_Z f) with
  | Some p => (p =? spec_prescale (inject_Z f)) && (3 <=? p) && (p <=? 253)
  | None => false
  end.

(** The single-precision number 718.0606689453125. *)
Definition freq_718 : F32.f32 := S754_finite false 11764706 (-14).

(* ===================================================================== *)
(** ** Vocabulary of the further properties *)
(* ===================================================================== *)

(* --------------------------------------------------------------------- *)
(** *** Decoding a channel message *)

(** The 16-bit value that two message bytes hold, low byte first. *)
Definition le16 (lo hi : Z) : Z := lo + 256 * hi.

(** Channel register, ON value and OFF value of a five-byte message. *)
Definition decode_frame (f : list Z) : option (Z * Z * Z) :=
  match f with
  | [a; on_l; on_h; off_l; off_h] => Some (a, le16 on_l on_h, le16 off_l off_h)
  | _ => None
  end.

(* --------------------------------------------------------------------- *)
(** *** Counting transfers *)

(** Return codes of the transfers of a trace, in order. *)
Definition transfer_rets (t : list event) : list Z :=
  flat_map (fun e => match e with EvTransfer _ _ r => [r] | _ => [] end) t.

(** Return codes of the failed transfers of a trace. *)
Definition failures (t : list event) : list Z :=
  flat_map (fun e => match e with
                     | EvTransfer _ _ r => if r =? OK then [] else [r]
                     | _ => []
                     end) t.

(** The error counter tells the failed transfers; the transport has been
    asked as often as the trace has transfers. *)
Definition accounted (m : Machine) : Prop :=
  _comms_errors (dev m) = Z.of_nat (length (failures (trace m)))
  /\ n_xfer m = length (transfer_rets (trace m)).

(* --------------------------------------------------------------------- *)
(** *** What a computation may do *)

(** Every result of [c] is related to its start by [R]. *)
Definition post {A} (c : M A) (R : Machine -> Machine -> Prop) : Prop :=
  forall m a m', c m = Some (a, m') -> R m m'.

(** A write of five bytes to the registers of one of the sixteen channels,
    reading nothing back. *)
Definition channel_write (e : event) : Prop :=
  exists (i : nat) (on off r : Z),
    (i < 16)%nat /\ e = EvTransfer (setPWM_frame (Z.of_nat i) on off) 0 r.

Definition tick_event (e : event) : Prop :=
  channel_write e \/ exists d, e = EvSchedule d.

Definition any_event (e : event) : Prop := True.

(** From [m] to [m'] the driver has only appended events satisfying [P] to
    the trace, has asked the transport once per transfer, has counted each
    failed transfer once, and has kept the size of its message buffer. *)
Definition evolves (P : event -> Prop) (m m' : Machine) : Prop :=
  bus m' = bus m
  /\ (length (_msg (dev m)) = 6%nat -> length (_msg (dev m')) = 6%nat)
  /\ exists evs,
       trace m' = trace m ++ evs
       /\ Forall P evs
       /\ n_xfer m' = (n_xfer m + length (transfer_rets evs))%nat
       /\ _comms_errors (dev m') = _comms_errors (dev m) + Z.of_nat (length (failures evs)).

(** From [m] to [m'] the member [f] of the driver object is the same. *)
Definition kept {A} (f : PCA9685 -> A) (m m' : Machine) : Prop :=
  f (dev m') = f (dev m).

(* --------------------------------------------------------------------- *)
(** *** Runs of the driver *)

(** What the work queue executes: a tick of the control loop with what the
    command topic holds, or an administrative command. *)
Inductive action : Type :=
| Tick (inp : orb_in)
| Admin (custom1 : Z).

Definition do_action (a : action) : M unit :=
  match a with
  | Tick inp => RunImpl inp
  | Admin c => custom_method c
  end.

Fixpoint run (acts : list action) : M unit :=
  match acts with
  | [] => ret tt
  | a :: rest => let* _ := do_action a in run rest
  end.

(** Every fresh sample of the run is well formed. *)
Definition action_ok (a : action) : Prop :=
  match a with
  | Tick inp => match orb_fresh inp with Some c => cmd_ok c | None => True end
  | Admin _ => True
  end.

(** The state the control loop maintains: a period within the chip's
    limits, sixteen last-applied values below 4096, a six-byte message
    buffer. *)
Definition state_inv (m : Machine) : Prop :=
  PWM_PERIOD_MIN_US <= _pwm_period_us (dev m) <= PWM_PERIOD_MAX_US
  /\ length (_current_values (dev m)) = NUMBER_PWM_CHANNELS
  /\ Forall (fun v => 0 <= v < 4096) (_current_values (dev m))
  /\ length (_msg (dev m)) = 6%nat.

(* --------------------------------------------------------------------- *)
(** *** The test pattern *)

(** The ramp value of the test pattern after one more tick. *)
Definition next_test_pwm (t : Z) : Z :=
  u16 ((if t >? 4096 then 0 else t) + 4096 / 10).

(** The duty the test pattern applies at a tick that starts with ramp value
    [t]. *)
Definition test_duty (t : Z) : Z := if t >? 4096 then 0 else t.

(* --------------------------------------------------------------------- *)
(** *** Registers as the trace shows them *)

(** The value last acknowledged for a one-byte register, if any. *)
Definition last_written (reg : Z) (t : list event) : option Z :=
  last (flat_map (fun e => match e with
                           | EvTransfer [a; v] _ r =>
                               if (a =? reg) && (r =? OK) then [v] else []
                           | _ => []
                           end) t).

(** The value MODE1 is left with when the configuration sequence stops at
    its [k]-th transfer, [old] being the value read at the start. *)
Definition mode1_after_abort (k : nat) (old : Z) : option Z :=
  match k with
  | 0%nat | 1%nat | 2%nat => None
  | 3%nat | 4%nat => Some (Z.lor (Z.land old 0x7F) 0x10)
  | _ => Some old
  end.

(* --------------------------------------------------------------------- *)
(** *** Invariants of runs *)

(** The handle of the command topic is obtained once: from a state in which
    the normal mode has been entered, it stays entered and the handle is the
    same afterwards. *)
Definition subscribed (m m' : Machine) : Prop :=
  _mode_on_initialized (dev m) = true ->
  _mode_on_initialized (dev m') = true /\ _pca_pwm_sub (dev m') = _pca_pwm_sub (dev m).

(** The stored frequency is the single-precision reciprocal of the period in
    use. *)
Definition freq_matches (m : Machine) : Prop :=
  _pwm_freq (dev m) = F32.div (F32.of_Z 1000000) (F32.of_Z (_pwm_period_us (dev m))).

(** A tick or command that finds [I] leaves [I]. *)
Definition keeps (I : Machine -> Prop) (m m' : Machine) : Prop := I m -> I m'.

(* --------------------------------------------------------------------- *)
(** *** A driver's life *)

(** A freshly constructed driver that has been put into test mode. *)
Definition test_machine (b : nat -> Z * Z) : Machine :=
  mkMachine (set_mode IOX_MODE_TEST_OUT fresh_dev) b 0 [] [].

(** The life of a driver instance: construction, start-up and, when start-up
    succeeded, the ticks and commands that follow.  The result is the return
    code of [init] and the final machine. *)
Definition lifecycle (stale_period : Z) (b : nat -> Z * Z) (i2c_ret : Z)
    (acts : list action) : option (Z * Machine) :=
  match boot stale_period b with
  | Some m0 =>
      match init i2c_ret m0 with
      | Some (r, m1) =>
          if r =? OK then
            match run acts m1 with
            | Some (_, m2) => Some (r, m2)
            | None => None
            end
          else Some (r, m1)
      | None => None
      end
  | None => None
  end.

(** The machine as [m], the transport having answered [k] more transfers. *)
Definition skip (k : nat) (m : Machine) : Machine :=
  mkMachine (dev m) (bus m) (n_xfer m + k) (trace m) (console m).

(* ===================================================================== *)
(** ** Facts about single-precision arithmetic *)
(* ===================================================================== *)

Lemma digits2_pos_size (p : positive) : digits2_pos p = Pos.size p.
Proof. induction p; simpl; congruence. Qed.

Lemma Zdigits2_log2 (m : Z) : 0 < m -> Zdigits2 m = Z.log2 m + 1.
Proof.
  destruct m as [|p|p]; try lia. intros _. simpl.
  destruct p; simpl; rewrite ?digits2_pos_size; lia.
Qed.

Lemma Zdigits2_nonneg (m : Z) : 0 <= Zdigits2 m.
Proof. destruct m; simpl; lia. Qed.

(** [m] has at most [k] binary digits iff [m < 2^k]. *)
Lemma Zdigits2_le_iff (m k : Z) : 0 <= m -> 0 <= k -> Zdigits2 m <= k <-> m < 2 ^ k.
Proof.
  intros Hm Hk. destruct (Z.eq_dec m 0) as [->|Hne].
  - simpl. split; intros; [apply Z.pow_pos_nonneg|]; lia.
  - rewrite Zdigits2_log2 by lia.
    rewrite (Z.log2_lt_pow2 m k) by lia. lia.
Qed.

Lemma Zdigits2_lower (m : Z) : 0 < m -> 2 ^ (Zdigits2 m - 1) <= m.
Proof.
  intros Hm. rewrite Zdigits2_log2 by lia.
  replace (Z.log2 m + 1 - 1) with (Z.log2 m) by lia.
  apply Z.log2_spec; lia.
Qed.

Lemma shr_1_m (r : shr_record) : 0 <= shr_m r -> shr_m (shr_1 r) = shr_m r / 2.
Proof.
  destruct r as [m r s]; simpl. intros Hm.
  destruct m as [|[p|p|]|p]; simpl; try lia; try reflexivity.
  - rewrite Pos2Z.inj_xI. symmetry. symmetry. apply Z.div_unique with 1; lia.
  - rewrite Pos2Z.inj_xO. symmetry. symmetry. apply Z.div_unique with 0; lia.
Qed.

Lemma iter_pos_shr_m (p : positive) : forall r : shr_record,
  0 <= shr_m r -> shr_m (SpecFloat.iter_pos shr_1 p r) = shr_m r / 2 ^ Zpos p.
Proof.
  induction p as [p IH|p IH|]; intros r Hr; simpl SpecFloat.iter_pos.
  - assert (H1 : 0 <= shr_m (shr_1 r)) by (rewrite shr_1_m by lia; apply Z.div_pos; lia).
    assert (H2 : 0 <= shr_m (SpecFloat.iter_pos shr_1 p (shr_1 r))) by (rewrite IH by lia; apply Z.div_pos; lia).
    rewrite IH, IH, shr_1_m by lia.
    rewrite !Z.div_div by lia. f_equal.
    replace (Z.pos p~1) with (1 + Zpos p + Zpos p) by lia.
    rewrite !Z.pow_add_r by lia. change (2 ^ 1) with 2. ring.
  - assert (H2 : 0 <= shr_m (SpecFloat.iter_pos shr_1 p r)) by (rewrite IH by lia; apply Z.div_pos; lia).
    rewrite IH, IH by lia. rewrite Z.div_div by lia. f_equal.
    replace (Z.pos p~0) with (Z.pos p + Z.pos p) by lia.
    rewrite Z.pow_add_r by lia. reflexivity.
  - rewrite shr_1_m by lia. reflexivity.
Qed.

Lemma Zdigits2_lt_pow2 (m : Z) : 0 <= m -> m < 2 ^ Zdigits2 m.
Proof.
  intros Hm. apply Zdigits2_le_iff; auto using Zdigits2_nonneg. lia.
Qed.

Lemma shr_record_of_loc_m (m : Z) (l : location) : shr_m (shr_record_of_loc m l) = m.
Proof. destruct l as [|[]]; reflexivity. Qed.

Lemma fexp32 (z : Z) : fexp F32.prec F32.emax z = Z.max (z - 24) (-149).
Proof. reflexivity. Qed.

Lemma shr_fexp_fits (K m e : Z) (l : location) :
  fits K m e -> -149 <= K ->
  fits K (shr_m (fst (shr_fexp F32.prec F32.emax m e l)))
         (snd (shr_fexp F32.prec F32.emax m e l)).
Proof.
  intros [Hm HK] HKlo. unfold shr_fexp, shr. rewrite fexp32.
  destruct (Z.max (Zdigits2 m + e - 24) (-149) - e) as [|p|p] eqn:En; simpl;
    rewrite ?shr_record_of_loc_m; try (split; assumption).
  rewrite iter_pos_shr_m by (rewrite shr_record_of_loc_m; lia).
  rewrite shr_record_of_loc_m.
  assert (Hp : 0 < 2 ^ Z.pos p) by (apply Z.pow_pos_nonneg; lia).
  assert (Hq : 0 <= m / 2 ^ Z.pos p) by (apply Z.div_pos; lia).
  split; [exact Hq|].
  destruct (Z.eq_dec (m / 2 ^ Z.pos p) 0) as [E0|Hne].
  - rewrite E0. simpl. lia.
  - assert (Hge : 2 ^ Z.pos p <= m).
    { destruct (Z_lt_le_dec m (2 ^ Z.pos p)) as [Hlt|]; [|assumption].
      rewrite Z.div_small in Hne by lia. congruence. }
    assert (Hd : Z.pos p < Zdigits2 m).
    { destruct (Z_lt_le_dec (Z.pos p) (Zdigits2 m)) as [|Hle]; [assumption|].
      apply Zdigits2_le_iff in Hle; lia. }
    assert (Hb : Zdigits2 (m / 2 ^ Z.pos p) <= Zdigits2 m - Z.pos p).
    { apply Zdigits2_le_iff; try lia.
      apply Z.div_lt_upper_bound; [lia|].
      rewrite <- Z.pow_add_r by lia.
      replace (Z.pos p + (Zdigits2 m - Z.pos p)) with (Zdigits2 m) by lia.
      apply Zdigits2_lt_pow2; lia. }
    lia.
Qed.

Lemma round_nearest_even_fits (K m e : Z) (l : location) :
  fits K m e -> fits (K + 1) (round_nearest_even m l) e.
Proof.
  intros [Hm HK].
  assert (Hup : fits (K + 1) (m + 1) e).
  { split; [lia|].
    assert (Zdigits2 (m + 1) <= Zdigits2 m + 1); [|lia].
    pose proof (Zdigits2_nonneg m).
    apply Zdigits2_le_iff; try lia.
    rewrite Z.pow_add_r by lia. pose proof (Zdigits2_lt_pow2 m Hm). lia. }
  assert (Hsame : fits (K + 1) m e) by (split; lia).
  destruct l as [|[]]; simpl; try assumption.
  destruct (Z.even m); assumption.
Qed.

(** Rounding a non-negative significand whose leading bit lies below [K]
    gives a zero or a finite number whose leading bit lies below [K + 1]:
    it never overflows. *)
Lemma binary_round_aux_fits (K : Z) (s : bool) (m e : Z) (l : location) :
  fits K m e -> -149 <= K <= 104 ->
  match binary_round_aux F32.prec F32.emax s m e l with
  | S754_zero s' => s' = s
  | S754_finite s' m' e' => s' = s /\ Z.pos (digits2_pos m') + e' <= K + 1
  | _ => False
  end.
Proof.
  intros Hf HK. unfold binary_round_aux.
  pose proof (shr_fexp_fits K m e l Hf ltac:(lia)) as H1.
  destruct (shr_fexp F32.prec F32.emax m e l) as [r1 e1]. simpl in H1.
  pose proof (round_nearest_even_fits K (shr_m r1) e1 (loc_of_shr_record r1) H1) as H2.
  pose proof (shr_fexp_fits (K + 1) _ e1 loc_Exact H2 ltac:(lia)) as H3.
  destruct (shr_fexp F32.prec F32.emax (round_nearest_even (shr_m r1) (loc_of_shr_record r1)) e1 loc_Exact)
    as [r2 e2]. simpl in H3.
  destruct H3 as [H3a H3b].
  destruct (shr_m r2) as [|p|p]; [reflexivity| |lia].
  simpl in H3b.
  replace (e2 <=? F32.emax - F32.prec) with true; [split; [reflexivity|lia]|].
  symmetry. apply Z.leb_le. unfold F32.emax, F32.prec. lia.
Qed.

Lemma binary_round_aux_exact (s : bool) (p : positive) (e : Z) :
  fexp F32.prec F32.emax (Z.pos (digits2_pos p) + e) <= e -> e <= 104 ->
  binary_round_aux F32.prec F32.emax s (Z.pos p) e loc_Exact = S754_finite s p e.
Proof.
  intros Hc He. unfold binary_round_aux, shr_fexp, shr. simpl Zdigits2.
  destruct (fexp F32.prec F32.emax (Z.pos (digits2_pos p) + e) - e) as [|q|q] eqn:En;
    try lia; simpl; rewrite En; simpl;
    (replace (e <=? F32.emax - F32.prec) with true; [reflexivity|];
     symmetry; apply Z.leb_le; unfold F32.emax, F32.prec; lia).
Qed.

Lemma digits2_pos_iter_xO (p d : positive) :
  Z.pos (digits2_pos (Pos.iter xO p d)) = Z.pos (digits2_pos p) + Z.pos d.
Proof.
  induction d as [|d IH] using Pos.peano_ind.
  - simpl. lia.
  - rewrite Pos.iter_succ. simpl. lia.
Qed.

(** Integers below [2^24] convert exactly: the result is finite, positive,
    and its leading bit is the integer's. *)
Lemma of_Z_finite (z : Z) :
  0 < z < 2 ^ 24 ->
  exists m e, F32.of_Z z = S754_finite false m e
              /\ Z.pos (digits2_pos m) + e = Zdigits2 z.
Proof.
  intros Hz. destruct z as [|p|p]; try lia.
  assert (Hd : Zdigits2 (Z.pos p) <= 24) by (apply Zdigits2_le_iff; lia).
  simpl in Hd. unfold F32.of_Z, binary_normalize, binary_round, shl_align.
  rewrite fexp32.
  destruct (Z.max (Z.pos (digits2_pos p) + 0 - 24) (-149) - 0) as [|d|d] eqn:Ed; try lia.
  - exists p, 0. split; [|simpl; lia].
    apply binary_round_aux_exact; [rewrite fexp32|]; lia.
  - exists (Pos.iter xO p d), (Z.max (Z.pos (digits2_pos p) + 0 - 24) (-149)). split.
    + apply binary_round_aux_exact; [rewrite fexp32, digits2_pos_iter_xO|]; lia.
    + rewrite digits2_pos_iter_xO. simpl. lia.
Qed.

Lemma SFdiv_core_fits (mx my : positive) (ex ey K : Z) :
  Z.pos (digits2_pos mx) + ex - (Z.pos (digits2_pos my) + ey) + 1 <= K ->
  -149 <= K ->
  let '(q, e', _) := SFdiv_core_binary F32.prec F32.emax (Z.pos mx) ex (Z.pos my) ey in
  fits K q e'.
Proof.
  intros HK Hlo. unfold SFdiv_core_binary. rewrite fexp32. simpl Zdigits2.
  set (dx := Z.pos (digits2_pos mx)) in *. set (dy := Z.pos (digits2_pos my)) in *.
  set (e' := Z.min (Z.max (dx + ex - (dy + ey) - 24) (-149)) (ex - ey)).
  set (m' := match ex - ey - e' with
             | 0 => Z.pos mx
             | Z.pos _ => Z.shiftl (Z.pos mx) (ex - ey - e')
             | Z.neg _ => 0
             end).
  assert (Hs : 0 <= ex - ey - e') by (unfold e'; lia).
  assert (Hm' : m' = Z.pos mx * 2 ^ (ex - ey - e')).
  { unfold m'. destruct (ex - ey - e') as [|s|s] eqn:Es;
      [rewrite Z.pow_0_r; lia | apply Z.shiftl_mul_pow2; lia | lia]. }
  assert (Hq : Z.div_eucl m' (Z.pos my) = (m' / Z.pos my, m' mod Z.pos my)).
  { unfold Z.div, Z.modulo. destruct (Z.div_eucl m' (Z.pos my)); reflexivity. }
  rewrite Hq.
  pose proof (Zdigits2_lt_pow2 (Z.pos mx) ltac:(lia)) as Hx. simpl in Hx. fold dx in Hx.
  pose proof (Zdigits2_lower (Z.pos my) ltac:(lia)) as Hy. simpl in Hy. fold dy in Hy.
  assert (H2s : 0 < 2 ^ (ex - ey - e')) by (apply Z.pow_pos_nonneg; lia).
  assert (Hm'pos : 0 <= m') by (rewrite Hm'; lia).
  assert (Hqpos : 0 <= m' / Z.pos my) by (apply Z.div_pos; lia).
  split; [exact Hqpos|].
  destruct (Z.eq_dec (m' / Z.pos my) 0) as [E0|Hne].
  - rewrite E0. simpl. unfold e'. lia.
  - assert (Hge : Z.pos my <= m').
    { destruct (Z_lt_le_dec m' (Z.pos my)) as [Hlt|]; [|assumption].
      rewrite Z.div_small in Hne by lia. congruence. }
    assert (Hup : m' < 2 ^ (dx + (ex - ey - e'))).
    { rewrite Hm', Z.pow_add_r by lia. apply Z.mul_lt_mono_pos_r; lia. }
    assert (Hk : dy - 1 < dx + (ex - ey - e')).
    { apply (Z.pow_lt_mono_r_iff 2); lia. }
    assert (Hb : Zdigits2 (m' / Z.pos my) <= dx + (ex - ey - e') - dy + 1).
    { apply Zdigits2_le_iff; try lia.
      apply Z.div_lt_upper_bound; [lia|].
      apply Z.lt_le_trans with (2 ^ (dy - 1) * 2 ^ (dx + (ex - ey - e') - dy + 1)).
      - rewrite <- Z.pow_add_r by lia.
        replace (dy - 1 + (dx + (ex - ey - e') - dy + 1)) with (dx + (ex - ey - e')) by lia.
        exact Hup.
      - apply Z.mul_le_mono_nonneg_r; [apply Z.pow_nonneg|]; lia. }
    lia.
Qed.

Lemma div_small_pos (mx my : positive) (ex ey K : Z) :
  Z.pos (digits2_pos mx) + ex - (Z.pos (digits2_pos my) + ey) + 1 <= K ->
  -149 <= K <= 104 ->
  small_pos (K + 1) (F32.div (S754_finite false mx ex) (S754_finite false my ey)).
Proof.
  intros HK Hr. unfold F32.div, SFdiv.
  pose proof (SFdiv_core_fits mx my ex ey K HK ltac:(lia)) as Hc.
  destruct (SFdiv_core_binary F32.prec F32.emax (Z.pos mx) ex (Z.pos my) ey) as [[q e'] l].
  pose proof (binary_round_aux_fits K (xorb false false) q e' l Hc Hr) as Hb.
  unfold small_pos. destruct (binary_round_aux _ _ _ q e' l); simpl in *; auto.
Qed.

Lemma mul_small_pos (mx my : positive) (ex ey K : Z) :
  Z.pos (digits2_pos mx) + ex + (Z.pos (digits2_pos my) + ey) <= K ->
  -149 <= K <= 104 ->
  small_pos (K + 1) (F32.mul (S754_finite false mx ex) (S754_finite false my ey)).
Proof.
  intros HK Hr. unfold F32.mul, SFmul.
  assert (Hc : fits K (Z.pos (mx * my)) (ex + ey)).
  { split; [lia|].
    assert (Zdigits2 (Z.pos (mx * my)) <= Z.pos (digits2_pos mx) + Z.pos (digits2_pos my)); [|lia].
    apply Zdigits2_le_iff; try lia.
    rewrite Z.pow_add_r by lia. rewrite Pos2Z.inj_mul.
    pose proof (Zdigits2_lt_pow2 (Z.pos mx) ltac:(lia)) as Hx.
    pose proof (Zdigits2_lt_pow2 (Z.pos my) ltac:(lia)) as Hy. simpl in Hx, Hy.
    apply Z.mul_lt_mono_nonneg; lia. }
  pose proof (binary_round_aux_fits K (xorb false false) _ _ loc_Exact Hc Hr) as Hb.
  unfold small_pos.
  destruct (binary_round_aux _ _ _ (Z.pos (mx * my)) (ex + ey) loc_Exact); simpl in *; auto.
Qed.

Lemma to_uint_small_pos (w : Z) (x : F32.f32) :
  small_pos 31 x -> 0 < w ->
  exists v, F32.to_uint w x = Some v /\ 0 <= v < 2 ^ w.
Proof.
  intros Hx Hw. destruct x as [s|s| |s m e]; simpl in Hx; try contradiction.
  - exists 0. split; [reflexivity|]. split; [lia|apply Z.pow_pos_nonneg; lia].
  - destruct Hx as [-> Hm]. unfold F32.to_uint, F32.trunc, cond_Zopp.
    assert (H0 : 0 <= Z.shiftl (Z.pos m) e) by (apply Z.shiftl_nonneg; lia).
    assert (H1 : Z.shiftl (Z.pos m) e < 2 ^ 31).
    { pose proof (Zdigits2_lt_pow2 (Z.pos m) ltac:(lia)) as Hd. simpl in Hd.
      destruct (Z_lt_le_dec e 0) as [Hneg|Hpos].
      - rewrite <- (Z.opp_involutive e), Z.shiftl_opp_r, Z.shiftr_div_pow2 by lia.
        apply Z.div_lt_upper_bound; [apply Z.pow_pos_nonneg; lia|].
        rewrite <- Z.pow_add_r by lia.
        apply Z.lt_le_trans with (2 ^ Z.pos (digits2_pos m)); [exact Hd|].
        apply Z.pow_le_mono_r; lia.
      - rewrite Z.shiftl_mul_pow2 by lia.
        apply Z.lt_le_trans with (2 ^ Z.pos (digits2_pos m) * 2 ^ e).
        + apply Z.mul_lt_mono_pos_r; [apply Z.pow_pos_nonneg; lia|exact Hd].
        + rewrite <- Z.pow_add_r by lia. apply Z.pow_le_mono_r; lia. }
    exists (Z.shiftl (Z.pos m) e mod 2 ^ w).
    replace (0 <=? Z.shiftl (Z.pos m) e) with true by (symmetry; apply Z.leb_le; lia).
    replace (Z.shiftl (Z.pos m) e <? 2 ^ 31) with true by (symmetry; apply Z.ltb_lt; lia).
    split; [reflexivity|]. apply Z.mod_pos_bound. apply Z.pow_pos_nonneg; lia.
Qed.

(** Every period and every non-zero pulse width of sixteen bits give a
    defined duty. *)
Lemma new_value_defined (period pw : Z) :
  0 <= period < 65536 -> 0 < pw < 65536 ->
  exists v, new_value period pw = Some v /\ 0 <= v < 65536.
Proof.
  intros Hp Hw. unfold new_value.
  change 65536 with (2 ^ 16). apply to_uint_small_pos; [|lia].
  destruct (of_Z_finite pw ltac:(lia)) as (my & ey & Ey & Hy).
  assert (Hdy : 1 <= Zdigits2 pw <= 16).
  { split; [rewrite Zdigits2_log2 by lia; pose proof (Z.log2_nonneg pw); lia|].
    apply Zdigits2_le_iff; lia. }
  assert (E4096 : F32.of_Z 4096 = S754_finite false 8388608 (-11)) by reflexivity.
  rewrite Ey, E4096.
  destruct (Z.eq_dec period 0) as [->|Hne].
  - simpl. reflexivity.
  - destruct (of_Z_finite period ltac:(lia)) as (mx & ex & Ex & Hx).
    assert (Hdx : 1 <= Zdigits2 period <= 16).
    { split; [rewrite Zdigits2_log2 by lia; pose proof (Z.log2_nonneg period); lia|].
      apply Zdigits2_le_iff; lia. }
    rewrite Ex.
    pose proof (div_small_pos mx my ex ey 16 ltac:(lia) ltac:(lia)) as Hd.
    destruct (F32.div (S754_finite false mx ex) (S754_finite false my ey))
      as [s|s| |s m e]; simpl in Hd; try contradiction.
    + subst s. simpl. reflexivity.
    + destruct Hd as [-> Hd].
      apply (mul_small_pos m 8388608 e (-11) 30); simpl digits2_pos; lia.
Qed.

(* ===================================================================== *)
(** ** Facts about bytes *)
(* ===================================================================== *)

Lemma lor_lt_pow2 (a b n : Z) :
  0 <= a < 2 ^ n -> 0 <= b < 2 ^ n -> 0 <= Z.lor a b < 2 ^ n.
Proof.
  intros Ha Hb.
  assert (Hn : 0 <= n).
  { destruct (Z_lt_le_dec n 0) as [Hlt|]; [|assumption].
    rewrite Z.pow_neg_r in Ha by assumption. lia. }
  assert (H0 : 0 <= Z.lor a b) by (apply Z.lor_nonneg; lia).
  split; [exact H0|].
  destruct (Z.eq_dec (Z.lor a b) 0) as [->|Hne]; [lia|].
  apply Z.log2_lt_pow2; [lia|].
  rewrite Z.log2_lor by lia.
  destruct (Z.eq_dec a 0) as [->|Ha0], (Z.eq_dec b 0) as [->|Hb0];
    rewrite ?Z.lor_0_l, ?Z.lor_0_r in *; try lia.
  - change (Z.log2 0) with 0. apply Z.max_lub_lt; [|apply Z.log2_lt_pow2; lia].
    destruct (Z.eq_dec n 0) as [->|]; [change (2 ^ 0) with 1 in *; lia|lia].
  - change (Z.log2 0) with 0. apply Z.max_lub_lt; [apply Z.log2_lt_pow2; lia|].
    destruct (Z.eq_dec n 0) as [->|]; [change (2 ^ 0) with 1 in *; lia|lia].
  - apply Z.max_lub_lt; apply Z.log2_lt_pow2; lia.
Qed.

Lemma u8_range (z : Z) : 0 <= u8 z < 256.
Proof. unfold u8. apply Z.mod_pos_bound. lia. Qed.

Lemma u8_small (z : Z) : 0 <= z < 256 -> u8 z = z.
Proof. intros H. unfold u8. apply Z.mod_small. lia. Qed.

Lemma u8_sleep_mode (old : Z) :
  0 <= old < 256 -> u8 (Z.lor (Z.land old 0x7F) 0x10) = Z.lor (Z.land old 0x7F) 0x10.
Proof.
  intros Ho. apply u8_small. change 256 with (2 ^ 8).
  apply lor_lt_pow2; change (2 ^ 8) with 256; [|lia].
  split; [apply Z.land_nonneg; lia|].
  change 127 with (Z.ones 7). rewrite Z.land_ones by lia.
  change (2 ^ 7) with 128.
  pose proof (Z.mod_pos_bound old 128 ltac:(lia)). lia.
Qed.

Lemma u8_restart_mode (old : Z) :
  0 <= old < 256 -> u8 (Z.lor old 0xa1) = Z.lor old 0xa1.
Proof.
  intros Ho. apply u8_small. change 256 with (2 ^ 8).
  apply lor_lt_pow2; change (2 ^ 8) with 256; lia.
Qed.

(* ===================================================================== *)
(** ** Register access, step by step *)
(* ===================================================================== *)

Ltac simpl_fields :=
  cbn [dev bus n_xfer trace console
       _mode _i2cpwm_interval _comms_errors _msg _pca_pwm_sub _pca_pwm
       _pwm_period_us _pwm_freq _test_pwm _current_values _mode_on_initialized _updated
       set_mode set_comms_errors set_msg set_pca_pwm_sub set_pca_pwm set_pwm_period_us
       set_pwm_freq set_test_pwm set_current_values set_mode_on_initialized set_updated] in *.

Ltac norm :=
  cbn -[ret_at byte_at Z.eqb Z.lor Z.land Z.add OK PCA9685_MODE1 PCA9685_PRESCALE].

Lemma dev_kept_refl (d : PCA9685) : dev_kept d d.
Proof. unfold dev_kept; tauto. Qed.

Lemma dev_kept_trans (d1 d2 d3 : PCA9685) :
  dev_kept d1 d2 -> dev_kept d2 d3 -> dev_kept d1 d3.
Proof. unfold dev_kept. intuition congruence. Qed.

(** One call of [setPWM]: one transfer of the five-byte message; only the
    message buffer and the error counter of the object change. *)
Lemma setPWM_run (num on off : Z) (m : Machine) :
  exists m',
    setPWM num on off m = Some (ret_at m 0, m')
    /\ bus m' = bus m
    /\ n_xfer m' = S (n_xfer m)
    /\ trace m' = trace m ++ [EvTransfer (setPWM_frame num on off) 0 (ret_at m 0)]
    /\ dev_kept (dev m) (dev m')
    /\ _current_values (dev m') = _current_values (dev m)
    /\ _comms_errors (dev m') =
         _comms_errors (dev m) + (if ret_at m 0 =? OK then 0 else 1).
Proof.
  unfold ret_at. rewrite Nat.add_0_r.
  unfold setPWM, bind, upd_dev, get_dev, transfer, when, perf_count_comms_errors, say, ret.
  cbn -[Z.eqb OK]. destruct (bus m (n_xfer m)) as [r rx] eqn:Eb. cbn -[Z.eqb OK].
  rewrite (Z.eqb_sym OK r).
  destruct (r =? OK) eqn:Er; cbn -[Z.eqb OK]; eexists; (split; [reflexivity|]); cbn;
    unfold dev_kept; cbn; (repeat split; lia).
Qed.

Lemma pin_encoding_cases (v : Z) :
  0 <= v ->
  pin_encoding v =
    if v >=? 4095 then (4096, 0) else if v =? 0 then (0, 4096) else (0, v).
Proof.
  intros Hv. unfold pin_encoding.
  destruct (Z.geb_spec v 4095) as [H|H].
  - replace (Z.max 0 (Z.min v 4095)) with 4095 by lia. reflexivity.
  - replace (Z.max 0 (Z.min v 4095)) with v by lia.
    destruct (Z.eqb_spec v 4095); [lia|]. reflexivity.
Qed.

(** [setPin] is [setPWM] at the on/off pair of the duty value. *)
Lemma setPin_setPWM (num val : Z) (m : Machine) :
  0 <= val ->
  setPin num val m = setPWM num (fst (pin_encoding val)) (snd (pin_encoding val)) m.
Proof.
  intros Hv. rewrite pin_encoding_cases by assumption. unfold setPin.
  destruct (Z.gtb_spec val 4095) as [H|H].
  - replace (val >=? 4095) with true by (symmetry; apply Z.geb_le; lia). reflexivity.
  - destruct (Z.eqb_spec val 4095) as [->|Hne]; [reflexivity|].
    replace (val >=? 4095) with false.
    + destruct (val =? 0); reflexivity.
    + symmetry. destruct (Z.geb_spec val 4095); [lia|reflexivity].
Qed.

Lemma setPin_run (num val : Z) (m : Machine) :
  0 <= val ->
  exists m',
    setPin num val m = Some (ret_at m 0, m')
    /\ bus m' = bus m
    /\ n_xfer m' = S (n_xfer m)
    /\ trace m' = trace m ++ [EvTransfer (setPWM_frame num (fst (pin_encoding val))
                                                       (snd (pin_encoding val))) 0 (ret_at m 0)]
    /\ dev_kept (dev m) (dev m')
    /\ _current_values (dev m') = _current_values (dev m)
    /\ _comms_errors (dev m') =
         _comms_errors (dev m) + (if ret_at m 0 =? OK then 0 else 1).
Proof.
  intros Hv. rewrite setPin_setPWM by assumption. apply setPWM_run.
Qed.

Lemma write8_run (addr value : Z) (m : Machine) :
  exists m',
    write8 addr value m = Some (ret_at m 0, m')
    /\ bus m' = bus m
    /\ n_xfer m' = S (n_xfer m)
    /\ trace m' = trace m ++ [EvTransfer [addr; value] 0 (ret_at m 0)]
    /\ _comms_errors (dev m') =
         _comms_errors (dev m) + (if ret_at m 0 =? OK then 0 else 1)
    /\ console m' = console m ++ (if ret_at m 0 =? OK then [] else [LogTransfer (ret_at m 0)]).
Proof.
  unfold ret_at. rewrite Nat.add_0_r.
  unfold write8, bind, upd_dev, get_dev, transfer, when, perf_count_comms_errors, say, ret.
  cbn -[Z.eqb OK]. destruct (bus m (n_xfer m)) as [r rx] eqn:Eb. cbn -[Z.eqb OK].
  destruct (r =? OK) eqn:Er; cbn -[Z.eqb OK]; eexists; (split; [reflexivity|]); cbn;
    rewrite ?app_nil_r; (repeat split; lia).
Qed.

(** [read8]: the address byte goes out, then one byte comes in; the first
    failure ends the call and is counted once. *)
Lemma read8_run (addr : Z) (m : Machine) :
  exists m',
    bus m' = bus m
    /\ if ret_at m 0 =? OK then
         if ret_at m 1 =? OK then
           read8 addr m = Some ((OK, Some (byte_at m 1)), m')
           /\ n_xfer m' = S (S (n_xfer m))
           /\ trace m' = trace m ++ [EvTransfer [addr] 0 OK; EvTransfer [] 1 OK]
           /\ _comms_errors (dev m') = _comms_errors (dev m)
           /\ console m' = console m
         else
           read8 addr m = Some ((ret_at m 1, None), m')
           /\ n_xfer m' = S (S (n_xfer m))
           /\ trace m' = trace m ++ [EvTransfer [addr] 0 OK; EvTransfer [] 1 (ret_at m 1)]
           /\ _comms_errors (dev m') = _comms_errors (dev m) + 1
           /\ console m' = console m ++ [LogTransfer (ret_at m 1)]
       else
         read8 addr m = Some ((ret_at m 0, None), m')
         /\ n_xfer m' = S (n_xfer m)
         /\ trace m' = trace m ++ [EvTransfer [addr] 0 (ret_at m 0)]
         /\ _comms_errors (dev m') = _comms_errors (dev m) + 1
         /\ console m' = console m ++ [LogTransfer (ret_at m 0)].
Proof.
  unfold ret_at, byte_at. rewrite Nat.add_0_r, Nat.add_1_r.
  unfold read8, fail_read, bind, upd_dev, get_dev, transfer, when,
    perf_count_comms_errors, say, ret.
  cbn -[Z.eqb OK u8].
  destruct (bus m (n_xfer m)) as [r0 x0] eqn:E0. cbn -[Z.eqb OK u8].
  destruct (r0 =? OK) eqn:Er0; cbn -[Z.eqb OK u8].
  - destruct (bus m (S (n_xfer m))) as [r1 x1] eqn:E1. cbn -[Z.eqb OK u8].
    apply Z.eqb_eq in Er0. subst r0.
    destruct (r1 =? OK) eqn:Er1; cbn -[Z.eqb OK u8].
    + apply Z.eqb_eq in Er1. subst r1.
      eexists. split; [|split; [reflexivity|]]; cbn; rewrite <- ?app_assoc; auto.
    + eexists. split; [|split; [reflexivity|]]; cbn; rewrite <- ?app_assoc; auto.
  - eexists. split; [|split; [reflexivity|]]; cbn; auto.
Qed.

Lemma ret_at_shift (m m' : Machine) (d j : nat) :
  bus m' = bus m -> n_xfer m' = (d + n_xfer m)%nat -> ret_at m' j = ret_at m (d + j).
Proof. intros Hb Hn. unfold ret_at. rewrite Hb, Hn. do 2 f_equal. lia. Qed.

(* ===================================================================== *)
(** ** The configuration sequence *)
(* ===================================================================== *)

Ltac chain_facts :=
  repeat match goal with
         | H : trace _ = _ |- _ => rewrite H
         | H : console _ = _ |- _ => rewrite H
         | H : _comms_errors _ = _ |- _ => rewrite H
         | H : n_xfer _ = _ |- _ => rewrite H
         | H : bus _ = _ |- _ => rewrite H
         end.

Ltac close_branch :=
  norm; chain_facts; rewrite <- ?app_assoc; unfold freq_sequence; norm;
  repeat match goal with
         | H : ret_at _ _ = OK |- _ => rewrite H
         | H : (ret_at _ _ =? OK) = false |- _ => rewrite H
         end;
  norm; rewrite ?Z.add_0_r, ?app_nil_r; auto 10.

Lemma setPWMFreq_run (freq : F32.f32) (p : Z) (m : Machine) :
  prescale_of freq = Some p ->
  exists r m',
    setPWMFreq freq m = Some (r, m')
    /\ bus m' = bus m
    /\ match first_failure_from m 0 6 with
       | None =>
           r = OK
           /\ trace m' = trace m ++ freq_sequence m p
           /\ n_xfer m' = (6 + n_xfer m)%nat
           /\ _comms_errors (dev m') = _comms_errors (dev m)
           /\ console m' = console m
       | Some k =>
           r = ret_at m k
           /\ trace m' = trace m ++ take (if (k =? 5)%nat then 7 else S k) (freq_sequence m p)
           /\ n_xfer m' = (S k + n_xfer m)%nat
           /\ _comms_errors (dev m') = _comms_errors (dev m) + 1
           /\ console m' = console m ++ [LogTransfer (ret_at m k)]
       end.
Proof.
  intros Hp. unfold setPWMFreq. unfold bind at 1, lift at 1. rewrite Hp.
  unfold bind at 1.
  destruct (read8_run PCA9685_MODE1 m) as (m1 & Hb1 & H1).
  cbn [first_failure_from].
  destruct (ret_at m 0 =? OK) eqn:E0; [apply Z.eqb_eq in E0|].
  2:{ destruct H1 as (-> & Hn1 & Ht1 & He1 & Hc1). cbn [fst snd negb]. rewrite E0. cbn [negb].
      eexists _, m1. unfold ret. split; [reflexivity|]. split; [exact Hb1|].
      split; [reflexivity|]. close_branch. }
  destruct (ret_at m 1 =? OK) eqn:E1; [apply Z.eqb_eq in E1|].
  2:{ destruct H1 as (-> & Hn1 & Ht1 & He1 & Hc1). cbn [fst snd negb]. rewrite E1. cbn [negb].
      eexists _, m1. unfold ret. split; [reflexivity|]. split; [exact Hb1|].
      split; [reflexivity|]. close_branch. }
  destruct H1 as (-> & Hn1 & Ht1 & He1 & Hc1). cbn [fst snd]. rewrite Z.eqb_refl.
  cbn [negb]. unfold bind at 1, lift at 1. unfold bind at 1.
  pose proof (u8_range (snd (bus m (n_xfer m + 1)))) as Hold. fold (byte_at m 1) in Hold.
  rewrite u8_sleep_mode, u8_restart_mode by exact Hold.
  match goal with |- context [write8 ?a ?v m1] =>
    destruct (write8_run a v m1) as (m2 & -> & Hb2 & Hn2 & Ht2 & He2 & Hc2) end.
  rewrite (ret_at_shift m m1 2 0) in * by (try congruence; lia). cbn [Nat.add] in *.
  destruct (ret_at m 2 =? OK) eqn:E2; [apply Z.eqb_eq in E2|].
  2:{ cbn [negb]. eexists _, m2. unfold ret. split; [reflexivity|]. split; [congruence|].
      split; [reflexivity|]. close_branch. }
  cbn [negb]. unfold bind at 1.
  match goal with |- context [write8 ?a ?v m2] =>
    destruct (write8_run a v m2) as (m3 & -> & Hb3 & Hn3 & Ht3 & He3 & Hc3) end.
  rewrite (ret_at_shift m m2 3 0) in * by (try congruence; lia). cbn [Nat.add] in *.
  destruct (ret_at m 3 =? OK) eqn:E3; [apply Z.eqb_eq in E3|].
  2:{ cbn [negb]. eexists _, m3. unfold ret. split; [reflexivity|]. split; [congruence|].
      split; [reflexivity|]. close_branch. }
  cbn [negb]. unfold bind at 1.
  match goal with |- context [write8 ?a ?v m3] =>
    destruct (write8_run a v m3) as (m4 & -> & Hb4 & Hn4 & Ht4 & He4 & Hc4) end.
  rewrite (ret_at_shift m m3 4 0) in * by (try congruence; lia). cbn [Nat.add] in *.
  destruct (ret_at m 4 =? OK) eqn:E4; [apply Z.eqb_eq in E4|].
  2:{ cbn [negb]. eexists _, m4. unfold ret. split; [reflexivity|]. split; [congruence|].
      split; [reflexivity|]. close_branch. }
  cbn [negb]. unfold bind at 1, usleep at 1, emit at 1. unfold bind at 1.
  match goal with |- context [write8 ?a ?v ?mm] =>
    destruct (write8_run a v mm) as (m5 & -> & Hb5 & Hn5 & Ht5 & He5 & Hc5) end.
  simpl_fields.
  match type of Ht5 with context [ret_at ?mm 0] =>
    rewrite (ret_at_shift m mm 5 0) in * by (simpl_fields; try congruence; lia) end.
  cbn [Nat.add] in *.
  destruct (ret_at m 5 =? OK) eqn:E5; [apply Z.eqb_eq in E5|]; cbn [negb]; unfold ret;
    eexists _, m5; (split; [reflexivity|]); (split; [congruence|]);
    (split; [try rewrite E5; reflexivity|]); close_branch.
Qed.

(* ===================================================================== *)
(** ** Traces *)
(* ===================================================================== *)

Lemma frames_to_app (reg : Z) (t1 t2 : list event) :
  frames_to reg (t1 ++ t2) = frames_to reg t1 ++ frames_to reg t2.
Proof. unfold frames_to. apply flat_map_app. Qed.

(** The message of channel [i] starts with that channel's register, and with
    no other channel's. *)
Lemma channel_frames_setPWM (i j : nat) (on off r : Z) :
  (i < 16)%nat -> (j < 16)%nat ->
  channel_frames j [EvTransfer (setPWM_frame (u8 (Z.of_nat i)) on off) 0 r] =
    if (i =? j)%nat then [setPWM_frame (Z.of_nat i) on off] else [].
Proof.
  intros Hi Hj. unfold channel_frames, frames_to, setPWM_frame, channel_reg, LED0_ON_L. simpl.
  rewrite (u8_small (Z.of_nat i)) by lia.
  rewrite (u8_small (6 + 4 * Z.of_nat i)) by lia.
  destruct (Nat.eqb_spec i j) as [->|Hne].
  - rewrite Z.eqb_refl. reflexivity.
  - destruct (Z.eqb_spec (6 + 4 * Z.of_nat i) (6 + 4 * Z.of_nat j)); [lia|reflexivity].
Qed.

Lemma channel_frames_schedule (i : nat) (t : list event) (d : Z) :
  channel_frames i (t ++ [EvSchedule d]) = channel_frames i t.
Proof.
  unfold channel_frames. rewrite frames_to_app. cbn. apply app_nil_r.
Qed.

(* ===================================================================== *)
(** ** The loop over the channels *)
(* ===================================================================== *)

Lemma channels_run (n : nat) : forall (k : nat) (m : Machine),
  (k + n <= 16)%nat ->
  u16_range (_pwm_period_us (dev m)) ->
  length (_current_values (dev m)) = 16%nat ->
  length (pulse_width (_pca_pwm (dev m))) = 16%nat ->
  Forall (fun w => 0 < w < 65536) (pulse_width (_pca_pwm (dev m))) ->
  exists m',
    for_range k n RunImpl_channel m = Some (tt, m')
    /\ bus m' = bus m
    /\ dev_kept (dev m) (dev m')
    /\ length (_current_values (dev m')) = 16%nat
    /\ (exists evs, trace m' = trace m ++ evs /\ Forall is_transfer evs)
    /\ forall (i : nat) (w c nv : Z),
         (i < 16)%nat ->
         pulse_width (_pca_pwm (dev m)) !! i = Some w ->
         _current_values (dev m) !! i = Some c ->
         new_value (_pwm_period_us (dev m)) w = Some nv ->
         if in_range k n i && applies nv c
         then _current_values (dev m') !! i = Some nv
              /\ channel_frames i (trace m') =
                   channel_frames i (trace m)
                   ++ [setPWM_frame (Z.of_nat i) (fst (pin_encoding nv)) (snd (pin_encoding nv))]
         else _current_values (dev m') !! i = Some c
              /\ channel_frames i (trace m') = channel_frames i (trace m).
Proof.
  induction n as [|n IH]; intros k m Hk Hp Hc Hl Hw.
  - exists m. simpl. repeat split; auto using dev_kept_refl.
    { exists []. rewrite app_nil_r. auto. }
    intros i w c nv Hi Ew Ec En.
    replace (in_range k 0 i) with false; [simpl; auto|].
    unfold in_range. destruct (Nat.leb_spec k i), (Nat.ltb_spec i (k + 0)); simpl; auto; lia.
  - assert (Hk16 : (k < 16)%nat) by lia.
    destruct (lookup_lt_is_Some_2 (pulse_width (_pca_pwm (dev m))) k ltac:(lia)) as [w Ew].
    destruct (lookup_lt_is_Some_2 (_current_values (dev m)) k ltac:(lia)) as [c Ec].
    assert (Hwr : 0 < w < 65536) by (eapply (proj1 (Forall_lookup _ _) Hw); eauto).
    destruct (new_value_defined _ w Hp Hwr) as (nv & En & Hnv).
    cbn [for_range]. unfold bind at 1. unfold RunImpl_channel at 1.
    unfold bind at 1. unfold get_dev at 1. cbn beta iota.
    unfold bind at 1, lift at 1. cbn [dev]. rewrite Ew.
    unfold bind at 1, lift at 1. rewrite En.
    unfold bind at 1, lift at 1. rewrite Ec.
    unfold bind at 1, say at 1. cbn beta iota.
    fold (applies nv c).
    destruct (applies nv c) eqn:Ea.
    + unfold bind at 1.
      match goal with |- context [setPin ?a ?b ?mm] =>
        destruct (setPin_run a b mm ltac:(lia)) as (m1 & E1 & Hb1 & Hn1 & Ht1 & Hd1 & Hc1 & _)
      end.
      rewrite E1. unfold upd_dev at 1.
      match goal with |- context [for_range (S k) n RunImpl_channel ?mm] => set (m2 := mm) end.
      assert (Hd2 : dev_kept (dev m) (dev m2)).
      { unfold dev_kept in *. subst m2. cbn in *. intuition congruence. }
      assert (Hc2 : _current_values (dev m2) = <[k := nv]> (_current_values (dev m))).
      { subst m2. cbn in *. congruence. }
      assert (Hb2 : bus m2 = bus m) by (subst m2; cbn in *; congruence).
      assert (Htr2 : exists r, trace m2 =
                trace m ++ [EvTransfer (setPWM_frame (u8 (Z.of_nat k)) (fst (pin_encoding nv))
                                                     (snd (pin_encoding nv))) 0 r])
        by (eexists; subst m2; cbn in *; rewrite Ht1; reflexivity).
      destruct Htr2 as [r2 Htr2].
      clearbody m2.
      destruct (IH (S k) m2) as (m' & E' & Hb' & Hd' & Hc' & Hs' & Hi').
      * lia.
      * destruct Hd2 as (_ & _ & _ & _ & -> & _). exact Hp.
      * rewrite Hc2, length_insert. exact Hc.
      * destruct Hd2 as (_ & _ & _ & -> & _). exact Hl.
      * destruct Hd2 as (_ & _ & _ & -> & _). exact Hw.
      * exists m'. split; [exact E'|].
        split; [congruence|].
        split; [eapply dev_kept_trans; eauto|].
        split; [exact Hc'|].
        split.
        { destruct Hs' as (evs & Hev & Hall). eexists. rewrite Hev, Htr2, <- app_assoc.
          split; [reflexivity|]. constructor; [exact I|exact Hall]. }
        intros i w' c' nv' Hi Ew' Ec' En'.
        assert (Ht2 : channel_frames i (trace m2) =
                      channel_frames i (trace m) ++
                      if (k =? i)%nat
                      then [setPWM_frame (Z.of_nat k) (fst (pin_encoding nv)) (snd (pin_encoding nv))]
                      else []).
        { rewrite Htr2. unfold channel_frames at 1.
          rewrite frames_to_app. fold (channel_frames i (trace m)).
          match goal with |- context [frames_to (channel_reg i) [?e]] =>
            change (frames_to (channel_reg i) [e]) with (channel_frames i [e]) end.
          rewrite (channel_frames_setPWM k i) by lia. reflexivity. }
        assert (Hper : _pwm_period_us (dev m2) = _pwm_period_us (dev m))
          by (destruct Hd2 as (_ & _ & _ & _ & -> & _); reflexivity).
        assert (Hpw : _pca_pwm (dev m2) = _pca_pwm (dev m))
          by (destruct Hd2 as (_ & _ & _ & -> & _); reflexivity).
        destruct (Nat.eq_dec i k) as [->|Hne].
        -- assert (w' = w) by congruence. assert (c' = c) by congruence.
           assert (nv' = nv) by congruence. subst w' c' nv'.
           specialize (Hi' k w nv nv Hk16).
           rewrite Hpw, Hper, Hc2 in Hi'.
           assert (Hkk : <[k:=nv]> (_current_values (dev m)) !! k = Some nv)
             by (apply list_lookup_insert_eq; lia).
           specialize (Hi' Ew Hkk En).
           replace (in_range (S k) n k) with false in Hi'
             by (unfold in_range; destruct (Nat.leb_spec (S k) k); [lia|reflexivity]).
           cbn in Hi'. destruct Hi' as [Hi1 Hi2].
           replace (in_range k (S n) k) with true
             by (unfold in_range; destruct (Nat.leb_spec k k), (Nat.ltb_spec k (k + S n));
                 simpl; auto; lia).
           rewrite Ea. cbn. rewrite Nat.eqb_refl in Ht2. split; [exact Hi1|congruence].
        -- specialize (Hi' i w' c' nv' Hi).
           rewrite Hpw, Hper, Hc2 in Hi'.
           rewrite list_lookup_insert_ne in Hi' by lia.
           specialize (Hi' Ew' Ec' En').
           replace (in_range k (S n) i) with (in_range (S k) n i)
             by (unfold in_range; destruct (Nat.leb_spec (S k) i), (Nat.leb_spec k i),
                   (Nat.ltb_spec i (S k + n)), (Nat.ltb_spec i (k + S n)); simpl; auto; lia).
           replace (k =? i)%nat with false in Ht2
             by (symmetry; apply Nat.eqb_neq; lia).
           rewrite app_nil_r in Ht2. rewrite <- Ht2. exact Hi'.
    + assert (Hidle : exists cs,
                when (nv <? 4096) (say (DbgOutOfRange nv))
                  (mkMachine (dev m) (bus m) (n_xfer m) (trace m)
                             (console m ++ [DbgChannel k c nv w]))
                = Some (tt, mkMachine (dev m) (bus m) (n_xfer m) (trace m) cs)).
      { unfold when. destruct (nv <? 4096); eexists; reflexivity. }
      destruct Hidle as [cs Hidle]. cbn beta iota. rewrite Hidle.
      destruct (IH (S k) (mkMachine (dev m) (bus m) (n_xfer m) (trace m) cs))
        as (m' & E' & Hb' & Hd' & Hc' & Hs' & Hi'); try assumption; [lia|].
      exists m'. cbn [dev bus trace] in *.
      repeat (split; [assumption|]).
      intros i w' c' nv' Hi Ew' Ec' En'.
      specialize (Hi' i w' c' nv' Hi Ew' Ec' En').
      replace (in_range k (S n) i && applies nv' c')
        with (in_range (S k) n i && applies nv' c'); [exact Hi'|].
      destruct (Nat.eq_dec i k) as [->|Hne].
      * assert (w' = w) by congruence. assert (c' = c) by congruence.
        assert (nv' = nv) by congruence. subst. rewrite Ea, !andb_false_r. reflexivity.
      * f_equal. unfold in_range.
        destruct (Nat.leb_spec (S k) i), (Nat.leb_spec k i),
          (Nat.ltb_spec i (S k + n)), (Nat.ltb_spec i (k + S n)); simpl; auto; lia.
Qed.

(** Channels whose duty passes no guard leave object, bus and trace alone. *)
Lemma channels_idle (n : nat) : forall (k : nat) (m : Machine),
  (forall i, (k <= i < k + n)%nat ->
     exists w c nv,
       pulse_width (_pca_pwm (dev m)) !! i = Some w
       /\ _current_values (dev m) !! i = Some c
       /\ new_value (_pwm_period_us (dev m)) w = Some nv
       /\ applies nv c = false) ->
  exists cs,
    for_range k n RunImpl_channel m =
      Some (tt, mkMachine (dev m) (bus m) (n_xfer m) (trace m) cs).
Proof.
  induction n as [|n IH]; intros k m Hall.
  - exists (console m). destruct m; reflexivity.
  - destruct (Hall k ltac:(lia)) as (w & c & nv & Ew & Ec & En & Ea).
    cbn [for_range]. unfold bind at 1. unfold RunImpl_channel at 1.
    unfold bind at 1. unfold get_dev at 1. cbn beta iota.
    unfold bind at 1, lift at 1. cbn [dev]. rewrite Ew.
    unfold bind at 1, lift at 1. rewrite En.
    unfold bind at 1, lift at 1. rewrite Ec.
    unfold bind at 1, say at 1. cbn beta iota.
    fold (applies nv c). rewrite Ea.
    assert (Hidle : exists cs,
                when (nv <? 4096) (say (DbgOutOfRange nv))
                  (mkMachine (dev m) (bus m) (n_xfer m) (trace m)
                             (console m ++ [DbgChannel k c nv w]))
                = Some (tt, mkMachine (dev m) (bus m) (n_xfer m) (trace m) cs)).
    { unfold when. destruct (nv <? 4096); eexists; reflexivity. }
    destruct Hidle as [cs Hidle]. cbn beta iota. rewrite Hidle.
    destruct (IH (S k) (mkMachine (dev m) (bus m) (n_xfer m) (trace m) cs)) as [cs' E'].
    + intros i Hi. apply Hall. lia.
    + exists cs'. exact E'.
Qed.

Lemma setPin_any (num val : Z) :
  exists on off, setPin num val = setPWM num on off.
Proof.
  unfold setPin.
  destruct ((if val >? 4095 then 4095 else val) =? 4095); [eauto|].
  destruct ((if val >? 4095 then 4095 else val) =? 0); eauto.
Qed.

(** The loop of the test pattern: one transfer per channel. *)
Lemma test_loop_run (n : nat) : forall (k : nat) (m : Machine),
  exists m',
    for_range k n (fun i =>
      let* d := get_dev in
      let* _ := setPin (u8 (Z.of_nat i)) (_test_pwm d) in
      ret tt) m = Some (tt, m')
    /\ dev_kept (dev m) (dev m')
    /\ exists evs, trace m' = trace m ++ evs /\ Forall is_transfer evs /\ length evs = n.
Proof.
  induction n as [|n IH]; intros k m.
  - exists m. split; [reflexivity|]. split; [apply dev_kept_refl|].
    exists []. rewrite app_nil_r. auto.
  - cbn [for_range]. unfold bind at 1. unfold bind at 1, get_dev at 1. cbn beta iota.
    destruct (setPin_any (u8 (Z.of_nat k)) (_test_pwm (dev m))) as (on & off & ->).
    unfold bind at 1.
    destruct (setPWM_run (u8 (Z.of_nat k)) on off m) as (m1 & E1 & _ & _ & Ht1 & Hd1 & _).
    rewrite E1. unfold ret at 1.
    destruct (IH (S k) m1) as (m' & E' & Hd' & evs & Hev & Hall & Hlen).
    exists m'. split; [exact E'|]. split; [eapply dev_kept_trans; eauto|].
    eexists. rewrite Hev, Ht1, <- app_assoc. split; [reflexivity|].
    split; [constructor; [exact I|exact Hall]|]. cbn. rewrite Hlen. reflexivity.
Qed.


(* ===================================================================== *)
(** ** Whole ticks *)
(* ===================================================================== *)

Lemma period_guard_accepted (cur p : Z) :
  period_guard cur p = true <-> period_accepted cur p.
Proof.
  unfold period_guard, period_accepted, PWM_PERIOD_MIN_US, PWM_PERIOD_MAX_US.
  rewrite !andb_true_iff, negb_true_iff, Z.eqb_neq, Z.geb_le, Z.leb_le. lia.
Qed.

Lemma period_guard_rejected (cur p : Z) :
  period_guard cur p = false <-> ~ period_accepted cur p.
Proof.
  rewrite <- period_guard_accepted. destruct (period_guard cur p); split; congruence.
Qed.

(** With a fresh sample pending, normal mode is the loop over the channels
    run after the sample has been copied and its period examined. *)
Lemma RunImpl_on_fresh (inp : orb_in) (cmd : pca_pwm_s) (m : Machine) :
  orb_fresh inp = Some cmd ->
  RunImpl_on inp m = for_range 0 NUMBER_PWM_CHANNELS RunImpl_channel (after_poll inp cmd m).
Proof.
  intros Hfresh. unfold RunImpl_on, RunImpl_period, orb_check, orb_copy, after_poll, period_guard.
  unfold bind, get_dev, when, upd_dev, say, ret. rewrite Hfresh.
  destruct m as [d b n t c]. destruct d as [md iv ce ms sub pp per fr tp cv ini up].
  simpl_fields.
  destruct ini; cbn [negb]; simpl_fields;
    destruct (negb (per =? pwm_period cmd)
              && (pwm_period cmd >=? PWM_PERIOD_MIN_US)
              && (pwm_period cmd <=? PWM_PERIOD_MAX_US));
    simpl_fields; rewrite ?app_nil_r; reflexivity.
Qed.

(** A tick in normal mode that finds a fresh, well-formed command. *)
Lemma RunImpl_fresh_run (inp : orb_in) (cmd : pca_pwm_s) (m : Machine) :
  _mode (dev m) = IOX_MODE_ON ->
  orb_fresh inp = Some cmd ->
  dev_ok (dev m) ->
  cmd_ok cmd ->
  let accepted := period_guard (_pwm_period_us (dev m)) (pwm_period cmd) in
  let period' := if accepted then pwm_period cmd else _pwm_period_us (dev m) in
  exists m',
    RunImpl inp m = Some (tt, m')
    /\ bus m' = bus m
    /\ _mode (dev m') = IOX_MODE_ON
    /\ _i2cpwm_interval (dev m') = _i2cpwm_interval (dev m)
    /\ _pca_pwm (dev m') = cmd
    /\ _mode_on_initialized (dev m') = true
    /\ _updated (dev m') = true
    /\ _pwm_period_us (dev m') = period'
    /\ _pwm_freq (dev m') =
         (if accepted then F32.div (F32.of_Z 1000000) (F32.of_Z (pwm_period cmd))
          else _pwm_freq (dev m))
    /\ length (_current_values (dev m')) = 16%nat
    /\ (exists evs, trace m' = trace m ++ evs ++ [EvSchedule (_i2cpwm_interval (dev m))]
                    /\ Forall is_transfer evs)
    /\ forall (i : nat) (w c nv : Z),
         (i < 16)%nat ->
         pulse_width cmd !! i = Some w ->
         _current_values (dev m) !! i = Some c ->
         new_value period' w = Some nv ->
         if applies nv c
         then _current_values (dev m') !! i = Some nv
              /\ channel_frames i (trace m') =
                   channel_frames i (trace m)
                   ++ [setPWM_frame (Z.of_nat i) (fst (pin_encoding nv)) (snd (pin_encoding nv))]
         else _current_values (dev m') !! i = Some c
              /\ channel_frames i (trace m') = channel_frames i (trace m).
Proof.
  intros Hmode Hfresh [Hper Hlen] (Hcp & Hcl & Hcw) accepted period'.
  unfold RunImpl, bind at 1, get_dev at 1. cbn beta iota. rewrite Hmode.
  unfold bind at 1. rewrite (RunImpl_on_fresh inp cmd m Hfresh).
  set (m0 := after_poll inp cmd m).
  assert (Hp0 : u16_range (_pwm_period_us (dev m0))).
  { subst m0. unfold after_poll. simpl_fields. fold accepted.
    destruct accepted; [exact Hcp|exact Hper]. }
  destruct (channels_run 16 0 m0 ltac:(lia) Hp0) as (m1 & E1 & Hb1 & Hd1 & Hc1 & Hev1 & Hi1);
    try (subst m0; unfold after_poll; simpl_fields; assumption).
  change NUMBER_PWM_CHANNELS with 16%nat. rewrite E1.
  unfold bind, get_dev, ScheduleDelayed, emit. cbn beta iota.
  eexists. split; [reflexivity|].
  unfold dev_kept in Hd1. destruct Hd1 as (H1 & H2 & H3 & H4 & H5 & H6 & H7 & H8 & H9).
  subst m0. unfold after_poll in *. simpl_fields. fold accepted in H5, H6, Hi1. fold period' in H5, Hi1.
  repeat (split; [congruence|]).
  split.
  { destruct Hev1 as (evs & -> & Hall). exists evs. rewrite <- app_assoc, H2. auto. }
  intros i w c nv Hi Ew Ec En.
  specialize (Hi1 i w c nv Hi Ew Ec En).
  replace (in_range 0 16 i) with true in Hi1
    by (unfold in_range; destruct (Nat.ltb_spec i (0 + 16)); [reflexivity|lia]).
  cbn [andb] in Hi1. rewrite !channel_frames_schedule. exact Hi1.
Qed.

(** A tick in normal mode whose fresh command changes nothing: no transfer is
    issued; the tick only reschedules. *)
Lemma RunImpl_idle_run (inp : orb_in) (cmd : pca_pwm_s) (m : Machine) :
  _mode (dev m) = IOX_MODE_ON ->
  orb_fresh inp = Some cmd ->
  _pca_pwm (dev m) = cmd ->
  _mode_on_initialized (dev m) = true ->
  _updated (dev m) = true ->
  period_guard (_pwm_period_us (dev m)) (pwm_period cmd) = false ->
  (forall i, (i < 16)%nat ->
     exists w c nv,
       pulse_width cmd !! i = Some w
       /\ _current_values (dev m) !! i = Some c
       /\ new_value (_pwm_period_us (dev m)) w = Some nv
       /\ applies nv c = false) ->
  exists m',
    RunImpl inp m = Some (tt, m')
    /\ dev m' = dev m
    /\ bus m' = bus m
    /\ n_xfer m' = n_xfer m
    /\ trace m' = trace m ++ [EvSchedule (_i2cpwm_interval (dev m))].
Proof.
  intros Hmode Hfresh Hcmd Hini Hupd Hguard Hall.
  unfold RunImpl, bind at 1, get_dev at 1. cbn beta iota. rewrite Hmode.
  unfold bind at 1. rewrite (RunImpl_on_fresh inp cmd m Hfresh).
  assert (Hm0 : exists cs, after_poll inp cmd m =
                           mkMachine (dev m) (bus m) (n_xfer m) (trace m) cs).
  { unfold after_poll. rewrite Hguard, Hini.
    destruct m as [d b n t c]. destruct d as [md iv ce ms sub pp per fr tp cv ini up].
    simpl_fields. subst. eexists. reflexivity. }
  destruct Hm0 as [cs0 ->].
  destruct (channels_idle 16 0 (mkMachine (dev m) (bus m) (n_xfer m) (trace m) cs0)) as [cs E1].
  { intros i Hi. simpl_fields. rewrite Hcmd. apply Hall. lia. }
  change NUMBER_PWM_CHANNELS with 16%nat. rewrite E1.
  unfold bind, get_dev, ScheduleDelayed, emit. cbn beta iota.
  eexists. split; [reflexivity|]. simpl_fields. auto.
Qed.

(** A tick in test mode. *)
Lemma RunImpl_test_run (inp : orb_in) (m : Machine) :
  _mode (dev m) = IOX_MODE_TEST_OUT ->
  exists m',
    RunImpl inp m = Some (tt, m')
    /\ _i2cpwm_interval (dev m') = _i2cpwm_interval (dev m)
    /\ _pwm_period_us (dev m') = _pwm_period_us (dev m)
    /\ exists evs, trace m' = trace m ++ evs ++ [EvSchedule (_i2cpwm_interval (dev m))]
                   /\ Forall is_transfer evs /\ length evs = 16%nat.
Proof.
  intros Hmode.
  unfold RunImpl, bind at 1, get_dev at 1. cbn beta iota. rewrite Hmode.
  unfold bind at 1, RunImpl_test at 1.
  unfold bind at 1, get_dev at 1. cbn beta iota.
  unfold bind at 1.
  assert (Hw : exists d0,
             when (_test_pwm (dev m) >? 4096) (upd_dev (set_test_pwm 0)) m
             = Some (tt, mkMachine d0 (bus m) (n_xfer m) (trace m) (console m))
             /\ _i2cpwm_interval d0 = _i2cpwm_interval (dev m)
             /\ _pwm_period_us d0 = _pwm_period_us (dev m)).
  { unfold when, upd_dev, ret. destruct (_test_pwm (dev m) >? 4096).
    - eexists. split; [reflexivity|]. split; reflexivity.
    - exists (dev m). destruct m; auto. }
  destruct Hw as (d0 & -> & Hi0 & Hp0).
  unfold bind at 1. change NUMBER_PWM_CHANNELS with 16%nat.
  destruct (test_loop_run 16 0 (mkMachine d0 (bus m) (n_xfer m) (trace m) (console m)))
    as (m1 & E1 & Hd1 & evs & Hev & Hall & Hlen).
  rewrite E1. unfold upd_dev at 1, bind, get_dev, ScheduleDelayed, emit. cbn beta iota.
  eexists. split; [reflexivity|]. simpl_fields.
  destruct Hd1 as (_ & H2 & _ & _ & H5 & _). simpl_fields.
  split; [congruence|]. split; [congruence|].
  exists evs. rewrite Hev, <- app_assoc, H2, Hi0. auto.
Qed.

(** A tick in normal mode that finds no fresh command. *)
Lemma RunImpl_stale_run (inp : orb_in) (m : Machine) :
  _mode (dev m) = IOX_MODE_ON ->
  orb_fresh inp = None ->
  exists m',
    RunImpl inp m = Some (tt, m')
    /\ _i2cpwm_interval (dev m') = _i2cpwm_interval (dev m)
    /\ _pwm_period_us (dev m') = _pwm_period_us (dev m)
    /\ _current_values (dev m') = _current_values (dev m)
    /\ n_xfer m' = n_xfer m
    /\ trace m' = trace m ++ [EvSchedule (_i2cpwm_interval (dev m))].
Proof.
  intros Hmode Hfresh.
  unfold RunImpl, RunImpl_on, orb_check.
  unfold bind, get_dev, when, upd_dev, ScheduleDelayed, emit, ret.
  rewrite Hmode, Hfresh.
  destruct m as [d b n t c]. destruct d as [md iv ce ms sub pp per fr tp cv ini up].
  simpl_fields. destruct ini; cbn [negb]; simpl_fields;
    (eexists; split; [reflexivity|]; simpl_fields; auto).
Qed.

(* ===================================================================== *)
(** ** A pulse width of zero *)
(* ===================================================================== *)

(** Dividing by a zero pulse width gives an infinity or a NaN, never a
    number. *)
Lemma div_by_zero_not_finite (x : F32.f32) :
  F32.trunc (F32.div x (F32.of_Z 0)) = None.
Proof. destruct x as [s|s| |s m e]; reflexivity. Qed.

Lemma new_value_zero (period : Z) : new_value period 0 = None.
Proof.
  unfold new_value. change (F32.of_Z 0) with (S754_zero false).
  change (F32.of_Z 4096) with (S754_finite false 8388608 (-11)).
  destruct (F32.of_Z period) as [s|s| |s m e]; reflexivity.
Qed.

Lemma RunImpl_channel_zero (i : nat) (m : Machine) :
  pulse_width (_pca_pwm (dev m)) !! i = Some 0 ->
  RunImpl_channel i m = None.
Proof.
  intros Hz. unfold RunImpl_channel, bind, get_dev, lift. rewrite Hz.
  rewrite new_value_zero. reflexivity.
Qed.

(** The loop body never touches the command sample. *)
Lemma RunImpl_channel_keeps_cmd (i : nat) (m m' : Machine) :
  RunImpl_channel i m = Some (tt, m') ->
  _pca_pwm (dev m') = _pca_pwm (dev m).
Proof.
  unfold RunImpl_channel. unfold bind at 1, get_dev at 1. cbn beta iota.
  unfold bind at 1, lift at 1.
  destruct (pulse_width (_pca_pwm (dev m)) !! i) as [w|]; [|discriminate].
  unfold bind at 1, lift at 1.
  destruct (new_value (_pwm_period_us (dev m)) w) as [nv|]; [|discriminate].
  unfold bind at 1, lift at 1.
  destruct (_current_values (dev m) !! i) as [c|]; [|discriminate].
  unfold bind at 1, say at 1. cbn beta iota.
  destruct (negb (nv =? c) && (nv <? 4096)).
  - destruct (setPin_any (u8 (Z.of_nat i)) nv) as (on & off & ->).
    unfold bind at 1.
    match goal with |- context [setPWM ?a ?b ?c ?mm] =>
      destruct (setPWM_run a b c mm) as (m1 & -> & _ & _ & _ & Hd1 & _) end.
    unfold upd_dev. intros [= <-]. simpl_fields.
    destruct Hd1 as (_ & _ & _ & H4 & _). simpl_fields. exact H4.
  - unfold when, say, ret. destruct (nv <? 4096); intros [= <-]; reflexivity.
Qed.

Lemma for_range_zero (n : nat) : forall (k i : nat) (m : Machine),
  (k <= i < k + n)%nat ->
  pulse_width (_pca_pwm (dev m)) !! i = Some 0 ->
  for_range k n RunImpl_channel m = None.
Proof.
  induction n as [|n IH]; intros k i m Hi Hz; [lia|].
  cbn [for_range]. unfold bind.
  destruct (Nat.eq_dec i k) as [->|Hne].
  - rewrite RunImpl_channel_zero by assumption. reflexivity.
  - destruct (RunImpl_channel k m) as [[[] m1]|] eqn:E1; [|reflexivity].
    apply (IH (S k) i); [lia|].
    rewrite (RunImpl_channel_keeps_cmd k m m1 E1). exact Hz.
Qed.

(* ===================================================================== *)
(** ** The prescaler *)
(* ===================================================================== *)

Lemma prescale_whole_hz_checked :
  forallb prescale_matches (map Z.of_nat (seq 24 1503)) = true.
Proof. vm_compute. reflexivity. Qed.

(** For every whole number of hertz in the chip's range the prescaler
    computed in single precision is the one of the exact formula. *)
Lemma prescale_whole_hz (f : Z) :
  24 <= f <= 1526 ->
  prescale_of (F32.of_Z f) = Some (spec_prescale (inject_Z f))
  /\ 3 <= spec_prescale (inject_Z f) <= 253.
Proof.
  intros Hf.
  pose proof (proj1 (forallb_forall _ _) prescale_whole_hz_checked f) as H.
  assert (Hin : In f (map Z.of_nat (seq 24 1503))).
  { apply in_map_iff. exists (Z.to_nat f). split; [lia|]. apply in_seq. lia. }
  specialize (H Hin). unfold prescale_matches in H.
  destruct (prescale_of (F32.of_Z f)) as [p|]; [|discriminate].
  rewrite !andb_true_iff, Z.eqb_eq, !Z.leb_le in H.
  destruct H as [[-> H3] H253]. auto.
Qed.

(* ===================================================================== *)
(** ** Properties of the specification *)
(* ===================================================================== *)

Lemma cmd_ok_lookup (cmd : pca_pwm_s) (i : nat) :
  cmd_ok cmd -> (i < 16)%nat ->
  exists w, pulse_width cmd !! i = Some w /\ 0 < w < 65536.
Proof.
  intros (_ & Hl & Hw) Hi.
  destruct (lookup_lt_is_Some_2 (pulse_width cmd) i) as [w Ew].
  { rewrite Hl. exact Hi. }
  exists w. split; [exact Ew|]. eapply (proj1 (Forall_lookup _ _) Hw); eauto.
Qed.

Lemma dev_ok_lookup (d : PCA9685) (i : nat) :
  dev_ok d -> (i < 16)%nat -> exists c, _current_values d !! i = Some c.
Proof.
  intros [_ Hl] Hi. apply lookup_lt_is_Some_2. rewrite Hl. exact Hi.
Qed.

Lemma applies_true (nv c : Z) : applies nv c = true <-> nv <> c /\ nv < 4096.
Proof.
  unfold applies. rewrite andb_true_iff, negb_true_iff, Z.eqb_neq, Z.ltb_lt. tauto.
Qed.

Lemma applies_false (nv c : Z) : applies nv c = false <-> ~ (nv <> c /\ nv < 4096).
Proof.
  rewrite <- applies_true. destruct (applies nv c); split; congruence.
Qed.

Lemma period_after_in_range (cur p : Z) :
  u16_range cur -> u16_range p ->
  u16_range (if period_guard cur p then p else cur).
Proof. intros; destruct (period_guard cur p); assumption. Qed.

(** C1 (as amended).  In normal mode, for every fresh command without a zero
    pulse width and every channel [i] in 0..15, the control loop computes the
    duty [new_value] in single precision, truncated toward zero and reduced
    to sixteen bits (not rounded); exactly when that value differs from the
    channel's last-applied value and is below 4096 it is handed to [setPin]
    (one message to the channel's registers) and becomes the last-applied
    value; otherwise nothing is written to the channel and its last-applied
    value stays. *)
Theorem C1_channel_update (inp : orb_in) (cmd : pca_pwm_s) (m : Machine) :
  _mode (dev m) = IOX_MODE_ON ->
  orb_fresh inp = Some cmd ->
  dev_ok (dev m) ->
  cmd_ok cmd ->
  exists m',
    RunImpl inp m = Some (tt, m')
    /\ forall i : nat, (i < 16)%nat ->
       exists w c nv,
         pulse_width cmd !! i = Some w
         /\ _current_values (dev m) !! i = Some c
         /\ new_value (_pwm_period_us (dev m')) w = Some nv
         /\ (nv <> c /\ nv < 4096 ->
             _current_values (dev m') !! i = Some nv
             /\ channel_frames i (trace m') =
                  channel_frames i (trace m)
                  ++ [setPWM_frame (Z.of_nat i) (fst (pin_encoding nv)) (snd (pin_encoding nv))])
         /\ (~ (nv <> c /\ nv < 4096) ->
             _current_values (dev m') !! i = Some c
             /\ channel_frames i (trace m') = channel_frames i (trace m)).
Proof.
  intros Hmode Hfresh Hd Hc.
  destruct (RunImpl_fresh_run inp cmd m Hmode Hfresh Hd Hc)
    as (m' & E & _ & _ & _ & _ & _ & _ & Hp & _ & _ & _ & Hi).
  cbv zeta in Hp, Hi. exists m'. split; [exact E|].
  intros i Hlt.
  destruct (cmd_ok_lookup cmd i Hc Hlt) as (w & Ew & Hw).
  destruct (dev_ok_lookup (dev m) i Hd Hlt) as (c & Ec).
  assert (Hr : u16_range (_pwm_period_us (dev m'))).
  { rewrite Hp. apply period_after_in_range; [apply Hd|apply Hc]. }
  destruct (new_value_defined _ w Hr Hw) as (nv & En & _).
  exists w, c, nv. repeat (split; [assumption|]).
  rewrite Hp in En. specialize (Hi i w c nv Hlt Ew Ec En).
  split; intros Ha.
  - apply applies_true in Ha. rewrite Ha in Hi. exact Hi.
  - apply applies_false in Ha. rewrite Ha in Hi. exact Hi.
Qed.

(** C1 at a fresh driver and a command of period 20000 us with all pulse
    widths 30000 us. *)
Lemma C1_channel_update_witness :
  _mode (dev (fresh_machine (bus_ok 0))) = IOX_MODE_ON
  /\ exists m',
       RunImpl (uniform_cmd 20000 30000) (fresh_machine (bus_ok 0)) = Some (tt, m')
       /\ forall i : nat, (i < 16)%nat ->
          exists w c nv,
            pulse_width (mk_pca_pwm 20000 (replicate 16 30000)) !! i = Some w
            /\ _current_values (dev (fresh_machine (bus_ok 0))) !! i = Some c
            /\ new_value (_pwm_period_us (dev m')) w = Some nv
            /\ (nv <> c /\ nv < 4096 ->
                _current_values (dev m') !! i = Some nv
                /\ channel_frames i (trace m') =
                     channel_frames i (trace (fresh_machine (bus_ok 0)))
                     ++ [setPWM_frame (Z.of_nat i) (fst (pin_encoding nv))
                                      (snd (pin_encoding nv))])
            /\ (~ (nv <> c /\ nv < 4096) ->
                _current_values (dev m') !! i = Some c
                /\ channel_frames i (trace m') =
                     channel_frames i (trace (fresh_machine (bus_ok 0)))).
Proof.
  split; [reflexivity|].
  apply (C1_channel_update (uniform_cmd 20000 30000)
           (mk_pca_pwm 20000 (replicate 16 30000)) (fresh_machine (bus_ok 0))).
  - reflexivity.
  - reflexivity.
  - split; [unfold u16_range; simpl; lia|reflexivity].
  - split; [unfold u16_range; simpl; lia|]. split; [reflexivity|].
    simpl. repeat constructor; lia.
Defined.

(** C1 as stated fails: with period 20000 us and pulse width 30000 us the
    rounded quotient is 2731, which differs from the last-applied 0 and is
    below 4096, yet the loop applies 2730 and records 2730. *)
Lemma C1_counterexample :
  spec_new_duty 20000 30000 = 2731
  /\ applies 2731 0 = true
  /\ exists m',
       RunImpl (uniform_cmd 20000 30000) (fresh_machine (bus_ok 0)) = Some (tt, m')
       /\ _current_values (dev m') !! 0%nat = Some 2730
       /\ channel_frames 0 (trace m') = [setPWM_frame 0 0 2730].
Proof.
  split; [vm_compute; reflexivity|]. split; [reflexivity|].
  eexists. split; [vm_compute; reflexivity|]. split; vm_compute; reflexivity.
Qed.

(** C2 (as amended).  In normal mode, for a fresh command without a zero
    pulse width: the last-applied value of a channel is set to the new duty
    whenever that duty passes the guard, whatever the transport answers to
    the write; the next tick therefore issues no transfer at all, whether it
    finds the same command published again or no fresh command: a failed
    write is not retried. *)
Theorem C2_no_retry (inp : orb_in) (cmd : pca_pwm_s) (m : Machine) :
  _mode (dev m) = IOX_MODE_ON ->
  orb_fresh inp = Some cmd ->
  dev_ok (dev m) ->
  cmd_ok cmd ->
  exists m1 m2,
    RunImpl inp m = Some (tt, m1)
    /\ (forall (i : nat) (w c nv : Z),
          (i < 16)%nat ->
          pulse_width cmd !! i = Some w ->
          _current_values (dev m) !! i = Some c ->
          new_value (_pwm_period_us (dev m1)) w = Some nv ->
          nv <> c /\ nv < 4096 ->
          _current_values (dev m1) !! i = Some nv)
    /\ RunImpl inp m1 = Some (tt, m2)
    /\ n_xfer m2 = n_xfer m1
    /\ trace m2 = trace m1 ++ [EvSchedule (_i2cpwm_interval (dev m1))]
    /\ _current_values (dev m2) = _current_values (dev m1)
    /\ forall inp' : orb_in,
         orb_fresh inp' = None ->
         exists m2',
           RunImpl inp' m1 = Some (tt, m2')
           /\ n_xfer m2' = n_xfer m1
           /\ _current_values (dev m2') = _current_values (dev m1).
Proof.
  intros Hmode Hfresh Hd Hc.
  destruct (RunImpl_fresh_run inp cmd m Hmode Hfresh Hd Hc)
    as (m1 & E1 & Hb & Hm1 & Hiv & Hpp & Hini & Hup & Hp & _ & Hlen & _ & Hi).
  cbv zeta in Hp, Hi.
  assert (Hr : u16_range (_pwm_period_us (dev m1))).
  { rewrite Hp. apply period_after_in_range; [apply Hd|apply Hc]. }
  assert (Hg : period_guard (_pwm_period_us (dev m1)) (pwm_period cmd) = false).
  { rewrite Hp.
    destruct (period_guard (_pwm_period_us (dev m)) (pwm_period cmd)) eqn:Eg.
    - unfold period_guard. rewrite Z.eqb_refl. reflexivity.
    - exact Eg. }
  destruct (RunImpl_idle_run inp cmd m1 Hm1 Hfresh Hpp Hini Hup Hg)
    as (m2 & E2 & Hd2 & _ & Hn2 & Ht2).
  { intros i Hlt.
    destruct (cmd_ok_lookup cmd i Hc Hlt) as (w & Ew & Hw).
    destruct (dev_ok_lookup (dev m) i Hd Hlt) as (c & Ec).
    destruct (new_value_defined _ w Hr Hw) as (nv & En & _).
    pose proof En as En'. rewrite Hp in En'.
    specialize (Hi i w c nv Hlt Ew Ec En').
    destruct (applies nv c) eqn:Ea.
    - exists w, nv, nv. destruct Hi as [Hi _]. repeat (split; [assumption|]).
      unfold applies. rewrite Z.eqb_refl. reflexivity.
    - exists w, c, nv. destruct Hi as [Hi _]. auto. }
  exists m1, m2. split; [exact E1|]. split.
  { intros i w c nv Hlt Ew Ec En Ha. rewrite Hp in En.
    specialize (Hi i w c nv Hlt Ew Ec En).
    apply applies_true in Ha. rewrite Ha in Hi. apply Hi. }
  split; [exact E2|]. split; [exact Hn2|]. split; [exact Ht2|].
  split; [rewrite Hd2; reflexivity|].
  intros inp' Hnone.
  destruct (RunImpl_stale_run inp' m1 Hm1 Hnone) as (m2' & E' & _ & _ & Hc' & Hn' & _).
  exists m2'. auto.
Qed.

(** C2 on a transport that fails every transfer. *)
Lemma C2_no_retry_witness :
  cmd_ok (mk_pca_pwm 20000 (replicate 16 30000))
  /\ exists m1 m2,
       RunImpl (uniform_cmd 20000 30000) (fresh_machine (bus_fail (-5))) = Some (tt, m1)
       /\ (forall (i : nat) (w c nv : Z),
             (i < 16)%nat ->
             pulse_width (mk_pca_pwm 20000 (replicate 16 30000)) !! i = Some w ->
             _current_values (dev (fresh_machine (bus_fail (-5)))) !! i = Some c ->
             new_value (_pwm_period_us (dev m1)) w = Some nv ->
             nv <> c /\ nv < 4096 ->
             _current_values (dev m1) !! i = Some nv)
       /\ RunImpl (uniform_cmd 20000 30000) m1 = Some (tt, m2)
       /\ n_xfer m2 = n_xfer m1
       /\ trace m2 = trace m1 ++ [EvSchedule (_i2cpwm_interval (dev m1))]
       /\ _current_values (dev m2) = _current_values (dev m1)
       /\ forall inp' : orb_in,
            orb_fresh inp' = None ->
            exists m2',
              RunImpl inp' m1 = Some (tt, m2')
              /\ n_xfer m2' = n_xfer m1
              /\ _current_values (dev m2') = _current_values (dev m1).
Proof.
  assert (Hc : cmd_ok (mk_pca_pwm 20000 (replicate 16 30000))).
  { split; [unfold u16_range; simpl; lia|]. split; [reflexivity|].
    simpl. repeat constructor; lia. }
  split; [exact Hc|].
  apply (C2_no_retry (uniform_cmd 20000 30000)
           (mk_pca_pwm 20000 (replicate 16 30000)) (fresh_machine (bus_fail (-5)))).
  - reflexivity.
  - reflexivity.
  - split; [unfold u16_range; simpl; lia|reflexivity].
  - exact Hc.
Defined.

(** C2 as stated fails: on a transport that fails every transfer, the write
    to channel 0 returns an error, yet the channel's last-applied value
    changes from 0 to 2730, and the next tick with the same command does
    not write to the channel again. *)
Lemma C2_counterexample :
  exists m1 m2,
    RunImpl (uniform_cmd 20000 30000) (fresh_machine (bus_fail (-5))) = Some (tt, m1)
    /\ _current_values (dev (fresh_machine (bus_fail (-5)))) !! 0%nat = Some 0
    /\ trace m1 !! 0%nat = Some (EvTransfer (setPWM_frame 0 0 2730) 0 (-5))
    /\ _comms_errors (dev m1) = 16
    /\ _current_values (dev m1) !! 0%nat = Some 2730
    /\ RunImpl (uniform_cmd 20000 30000) m1 = Some (tt, m2)
    /\ channel_frames 0 (trace m2) = channel_frames 0 (trace m1)
    /\ n_xfer m2 = n_xfer m1.
Proof.
  eexists. eexists. split; [vm_compute; reflexivity|].
  split; [reflexivity|]. split; [vm_compute; reflexivity|].
  split; [vm_compute; reflexivity|]. split; [vm_compute; reflexivity|].
  split; [vm_compute; reflexivity|]. split; vm_compute; reflexivity.
Qed.

(** C3 (as amended).  After every control-loop invocation on which the tick
    is defined (every tick in test mode, every tick in normal mode that
    finds no fresh command, and every tick in normal mode whose fresh
    command has no zero pulse width), the loop reschedules itself once, as
    its last action, with the interval fixed when the driver was
    constructed; no tick changes that interval, so it does not follow an
    accepted period change. *)
Theorem C3_reschedule (inp : orb_in) (m : Machine) :
  tick_ok inp m ->
  exists m' evs,
    RunImpl inp m = Some (tt, m')
    /\ _i2cpwm_interval (dev m') = _i2cpwm_interval (dev m)
    /\ trace m' = trace m ++ evs ++ [EvSchedule (_i2cpwm_interval (dev m))]
    /\ Forall is_transfer evs.
Proof.
  unfold tick_ok. intros Hok.
  destruct (_mode (dev m)) eqn:Hmode.
  - destruct (orb_fresh inp) as [cmd|] eqn:Hfresh.
    + destruct Hok as [Hd Hc].
      destruct (RunImpl_fresh_run inp cmd m Hmode Hfresh Hd Hc)
        as (m' & E & _ & _ & Hiv & _ & _ & _ & _ & _ & _ & (evs & Ht & Hall) & _).
      exists m', evs. auto.
    + destruct (RunImpl_stale_run inp m Hmode Hfresh) as (m' & E & Hiv & _ & _ & _ & Ht).
      exists m', []. auto.
  - destruct (RunImpl_test_run inp m Hmode) as (m' & E & Hiv & _ & evs & Ht & Hall & _).
    exists m', evs. auto.
Qed.

(** C3 at a tick that accepts the period 10000 us. *)
Lemma C3_reschedule_witness :
  tick_ok (uniform_cmd 10000 30000) (fresh_machine (bus_ok 0))
  /\ exists m' evs,
       RunImpl (uniform_cmd 10000 30000) (fresh_machine (bus_ok 0)) = Some (tt, m')
       /\ _i2cpwm_interval (dev m') = _i2cpwm_interval (dev (fresh_machine (bus_ok 0)))
       /\ trace m' = trace (fresh_machine (bus_ok 0)) ++ evs
                     ++ [EvSchedule (_i2cpwm_interval (dev (fresh_machine (bus_ok 0))))]
       /\ Forall is_transfer evs.
Proof.
  assert (Hok : tick_ok (uniform_cmd 10000 30000) (fresh_machine (bus_ok 0))).
  { simpl. split.
    - split; [unfold u16_range; simpl; lia|reflexivity].
    - split; [unfold u16_range; simpl; lia|]. split; [reflexivity|].
      simpl. repeat constructor; lia. }
  split; [exact Hok|].
  apply (C3_reschedule (uniform_cmd 10000 30000) (fresh_machine (bus_ok 0)) Hok).
Defined.

(** C3 as stated fails: the driver is constructed with the storage of the
    period holding 20000, a command with period 10000 us is accepted, and
    the delay handed to the scheduler is still 20000. *)
Lemma C3_counterexample :
  boot 20000 (bus_ok 0) = Some (fresh_machine (bus_ok 0))
  /\ exists m',
       RunImpl (uniform_cmd 10000 30000) (fresh_machine (bus_ok 0)) = Some (tt, m')
       /\ _pwm_period_us (dev m') = 10000
       /\ schedules (trace m') = [20000].
Proof.
  split; [vm_compute; reflexivity|].
  eexists. split; [vm_compute; reflexivity|]. split; vm_compute; reflexivity.
Qed.

(** The adoption statement on any state: what it leaves of the period and
    the frequency, and that it touches nothing else but the console. *)
Lemma RunImpl_period_run (m : Machine) :
  let cur := _pwm_period_us (dev m) in
  let p := pwm_period (_pca_pwm (dev m)) in
  exists m',
    RunImpl_period m = Some (tt, m')
    /\ _pwm_period_us (dev m') = (if period_guard cur p then p else cur)
    /\ _pwm_freq (dev m') =
         (if period_guard cur p then F32.div (F32.of_Z 1000000) (F32.of_Z p)
          else _pwm_freq (dev m))
    /\ _pca_pwm (dev m') = _pca_pwm (dev m)
    /\ _current_values (dev m') = _current_values (dev m)
    /\ n_xfer m' = n_xfer m
    /\ trace m' = trace m.
Proof.
  cbv zeta. unfold RunImpl_period, period_guard, bind, get_dev, when, upd_dev, say, ret.
  destruct m as [d b n t c]. destruct d as [md iv ce ms sub pp per fr tp cv ini up].
  simpl_fields.
  destruct (negb (per =? pwm_period pp)
            && (pwm_period pp >=? PWM_PERIOD_MIN_US)
            && (pwm_period pp <=? PWM_PERIOD_MAX_US));
    simpl_fields; eexists; (split; [reflexivity|]); simpl_fields;
    repeat split; reflexivity.
Qed.

(** With a fresh sample, the normal-mode branch is the adoption statement
    followed by the loop over the channels, run on the state that holds the
    sample just copied; the adoption statement ends in [after_poll]. *)
Lemma RunImpl_on_polled (inp : orb_in) (cmd : pca_pwm_s) (m : Machine) :
  orb_fresh inp = Some cmd ->
  exists m1,
    _pca_pwm (dev m1) = cmd
    /\ _pwm_period_us (dev m1) = _pwm_period_us (dev m)
    /\ _pwm_freq (dev m1) = _pwm_freq (dev m)
    /\ RunImpl_period m1 = Some (tt, after_poll inp cmd m)
    /\ RunImpl_on inp m =
         (let* _ := RunImpl_period in
          for_range 0 NUMBER_PWM_CHANNELS RunImpl_channel) m1.
Proof.
  intros Hfresh.
  exists (mkMachine
            (set_pca_pwm cmd
               (set_updated true
                  (set_mode_on_initialized true
                     (set_pca_pwm_sub
                        (if _mode_on_initialized (dev m) then _pca_pwm_sub (dev m)
                         else orb_handle inp) (dev m)))))
            (bus m) (n_xfer m) (trace m) (console m)).
  simpl_fields. split; [reflexivity|]. split; [reflexivity|]. split; [reflexivity|].
  unfold RunImpl_on, RunImpl_period, orb_check, orb_copy, after_poll, period_guard.
  unfold bind, get_dev, when, upd_dev, say, ret. rewrite Hfresh.
  destruct m as [d b n t c]. destruct d as [md iv ce ms sub pp per fr tp cv ini up].
  simpl_fields.
  destruct ini; cbn [negb]; simpl_fields;
    destruct (negb (per =? pwm_period cmd)
              && (pwm_period cmd >=? PWM_PERIOD_MIN_US)
              && (pwm_period cmd <=? PWM_PERIOD_MAX_US));
    simpl_fields; rewrite ?app_nil_r; split; reflexivity.
Qed.

(** C4.  The period of a fresh command is adopted, and the stored frequency
    recomputed as 1000000 / period, exactly when it differs from the current
    period and lies in [656, 41666] us; otherwise period and frequency are
    retained.  655 and 41667 are rejected, 656 and 41666 accepted.  This is
    proved of the adoption statement itself, which returns on every state
    that holds the command, whatever its pulse widths are; the normal-mode
    branch runs that statement on the command just copied, before the loop
    over the channels; and where the loop is defined, period and frequency
    are still those at the end of the tick. *)
Theorem C4_period_adoption (inp : orb_in) (cmd : pca_pwm_s) (m : Machine) :
  orb_fresh inp = Some cmd ->
  let cur := _pwm_period_us (dev m) in
  let p := pwm_period cmd in
  let m0 := after_poll inp cmd m in
  (forall m1 : Machine,
     _pca_pwm (dev m1) = cmd ->
     _pwm_period_us (dev m1) = cur ->
     exists m1',
       RunImpl_period m1 = Some (tt, m1')
       /\ (period_accepted cur p ->
           _pwm_period_us (dev m1') = p
           /\ _pwm_freq (dev m1') = F32.div (F32.of_Z 1000000) (F32.of_Z p))
       /\ (~ period_accepted cur p ->
           _pwm_period_us (dev m1') = cur /\ _pwm_freq (dev m1') = _pwm_freq (dev m1))
       /\ (p = 655 \/ p = 41667 -> _pwm_period_us (dev m1') = cur)
       /\ (p = 656 \/ p = 41666 -> _pwm_period_us (dev m1') = p)
       /\ _pca_pwm (dev m1') = cmd
       /\ _current_values (dev m1') = _current_values (dev m1)
       /\ n_xfer m1' = n_xfer m1
       /\ trace m1' = trace m1)
  /\ (exists m1,
        _pca_pwm (dev m1) = cmd
        /\ _pwm_period_us (dev m1) = cur
        /\ _pwm_freq (dev m1) = _pwm_freq (dev m)
        /\ RunImpl_period m1 = Some (tt, m0)
        /\ RunImpl_on inp m =
             (let* _ := RunImpl_period in
              for_range 0 NUMBER_PWM_CHANNELS RunImpl_channel) m1)
  /\ (_mode (dev m) = IOX_MODE_ON ->
      RunImpl inp m =
        (let* _ := RunImpl_on inp in
         let* d := get_dev in
         ScheduleDelayed (_i2cpwm_interval d)) m)
  /\ RunImpl_on inp m = for_range 0 NUMBER_PWM_CHANNELS RunImpl_channel m0
  /\ (period_accepted cur p ->
      _pwm_period_us (dev m0) = p
      /\ _pwm_freq (dev m0) = F32.div (F32.of_Z 1000000) (F32.of_Z p))
  /\ (~ period_accepted cur p ->
      _pwm_period_us (dev m0) = cur /\ _pwm_freq (dev m0) = _pwm_freq (dev m))
  /\ (p = 655 \/ p = 41667 -> _pwm_period_us (dev m0) = cur)
  /\ (p = 656 \/ p = 41666 -> _pwm_period_us (dev m0) = p)
  /\ (_mode (dev m) = IOX_MODE_ON -> dev_ok (dev m) -> cmd_ok cmd ->
      exists m',
        RunImpl inp m = Some (tt, m')
        /\ _pwm_period_us (dev m') = _pwm_period_us (dev m0)
        /\ _pwm_freq (dev m') = _pwm_freq (dev m0)).
Proof.
  intros Hfresh cur p m0.
  assert (Hcases : forall (per : Z) (fr fr0 : F32.f32),
            per = (if period_guard cur p then p else cur) ->
            fr = (if period_guard cur p then F32.div (F32.of_Z 1000000) (F32.of_Z p)
                  else fr0) ->
            (period_accepted cur p ->
             per = p /\ fr = F32.div (F32.of_Z 1000000) (F32.of_Z p))
            /\ (~ period_accepted cur p -> per = cur /\ fr = fr0)
            /\ (p = 655 \/ p = 41667 -> per = cur)
            /\ (p = 656 \/ p = 41666 -> per = p)).
  { intros per fr fr0 -> ->.
    assert (Hyes : period_accepted cur p ->
                   (if period_guard cur p then p else cur) = p
                   /\ (if period_guard cur p then F32.div (F32.of_Z 1000000) (F32.of_Z p)
                       else fr0) = F32.div (F32.of_Z 1000000) (F32.of_Z p)).
    { intros Ha. apply period_guard_accepted in Ha. rewrite Ha. auto. }
    assert (Hno : ~ period_accepted cur p ->
                  (if period_guard cur p then p else cur) = cur
                  /\ (if period_guard cur p then F32.div (F32.of_Z 1000000) (F32.of_Z p)
                      else fr0) = fr0).
    { intros Ha. apply period_guard_rejected in Ha. rewrite Ha. auto. }
    split; [exact Hyes|]. split; [exact Hno|]. split.
    - intros Hb. apply Hno. unfold period_accepted. lia.
    - intros Hb. destruct (Z.eq_dec p cur) as [Heq|Hne].
      + destruct (period_guard cur p); [reflexivity|symmetry; exact Heq].
      + apply Hyes. unfold period_accepted. lia. }
  split.
  { intros m1 Hcmd Hcur.
    destruct (RunImpl_period_run m1) as (m1' & E & Hp & Hf & Hc & Hv & Hn & Ht).
    cbv zeta in Hp, Hf. rewrite Hcmd, Hcur in Hp, Hf. fold cur p in Hp, Hf.
    destruct (Hcases _ _ _ Hp Hf) as (H1 & H2 & H3 & H4).
    exists m1'. split; [exact E|]. split; [exact H1|]. split; [exact H2|].
    split; [exact H3|]. split; [exact H4|].
    split; [congruence|]. auto. }
  split; [apply RunImpl_on_polled; exact Hfresh|].
  split.
  { intros Hmode. unfold RunImpl, bind at 1, get_dev at 1. cbn beta iota.
    rewrite Hmode. reflexivity. }
  split; [apply RunImpl_on_fresh; exact Hfresh|].
  assert (Hp0 : _pwm_period_us (dev m0) = if period_guard cur p then p else cur) by reflexivity.
  assert (Hf0 : _pwm_freq (dev m0) =
                if period_guard cur p then F32.div (F32.of_Z 1000000) (F32.of_Z p)
                else _pwm_freq (dev m)) by reflexivity.
  destruct (Hcases _ _ _ Hp0 Hf0) as (H1 & H2 & H3 & H4).
  split; [exact H1|]. split; [exact H2|]. split; [exact H3|]. split; [exact H4|].
  intros Hmode Hd Hc.
  destruct (RunImpl_fresh_run inp cmd m Hmode Hfresh Hd Hc)
    as (m' & E & _ & _ & _ & _ & _ & _ & Hp & Hf & _).
  cbv zeta in Hp, Hf. exists m'. split; [exact E|].
  split; [rewrite Hp, Hp0|rewrite Hf, Hf0]; reflexivity.
Qed.

(** C4 at the lower boundary, a commanded period of 656 us, in a command
    whose pulse widths are all zero: the period is adopted where the loop
    over the channels starts. *)
Lemma C4_period_adoption_witness :
  period_accepted 20000 656
  /\ exists m1 m1',
       RunImpl_on (uniform_cmd 656 0) (fresh_machine (bus_ok 0)) =
         (let* _ := RunImpl_period in
          for_range 0 NUMBER_PWM_CHANNELS RunImpl_channel) m1
       /\ RunImpl_period m1 = Some (tt, m1')
       /\ _pwm_period_us (dev m1') = 656
       /\ _pwm_freq (dev m1') = F32.div (F32.of_Z 1000000) (F32.of_Z 656).
Proof.
  assert (Ha : period_accepted 20000 656) by (unfold period_accepted; lia).
  split; [exact Ha|].
  destruct (C4_period_adoption (uniform_cmd 656 0)
              (mk_pca_pwm 656 (replicate 16 0)) (fresh_machine (bus_ok 0)) eq_refl)
    as (Hany & (m1 & Hcmd & Hcur & _ & _ & Hon) & _).
  destruct (Hany m1 Hcmd Hcur) as (m1' & E & Hyes & _).
  destruct (Hyes Ha) as [Hp Hf].
  exists m1, m1'. split; [exact Hon|]. split; [exact E|]. split; [exact Hp|exact Hf].
Defined.

(** C5.  For every channel number and every sixteen-bit value, [setPin]
    clamps the value to [0, 4095]; the clamped value 4095 gives on = 4096,
    off = 0; 0 gives on = 0, off = 4096; any other value [v] gives on = 0,
    off = [v]; and the pair goes out as one [setPWM] write, a single
    transfer. *)
Theorem C5_setPin_encoding (num val : Z) (m : Machine) :
  0 <= val < 65536 ->
  let v := Z.min val 4095 in
  let on_off := if v =? 4095 then (4096, 0) else if v =? 0 then (0, 4096) else (0, v) in
  0 <= v <= 4095
  /\ setPin num val m = setPWM num (fst on_off) (snd on_off) m
  /\ exists m',
       setPin num val m = Some (ret_at m 0, m')
       /\ n_xfer m' = S (n_xfer m)
       /\ trace m' = trace m
                     ++ [EvTransfer (setPWM_frame num (fst on_off) (snd on_off)) 0 (ret_at m 0)].
Proof.
  intros Hv v on_off. split; [subst v; lia|].
  assert (He : pin_encoding val = on_off).
  { subst on_off v. unfold pin_encoding. replace (Z.max 0 (Z.min val 4095)) with (Z.min val 4095) by lia.
    reflexivity. }
  split.
  - rewrite <- He. apply setPin_setPWM. lia.
  - destruct (setPin_run num val m ltac:(lia)) as (m' & E & _ & Hn & Ht & _).
    rewrite He in Ht. exists m'. auto.
Qed.

(** C5 at channel 3 and the value 5000, which is clamped to 4095. *)
Lemma C5_setPin_encoding_witness :
  0 <= 5000 < 65536
  /\ 0 <= Z.min 5000 4095 <= 4095
  /\ setPin 3 5000 (fresh_machine (bus_ok 0)) = setPWM 3 4096 0 (fresh_machine (bus_ok 0))
  /\ exists m',
       setPin 3 5000 (fresh_machine (bus_ok 0)) = Some (ret_at (fresh_machine (bus_ok 0)) 0, m')
       /\ n_xfer m' = 1%nat
       /\ trace m' = [EvTransfer (setPWM_frame 3 4096 0) 0 (ret_at (fresh_machine (bus_ok 0)) 0)].
Proof.
  split; [lia|].
  apply (C5_setPin_encoding 3 5000 (fresh_machine (bus_ok 0))). lia.
Defined.

(** C6 (as amended).  For every duty value [v] in [1, 4094], [setPin]
    produces on = 0, off = [v]. *)
Theorem C6_setPin_plain (num v : Z) (m : Machine) :
  1 <= v <= 4094 ->
  setPin num v m = setPWM num 0 v m
  /\ exists m',
       setPin num v m = Some (ret_at m 0, m')
       /\ trace m' = trace m ++ [EvTransfer (setPWM_frame num 0 v) 0 (ret_at m 0)].
Proof.
  intros Hv.
  assert (He : pin_encoding v = (0, v)).
  { rewrite pin_encoding_cases by lia.
    destruct (Z.geb_spec v 4095); [lia|]. destruct (Z.eqb_spec v 0); [lia|]. reflexivity. }
  split.
  - rewrite setPin_setPWM by lia. rewrite He. reflexivity.
  - destruct (setPin_run num v m ltac:(lia)) as (m' & E & _ & _ & Ht & _).
    rewrite He in Ht. exists m'. auto.
Qed.

(** C6 at channel 0 and the smallest plain duty, 1. *)
Lemma C6_setPin_plain_witness :
  1 <= 1 <= 4094
  /\ setPin 0 1 (fresh_machine (bus_ok 0)) = setPWM 0 0 1 (fresh_machine (bus_ok 0))
  /\ exists m',
       setPin 0 1 (fresh_machine (bus_ok 0)) = Some (ret_at (fresh_machine (bus_ok 0)) 0, m')
       /\ trace m' = trace (fresh_machine (bus_ok 0))
                     ++ [EvTransfer (setPWM_frame 0 0 1) 0 (ret_at (fresh_machine (bus_ok 0)) 0)].
Proof.
  split; [lia|]. apply (C6_setPin_plain 0 1 (fresh_machine (bus_ok 0))). lia.
Defined.

(** C6 as stated fails at [v = 0]: [setPin] sends on = 0, off = 4096 (the
    message ends in 0, 16), not on = 0, off = 0. *)
Lemma C6_counterexample :
  0 <= 0 <= 4094
  /\ exists m',
       setPin 0 0 (fresh_machine (bus_ok 0)) = Some (OK, m')
       /\ trace m' = [EvTransfer (setPWM_frame 0 0 4096) 0 OK]
       /\ setPWM_frame 0 0 4096 = [6; 0; 0; 0; 16]
       /\ setPWM_frame 0 0 0 = [6; 0; 0; 0; 0]
       /\ trace m' <> [EvTransfer (setPWM_frame 0 0 0) 0 OK].
Proof.
  split; [lia|]. eexists. split; [vm_compute; reflexivity|].
  split; [reflexivity|]. split; [reflexivity|]. split; [reflexivity|].
  vm_compute. discriminate.
Qed.

Lemma first_failure_none (m : Machine) :
  (forall j, (j < 6)%nat -> ret_at m j = OK) ->
  first_failure_from m 0 6 = None.
Proof.
  intros H. cbn [first_failure_from].
  rewrite !H by lia. reflexivity.
Qed.

Lemma first_failure_some (m : Machine) (k : nat) :
  (k < 6)%nat ->
  (forall j, (j < k)%nat -> ret_at m j = OK) ->
  ret_at m k <> OK ->
  first_failure_from m 0 6 = Some k.
Proof.
  intros Hk Hok Hfail. apply Z.eqb_neq in Hfail.
  cbn [first_failure_from].
  do 6 (destruct k as [|k]; [rewrite ?Hok by lia; rewrite ?Z.eqb_refl; rewrite Hfail; reflexivity|]).
  lia.
Qed.

(** C7 (as amended).  The configurator computes the prescaler byte in single
    precision, by add-0.5-then-truncate; for every whole-number frequency
    [f] in 24..1526 Hz that byte is round(25000000 / 4096 / f) - 1, between
    3 and 253.  When every transfer succeeds it performs one register read
    and four register writes in this order: read MODE1 (address byte out,
    one byte [old] in); write MODE1 with (old & 0x7F) | 0x10; write PRESCALE
    with the prescaler; write MODE1 with old; wait 5000 us; write MODE1 with
    old | 0xA1. *)
Theorem C7_setPWMFreq_sequence (freq : F32.f32) (p : Z) (m : Machine) :
  prescale_of freq = Some p ->
  (forall j, (j < 6)%nat -> ret_at m j = OK) ->
  let old := byte_at m 1 in
  (forall f : Z, 24 <= f <= 1526 -> freq = F32.of_Z f ->
     p = spec_prescale (inject_Z f) /\ 3 <= p <= 253)
  /\ exists m',
       setPWMFreq freq m = Some (OK, m')
       /\ trace m' = trace m
                     ++ [EvTransfer [PCA9685_MODE1] 0 OK;
                         EvTransfer [] 1 OK;
                         EvTransfer [PCA9685_MODE1; Z.lor (Z.land old 0x7F) 0x10] 0 OK;
                         EvTransfer [PCA9685_PRESCALE; p] 0 OK;
                         EvTransfer [PCA9685_MODE1; old] 0 OK;
                         EvUsleep 5000;
                         EvTransfer [PCA9685_MODE1; Z.lor old 0xA1] 0 OK]
       /\ n_xfer m' = (6 + n_xfer m)%nat
       /\ _comms_errors (dev m') = _comms_errors (dev m).
Proof.
  intros Hp Hok old. split.
  - intros f Hf ->. destruct (prescale_whole_hz f Hf) as [Hp' Hr].
    assert (p = spec_prescale (inject_Z f)) by congruence. subst p. auto.
  - destruct (setPWMFreq_run freq p m Hp) as (r & m' & E & _ & Hcase).
    rewrite (first_failure_none m Hok) in Hcase.
    destruct Hcase as (-> & Ht & Hn & He & _).
    exists m'. split; [exact E|]. split; [|auto].
    rewrite Ht. unfold freq_sequence. fold old. rewrite !Hok by lia. reflexivity.
Qed.

(** C7 at the 50 Hz of [init], on a transport that acknowledges every
    transfer and delivers the mode byte 17. *)
Lemma C7_setPWMFreq_sequence_witness :
  prescale_of (F32.of_Z 50) = Some 121
  /\ (forall f : Z, 24 <= f <= 1526 -> F32.of_Z 50 = F32.of_Z f ->
        121 = spec_prescale (inject_Z f) /\ 3 <= 121 <= 253)
  /\ exists m',
       setPWMFreq (F32.of_Z 50) (fresh_machine (bus_ok 17)) = Some (OK, m')
       /\ trace m' = trace (fresh_machine (bus_ok 17))
                     ++ [EvTransfer [PCA9685_MODE1] 0 OK;
                         EvTransfer [] 1 OK;
                         EvTransfer [PCA9685_MODE1;
                                     Z.lor (Z.land (byte_at (fresh_machine (bus_ok 17)) 1) 0x7F) 0x10]
                                    0 OK;
                         EvTransfer [PCA9685_PRESCALE; 121] 0 OK;
                         EvTransfer [PCA9685_MODE1; byte_at (fresh_machine (bus_ok 17)) 1] 0 OK;
                         EvUsleep 5000;
                         EvTransfer [PCA9685_MODE1;
                                     Z.lor (byte_at (fresh_machine (bus_ok 17)) 1) 0xA1] 0 OK]
       /\ n_xfer m' = (6 + n_xfer (fresh_machine (bus_ok 17)))%nat
       /\ _comms_errors (dev m') = _comms_errors (dev (fresh_machine (bus_ok 17))).
Proof.
  assert (Hp : prescale_of (F32.of_Z 50) = Some 121) by (vm_compute; reflexivity).
  split; [exact Hp|].
  apply (C7_setPWMFreq_sequence (F32.of_Z 50) 121 (fresh_machine (bus_ok 17)) Hp).
  intros j _. reflexivity.
Defined.

(** C7 as stated fails for a frequency that is not a whole number: at
    718.0606689453125 Hz, inside the range, the exact formula gives 7 and
    the configurator writes 8, because the quotient is itself rounded to
    single precision and lands exactly on 8.5. *)
Lemma C7_counterexample :
  (F32.to_Q freq_718 == 11764706 # 16384)%Q
  /\ (inject_Z 24 <= F32.to_Q freq_718 <= inject_Z 1526)%Q
  /\ spec_prescale (F32.to_Q freq_718) = 7
  /\ prescale_of freq_718 = Some 8
  /\ exists m',
       setPWMFreq freq_718 (fresh_machine (bus_ok 17)) = Some (OK, m')
       /\ trace m' !! 3%nat = Some (EvTransfer [PCA9685_PRESCALE; 8] 0 OK).
Proof.
  split; [vm_compute; reflexivity|].
  split; [split; vm_compute; discriminate|].
  split; [vm_compute; reflexivity|]. split; [vm_compute; reflexivity|].
  eexists. split; vm_compute; reflexivity.
Qed.

(** C8.  If a transfer of the frequency-configuration sequence fails, the
    configurator stops there: the failing transfer is the last one of the
    call, the error counter goes up by exactly one, and the failure code is
    returned to the caller. *)
Theorem C8_setPWMFreq_abort (freq : F32.f32) (p : Z) (m : Machine) (k : nat) :
  prescale_of freq = Some p ->
  (k < 6)%nat ->
  (forall j, (j < k)%nat -> ret_at m j = OK) ->
  ret_at m k <> OK ->
  exists m',
    setPWMFreq freq m = Some (ret_at m k, m')
    /\ n_xfer m' = (S k + n_xfer m)%nat
    /\ trace m' = trace m ++ take (if (k =? 5)%nat then 7 else S k) (freq_sequence m p)
    /\ (exists evs send n, trace m' = trace m ++ evs ++ [EvTransfer send n (ret_at m k)])
    /\ _comms_errors (dev m') = _comms_errors (dev m) + 1.
Proof.
  intros Hp Hk Hok Hfail.
  destruct (setPWMFreq_run freq p m Hp) as (r & m' & E & _ & Hcase).
  rewrite (first_failure_some m k Hk Hok Hfail) in Hcase.
  destruct Hcase as (-> & Ht & Hn & He & _).
  exists m'. split; [exact E|]. split; [exact Hn|]. split; [exact Ht|]. split; [|exact He].
  rewrite Ht. unfold freq_sequence.
  do 6 (destruct k as [|k];
        [cbn [Nat.eqb take firstn];
         match goal with
         | |- exists evs send n, _ ++ ?l = _ =>
             exists (removelast l); do 2 eexists; cbn [removelast]; reflexivity
         end|]).
  lia.
Qed.

(** C8 when the write of the prescaler, the fourth transfer, fails. *)
Lemma C8_setPWMFreq_abort_witness :
  prescale_of (F32.of_Z 50) = Some 121
  /\ exists m',
       setPWMFreq (F32.of_Z 50) (fresh_machine (bus_fail_at 3 (-5) 17))
         = Some (ret_at (fresh_machine (bus_fail_at 3 (-5) 17)) 3, m')
       /\ n_xfer m' = (4 + n_xfer (fresh_machine (bus_fail_at 3 (-5) 17)))%nat
       /\ trace m' = trace (fresh_machine (bus_fail_at 3 (-5) 17))
                     ++ take 4 (freq_sequence (fresh_machine (bus_fail_at 3 (-5) 17)) 121)
       /\ (exists evs send n,
             trace m' = trace (fresh_machine (bus_fail_at 3 (-5) 17)) ++ evs
                        ++ [EvTransfer send n (ret_at (fresh_machine (bus_fail_at 3 (-5) 17)) 3)])
       /\ _comms_errors (dev m') = _comms_errors (dev (fresh_machine (bus_fail_at 3 (-5) 17))) + 1.
Proof.
  assert (Hp : prescale_of (F32.of_Z 50) = Some 121) by (vm_compute; reflexivity).
  split; [exact Hp|].
  apply (C8_setPWMFreq_abort (F32.of_Z 50) 121 (fresh_machine (bus_fail_at 3 (-5) 17)) 3 Hp).
  - lia.
  - intros j Hj. do 3 (destruct j as [|j]; [reflexivity|]). lia.
  - vm_compute. discriminate.
Defined.

(** C9.  The duty computation divides by the pulse width without a guard
    against zero: for a fresh command with a pulse width of 0 the quotient
    is an infinity or a NaN, the conversion to sixteen bits has no defined
    result, and the tick as a whole is undefined. *)
Theorem C9_zero_pulse_width (inp : orb_in) (cmd : pca_pwm_s) (m : Machine) (i : nat) :
  _mode (dev m) = IOX_MODE_ON ->
  orb_fresh inp = Some cmd ->
  (i < 16)%nat ->
  pulse_width cmd !! i = Some 0 ->
  (forall period, F32.trunc (F32.div (F32.of_Z period) (F32.of_Z 0)) = None)
  /\ (forall period, new_value period 0 = None)
  /\ RunImpl_channel i (after_poll inp cmd m) = None
  /\ RunImpl inp m = None.
Proof.
  intros Hmode Hfresh Hi Hz.
  split; [intros; apply div_by_zero_not_finite|].
  split; [apply new_value_zero|].
  split; [apply RunImpl_channel_zero; exact Hz|].
  unfold RunImpl, bind at 1, get_dev at 1. cbn beta iota. rewrite Hmode.
  unfold bind at 1. rewrite (RunImpl_on_fresh inp cmd m Hfresh).
  rewrite (for_range_zero 16 0 i); [reflexivity|lia|exact Hz].
Qed.

(** C9 at a command whose pulse widths are all zero. *)
Lemma C9_zero_pulse_width_witness :
  pulse_width (mk_pca_pwm 20000 (replicate 16 0)) !! 5%nat = Some 0
  /\ (forall period, F32.trunc (F32.div (F32.of_Z period) (F32.of_Z 0)) = None)
  /\ (forall period, new_value period 0 = None)
  /\ RunImpl_channel 5 (after_poll (uniform_cmd 20000 0) (mk_pca_pwm 20000 (replicate 16 0))
                          (fresh_machine (bus_ok 0))) = None
  /\ RunImpl (uniform_cmd 20000 0) (fresh_machine (bus_ok 0)) = None.
Proof.
  split; [reflexivity|].
  apply (C9_zero_pulse_width (uniform_cmd 20000 0) (mk_pca_pwm 20000 (replicate 16 0))
           (fresh_machine (bus_ok 0)) 5).
  - reflexivity.
  - reflexivity.
  - lia.
  - reflexivity.
Defined.

(** A duty whose truncated value is 65536 or more is reduced modulo 65536
    before the guard; if the reduced value is below 4096 and differs from
    the last-applied value, it is written to the channel. *)
Lemma wrapped_duty_is_applied
    (inp : orb_in) (cmd : pca_pwm_s) (m : Machine) (i : nat) (w c t : Z) :
  _mode (dev m) = IOX_MODE_ON ->
  orb_fresh inp = Some cmd ->
  dev_ok (dev m) ->
  cmd_ok cmd ->
  (i < 16)%nat ->
  pulse_width cmd !! i = Some w ->
  _current_values (dev m) !! i = Some c ->
  let period' := if period_guard (_pwm_period_us (dev m)) (pwm_period cmd)
                 then pwm_period cmd else _pwm_period_us (dev m) in
  F32.trunc (F32.mul (F32.div (F32.of_Z period') (F32.of_Z w)) (F32.of_Z 4096)) = Some t ->
  65536 <= t ->
  t mod 65536 < 4096 ->
  t mod 65536 <> c ->
  exists m',
    RunImpl inp m = Some (tt, m')
    /\ new_value period' w = Some (t mod 65536)
    /\ _current_values (dev m') !! i = Some (t mod 65536)
    /\ channel_frames i (trace m') =
         channel_frames i (trace m)
         ++ [setPWM_frame (Z.of_nat i) (fst (pin_encoding (t mod 65536)))
                          (snd (pin_encoding (t mod 65536)))].
Proof.
  intros Hmode Hfresh Hd Hc Hi Ew Ec period' Ht Hbig Hlow Hne.
  destruct (RunImpl_fresh_run inp cmd m Hmode Hfresh Hd Hc)
    as (m' & E & _ & _ & _ & _ & _ & _ & _ & _ & _ & _ & Hch).
  cbv zeta in Hch. fold period' in Hch.
  assert (Hr : u16_range period')
    by (apply period_after_in_range; [apply Hd|apply Hc]).
  assert (Hw : 0 < w < 65536).
  { destruct (cmd_ok_lookup cmd i Hc Hi) as (w' & Ew' & Hw'). congruence. }
  destruct (new_value_defined period' w Hr Hw) as (nv & En & _).
  assert (Hnv : nv = t mod 65536).
  { unfold new_value, F32.to_uint in En. rewrite Ht in En.
    destruct ((0 <=? t) && (t <? 2 ^ 31)); [|discriminate].
    injection En as <-. reflexivity. }
  subst nv. specialize (Hch i w c _ Hi Ew Ec En).
  replace (applies (t mod 65536) c) with true in Hch
    by (symmetry; apply applies_true; auto).
  exists m'. split; [exact E|]. split; [exact En|]. exact Hch.
Qed.

(** C10.  The duty is narrowed to sixteen bits before the test against 4096:
    with period 20000 us and pulse width 1200 us the quotient is at least 16,
    the product truncates to 68266, which is 2730 modulo 65536; that value
    differs from the last-applied 0, passes the guard and is written to the
    channel. *)
Theorem C10_wrapped_duty_applied :
  16 * 1200 <= 20000
  /\ F32.trunc (F32.mul (F32.div (F32.of_Z 20000) (F32.of_Z 1200)) (F32.of_Z 4096)) = Some 68266
  /\ 65536 <= 68266
  /\ 68266 mod 65536 = 2730
  /\ 2730 < 4096
  /\ _current_values (dev (fresh_machine (bus_ok 0))) !! 0%nat = Some 0
  /\ exists m',
       RunImpl (uniform_cmd 20000 1200) (fresh_machine (bus_ok 0)) = Some (tt, m')
       /\ new_value 20000 1200 = Some 2730
       /\ _current_values (dev m') !! 0%nat = Some 2730
       /\ channel_frames 0 (trace m') = [setPWM_frame 0 0 2730].
Proof.
  assert (Ht : F32.trunc (F32.mul (F32.div (F32.of_Z 20000) (F32.of_Z 1200)) (F32.of_Z 4096))
               = Some 68266) by (vm_compute; reflexivity).
  split; [lia|]. split; [exact Ht|]. split; [lia|]. split; [reflexivity|].
  split; [lia|]. split; [reflexivity|].
  apply (wrapped_duty_is_applied (uniform_cmd 20000 1200)
           (mk_pca_pwm 20000 (replicate 16 1200)) (fresh_machine (bus_ok 0)) 0 1200 0 68266).
  - reflexivity.
  - reflexivity.
  - split; [unfold u16_range; simpl; lia|reflexivity].
  - split; [unfold u16_range; simpl; lia|]. split; [reflexivity|].
    simpl. repeat constructor; lia.
  - lia.
  - reflexivity.
  - reflexivity.
  - exact Ht.
  - lia.
  - change (68266 mod 65536) with 2730. lia.
  - change (68266 mod 65536) with 2730. lia.
Qed.

(* ===================================================================== *)
(** ** Concrete runs *)
(* ===================================================================== *)

(** Start-up on a transport that acknowledges everything: the chip is reset,
    configured for 50 Hz (prescaler 121), and the loop is scheduled at
    once. *)
Example init_run :
  exists m',
    init OK (fresh_machine (bus_ok 0)) = Some (OK, m')
    /\ trace m' = [EvTransfer [0; 0] 0 0;
                   EvTransfer [0] 0 0; EvTransfer [] 1 0;
                   EvTransfer [0; 16] 0 0; EvTransfer [254; 121] 0 0;
                   EvTransfer [0; 0] 0 0; EvUsleep 5000;
                   EvTransfer [0; 161] 0 0;
                   EvSchedule 0]
    /\ _comms_errors (dev m') = 0.
Proof. eexists. split; [vm_compute; reflexivity|]. split; reflexivity. Qed.

(** The administrative command 1 switches to the test pattern; its first
    tick drives all sixteen channels fully off and moves the ramp to 409. *)
Example test_pattern_first_tick :
  exists m1 m2,
    custom_method 1 (fresh_machine (bus_ok 0)) = Some (tt, m1)
    /\ _mode (dev m1) = IOX_MODE_TEST_OUT
    /\ RunImpl (mk_orb_in 3 None) m1 = Some (tt, m2)
    /\ (forall i, (i < 16)%nat -> channel_frames i (trace m2) = [setPWM_frame (Z.of_nat i) 0 4096])
    /\ _test_pwm (dev m2) = 409
    /\ schedules (trace m2) = [20000].
Proof.
  eexists. eexists. split; [vm_compute; reflexivity|]. split; [reflexivity|].
  split; [vm_compute; reflexivity|]. split; [|split; vm_compute; reflexivity].
  intros i Hi. do 16 (destruct i as [|i]; [vm_compute; reflexivity|]). lia.
Qed.

(** The scenarios of the specification: duties 8192, 40960 and 4096 are not
    applied. *)
Example scenarios_not_applied :
  new_value 20000 10000 = Some 8192
  /\ new_value 20000 2000 = Some 40960
  /\ new_value 20000 20000 = Some 4096
  /\ applies 8192 0 = false /\ applies 40960 0 = false /\ applies 4096 0 = false.
Proof. repeat split; vm_compute; reflexivity. Qed.

(* ===================================================================== *)
(** ** Further properties: the channel message *)
(* ===================================================================== *)

Lemma le16_split (v : Z) :
  0 <= v < 65536 -> le16 (u8 v) (u8 (Z.shiftr v 8)) = v.
Proof.
  intros Hv. unfold le16, u8. rewrite Z.shiftr_div_pow2 by lia.
  change (2 ^ 8) with 256.
  rewrite (Z.mod_small (v / 256) 256).
  - pose proof (Z.div_mod v 256 ltac:(lia)). lia.
  - split; [apply Z.div_pos; lia|]. apply Z.div_lt_upper_bound; lia.
Qed.

(** X1.  The message of [setPWM] is five bytes; for a channel number up to
    62 and sixteen-bit ON and OFF values it decodes back to the register
    6 + 4 * num and to the same ON and OFF values. *)
Theorem setPWM_frame_roundtrip (num on off : Z) :
  0 <= num <= 62 -> 0 <= on < 65536 -> 0 <= off < 65536 ->
  Forall (fun b => 0 <= b < 256) (setPWM_frame num on off)
  /\ decode_frame (setPWM_frame num on off) = Some (LED0_ON_L + 4 * num, on, off).
Proof.
  intros Hn Hon Hoff. split.
  - unfold setPWM_frame. repeat constructor; apply u8_range.
  - unfold setPWM_frame, decode_frame.
    rewrite !le16_split by assumption.
    rewrite (u8_small (LED0_ON_L + 4 * num)) by (unfold LED0_ON_L; lia).
    reflexivity.
Qed.

Lemma setPWM_frame_roundtrip_witness :
  0 <= 15 <= 62
  /\ Forall (fun b => 0 <= b < 256) (setPWM_frame 15 4096 0)
  /\ decode_frame (setPWM_frame 15 4096 0) = Some (LED0_ON_L + 4 * 15, 4096, 0).
Proof.
  split; [lia|]. apply (setPWM_frame_roundtrip 15 4096 0); lia.
Defined.

(* ===================================================================== *)
(** ** Further properties: what a computation may do *)
(* ===================================================================== *)

Section Post.
Context (R : Machine -> Machine -> Prop).
Hypothesis R_refl : forall m, R m m.
Hypothesis R_trans : forall m1 m2 m3, R m1 m2 -> R m2 m3 -> R m1 m3.

Lemma post_ret {A} (a : A) : post (ret a) R.
Proof. intros m a' m' [= _ <-]. apply R_refl. Qed.

Lemma post_lift {A} (o : option A) : post (lift o) R.
Proof. intros m a m'. unfold lift. destruct o; [|discriminate]. intros [= _ <-]. apply R_refl. Qed.

Lemma post_get_dev : post get_dev R.
Proof. intros m a m' [= _ <-]. apply R_refl. Qed.

Lemma post_bind {A B} (c : M A) (k : A -> M B) :
  post c R -> (forall a, post (k a) R) -> post (bind c k) R.
Proof.
  intros Hc Hk m b m'. unfold bind.
  destruct (c m) as [[a m1]|] eqn:E; [|discriminate].
  intros E2. eapply R_trans; [eapply Hc; eauto|eapply Hk; eauto].
Qed.

Lemma post_when (b : bool) (c : M unit) : post c R -> post (when b c) R.
Proof. intros Hc. destruct b; [exact Hc|apply post_ret]. Qed.

Lemma post_if {A} (b : bool) (c1 c2 : M A) :
  post c1 R -> post c2 R -> post (if b then c1 else c2) R.
Proof. destruct b; auto. Qed.

Lemma post_for_range (body : nat -> M unit) (n : nat) :
  (forall i, post (body i) R) -> forall k, post (for_range k n body) R.
Proof.
  intros Hb. induction n as [|n IH]; intros k; cbn [for_range].
  - apply post_ret.
  - apply post_bind; [apply Hb|intros _; apply IH].
Qed.
End Post.

Lemma transfer_rets_app (t1 t2 : list event) :
  transfer_rets (t1 ++ t2) = transfer_rets t1 ++ transfer_rets t2.
Proof. unfold transfer_rets. apply flat_map_app. Qed.

Lemma failures_app (t1 t2 : list event) :
  failures (t1 ++ t2) = failures t1 ++ failures t2.
Proof. unfold failures. apply flat_map_app. Qed.

Lemma evolves_refl (P : event -> Prop) (m : Machine) : evolves P m m.
Proof.
  split; [reflexivity|]. split; [auto|]. exists []. rewrite app_nil_r.
  cbn. repeat split; auto; lia.
Qed.

Lemma evolves_trans (P : event -> Prop) (m1 m2 m3 : Machine) :
  evolves P m1 m2 -> evolves P m2 m3 -> evolves P m1 m3.
Proof.
  intros (Hb1 & Hl1 & e1 & Ht1 & Hp1 & Hn1 & He1) (Hb2 & Hl2 & e2 & Ht2 & Hp2 & Hn2 & He2).
  split; [congruence|]. split; [auto|]. exists (e1 ++ e2).
  rewrite Ht2, Ht1, <- app_assoc, transfer_rets_app, failures_app, !length_app.
  split; [reflexivity|]. split; [apply Forall_app; auto|]. split; lia.
Qed.

Lemma evolves_weaken (P Q : event -> Prop) (m m' : Machine) :
  (forall e, P e -> Q e) -> evolves P m m' -> evolves Q m m'.
Proof.
  intros HPQ (Hb & Hl & evs & Ht & Hp & Hn & He).
  split; [exact Hb|]. split; [exact Hl|]. exists evs.
  repeat split; auto. eapply Forall_impl; eauto.
Qed.

Lemma post_weaken {A} (c : M A) (R R' : Machine -> Machine -> Prop) :
  (forall m m', R m m' -> R' m m') -> post c R -> post c R'.
Proof. intros H Hc m a m' E. eauto. Qed.

(** An update of members other than the message buffer and the error
    counter. *)
Lemma evolves_upd_dev (P : event -> Prop) (f : PCA9685 -> PCA9685) :
  (forall d, _msg (f d) = _msg d /\ _comms_errors (f d) = _comms_errors d) ->
  post (upd_dev f) (evolves P).
Proof.
  intros Hf m a m' [= _ <-]. destruct (Hf (dev m)) as [Hm He].
  split; [reflexivity|]. simpl_fields. split; [rewrite Hm; auto|].
  exists []. rewrite app_nil_r. cbn. repeat split; auto; lia.
Qed.

Lemma evolves_say (P : event -> Prop) (d : diag) : post (say d) (evolves P).
Proof.
  intros m a m' [= _ <-]. split; [reflexivity|]. split; [auto|].
  exists []. simpl_fields. rewrite app_nil_r. cbn. repeat split; auto; lia.
Qed.

Lemma evolves_emit (P : event -> Prop) (e : event) :
  P e -> ~ is_transfer e -> post (emit e) (evolves P).
Proof.
  intros HP Hnt m a m' [= _ <-]. split; [reflexivity|]. split; [auto|].
  exists [e]. simpl_fields. split; [reflexivity|]. split; [auto|].
  destruct e; cbn in *; try tauto; split; lia.
Qed.

(** One transfer whose failure is counted. *)
Lemma evolves_setPWM (P : event -> Prop) (num on off : Z) :
  (forall r, P (EvTransfer (setPWM_frame num on off) 0 r)) ->
  post (setPWM num on off) (evolves P).
Proof.
  intros HP m a m'.
  unfold setPWM, bind, upd_dev, get_dev, transfer, when, perf_count_comms_errors, say, ret.
  cbn -[Z.eqb OK]. destruct (bus m (n_xfer m)) as [r rx] eqn:Eb. cbn -[Z.eqb OK].
  rewrite (Z.eqb_sym OK r).
  destruct (r =? OK) eqn:Er; cbn -[Z.eqb OK]; intros [= _ <-];
    (split; [reflexivity|]); simpl_fields;
    (split; [intros Hl; unfold store_msg, setPWM_frame; cbn [length app]; rewrite ?length_app, ?length_drop, Hl; reflexivity|]);
    exists [EvTransfer (setPWM_frame num on off) 0 r];
    (split; [reflexivity|]); (split; [auto|]); cbn -[Z.eqb OK]; rewrite Er; cbn; split; lia.
Qed.

Lemma evolves_write8 (P : event -> Prop) (addr value : Z) :
  (forall r, P (EvTransfer [addr; value] 0 r)) ->
  post (write8 addr value) (evolves P).
Proof.
  intros HP m a m'.
  unfold write8, bind, upd_dev, get_dev, transfer, when, perf_count_comms_errors, say, ret.
  cbn -[Z.eqb OK]. destruct (bus m (n_xfer m)) as [r rx] eqn:Eb. cbn -[Z.eqb OK].
  destruct (r =? OK) eqn:Er; cbn -[Z.eqb OK]; intros [= _ <-];
    (split; [reflexivity|]); simpl_fields;
    (split; [intros Hl; unfold store_msg, setPWM_frame; cbn [length app]; rewrite ?length_app, ?length_drop, Hl; reflexivity|]);
    exists [EvTransfer [addr; value] 0 r];
    (split; [reflexivity|]); (split; [auto|]); cbn -[Z.eqb OK]; rewrite Er; cbn; split; lia.
Qed.

Lemma evolves_read8 (addr : Z) : post (read8 addr) (evolves any_event).
Proof.
  intros m a m'.
  unfold read8, fail_read, bind, upd_dev, get_dev, transfer, when,
    perf_count_comms_errors, say, ret.
  cbn -[Z.eqb OK u8].
  destruct (bus m (n_xfer m)) as [r0 x0] eqn:E0. cbn -[Z.eqb OK u8].
  destruct (r0 =? OK) eqn:Er0; cbn -[Z.eqb OK u8].
  - destruct (bus m (S (n_xfer m))) as [r1 x1] eqn:E1. cbn -[Z.eqb OK u8].
    destruct (r1 =? OK) eqn:Er1; cbn -[Z.eqb OK u8]; intros [= _ <-];
      (split; [reflexivity|]); simpl_fields; (split; [auto|]);
      exists [EvTransfer [addr] 0 r0; EvTransfer [] 1 r1]; rewrite <- app_assoc;
      (split; [reflexivity|]); (split; [repeat constructor|]);
      cbn -[Z.eqb OK]; rewrite Er0, Er1; cbn; split; lia.
  - intros [= _ <-]. split; [reflexivity|]. simpl_fields. split; [auto|].
    exists [EvTransfer [addr] 0 r0]. split; [reflexivity|]. split; [repeat constructor|].
    cbn -[Z.eqb OK]. rewrite Er0. cbn. split; lia.
Qed.

Lemma post_for_range_bounded (R : Machine -> Machine -> Prop)
    (R_refl : forall m, R m m)
    (R_trans : forall m1 m2 m3, R m1 m2 -> R m2 m3 -> R m1 m3)
    (body : nat -> M unit) (n : nat) :
  forall k, (forall i, (k <= i < k + n)%nat -> post (body i) R) ->
            post (for_range k n body) R.
Proof.
  induction n as [|n IH]; intros k Hb; cbn [for_range].
  - apply post_ret. exact R_refl.
  - apply post_bind; [exact R_trans|apply Hb; lia|].
    intros _. apply IH. intros i Hi. apply Hb. lia.
Qed.

Ltac ev_step P :=
  first
    [ apply (post_bind (evolves P) (evolves_trans P))
    | apply (post_ret (evolves P) (evolves_refl P))
    | apply (post_lift (evolves P) (evolves_refl P))
    | apply (post_get_dev (evolves P) (evolves_refl P))
    | apply (post_when (evolves P) (evolves_refl P))
    | apply post_if
    | apply evolves_say
    | (apply evolves_upd_dev; intros; split; reflexivity)
    | match goal with |- forall _, post _ _ => intros ? end ].

Lemma evolves_setPin (P : event -> Prop) (num val : Z) :
  (forall on off r, P (EvTransfer (setPWM_frame num on off) 0 r)) ->
  post (setPin num val) (evolves P).
Proof.
  intros HP. destruct (setPin_any num val) as (on & off & ->).
  apply evolves_setPWM. auto.
Qed.

Lemma evolves_reset : post reset (evolves any_event).
Proof.
  unfold reset.
  repeat first [ (apply evolves_write8; exact (fun _ => I)) | ev_step any_event ].
Qed.

Lemma evolves_setPWMFreq (freq : F32.f32) : post (setPWMFreq freq) (evolves any_event).
Proof.
  unfold setPWMFreq, usleep.
  repeat first [ apply evolves_read8
               | (apply evolves_write8; exact (fun _ => I))
               | (apply evolves_emit; [exact I|cbn; tauto])
               | ev_step any_event ].
Qed.

Lemma evolves_init (i2c_ret : Z) : post (init i2c_ret) (evolves any_event).
Proof.
  unfold init, ScheduleNow.
  repeat first [ apply evolves_reset
               | apply evolves_setPWMFreq
               | (apply evolves_emit; [exact I|cbn; tauto])
               | ev_step any_event ].
Qed.

Lemma evolves_custom_method (c : Z) : post (custom_method c) (evolves any_event).
Proof.
  unfold custom_method.
  repeat first [ apply evolves_reset | ev_step any_event ].
Qed.

Lemma channel_write_setPin (i : nat) (on off r : Z) :
  (i < 16)%nat ->
  tick_event (EvTransfer (setPWM_frame (u8 (Z.of_nat i)) on off) 0 r).
Proof.
  intros Hi. left. exists i, on, off, r. split; [exact Hi|].
  rewrite (u8_small (Z.of_nat i)) by lia. reflexivity.
Qed.

Lemma evolves_RunImpl_test : post RunImpl_test (evolves tick_event).
Proof.
  unfold RunImpl_test.
  apply (post_bind _ (evolves_trans _)); [ev_step tick_event|intros d].
  apply (post_bind _ (evolves_trans _)); [repeat ev_step tick_event|intros _].
  apply (post_bind _ (evolves_trans _)); [|intros _; repeat ev_step tick_event].
  apply (post_for_range_bounded _ (evolves_refl _) (evolves_trans _)).
  intros i Hi. change NUMBER_PWM_CHANNELS with 16%nat in Hi.
  apply (post_bind _ (evolves_trans _)); [ev_step tick_event|intros d'].
  apply (post_bind _ (evolves_trans _)); [|intros _; ev_step tick_event].
  apply evolves_setPin. intros. apply channel_write_setPin. lia.
Qed.

Lemma evolves_RunImpl_channel (i : nat) :
  (i < 16)%nat -> post (RunImpl_channel i) (evolves tick_event).
Proof.
  intros Hi. unfold RunImpl_channel.
  repeat first [ (apply evolves_setPin; intros; apply channel_write_setPin; lia)
               | ev_step tick_event ].
Qed.

Lemma evolves_RunImpl_on (inp : orb_in) : post (RunImpl_on inp) (evolves tick_event).
Proof.
  unfold RunImpl_on, RunImpl_period.
  repeat first
    [ (apply (post_for_range_bounded _ (evolves_refl _) (evolves_trans _));
       intros i Hi; change NUMBER_PWM_CHANNELS with 16%nat in Hi;
       apply evolves_RunImpl_channel; lia)
    | ev_step tick_event ].
Qed.

Lemma evolves_RunImpl (inp : orb_in) : post (RunImpl inp) (evolves tick_event).
Proof.
  unfold RunImpl, ScheduleDelayed.
  apply (post_bind _ (evolves_trans _)); [ev_step tick_event|intros d].
  apply (post_bind _ (evolves_trans _)).
  - destruct (_mode d); [apply evolves_RunImpl_on|apply evolves_RunImpl_test].
  - intros _. apply (post_bind _ (evolves_trans _)); [ev_step tick_event|intros d'].
    apply evolves_emit; [right; eauto|cbn; tauto].
Qed.

(* ===================================================================== *)
(** ** Further properties: members a computation keeps *)
(* ===================================================================== *)

Lemma kept_refl {A} (f : PCA9685 -> A) (m : Machine) : kept f m m.
Proof. reflexivity. Qed.

Lemma kept_trans {A} (f : PCA9685 -> A) (m1 m2 m3 : Machine) :
  kept f m1 m2 -> kept f m2 m3 -> kept f m1 m3.
Proof. unfold kept. congruence. Qed.

Lemma kept_upd_dev {A} (f : PCA9685 -> A) (g : PCA9685 -> PCA9685) :
  (forall d, f (g d) = f d) -> post (upd_dev g) (kept f).
Proof. intros H m a m' [= _ <-]. apply H. Qed.

Lemma kept_say {A} (f : PCA9685 -> A) (d : diag) : post (say d) (kept f).
Proof. intros m a m' [= _ <-]. reflexivity. Qed.

Lemma kept_emit {A} (f : PCA9685 -> A) (e : event) : post (emit e) (kept f).
Proof. intros m a m' [= _ <-]. reflexivity. Qed.

Lemma kept_transfer {A} (f : PCA9685 -> A) (send : list Z) (n : nat) :
  post (transfer send n) (kept f).
Proof.
  intros m a m'. unfold transfer. destruct (bus m (n_xfer m)). intros [= _ <-]. reflexivity.
Qed.

Ltac kept_step f :=
  first
    [ apply (post_bind (kept f) (kept_trans f))
    | apply (post_ret (kept f) (kept_refl f))
    | apply (post_lift (kept f) (kept_refl f))
    | apply (post_get_dev (kept f) (kept_refl f))
    | apply (post_when (kept f) (kept_refl f))
    | apply post_if
    | apply (post_for_range (kept f) (kept_refl f) (kept_trans f))
    | apply kept_say
    | apply kept_emit
    | apply kept_transfer
    | (apply kept_upd_dev; intros; reflexivity)
    | match goal with |- forall _, post _ _ => intros ? end
    | match goal with |- post (match ?x with _ => _ end) _ => destruct x end ].

Ltac kept_unfold :=
  unfold RunImpl, RunImpl_on, RunImpl_test, RunImpl_period, RunImpl_channel,
    init, custom_method, setPWMFreq, reset, read8, fail_read, write8, setPin, setPWM,
    perf_count_comms_errors, usleep, ScheduleDelayed, ScheduleNow.

(** No function of the driver but [custom_method] assigns the mode, and none
    assigns the scheduling interval. *)
Lemma kept_mode_RunImpl (inp : orb_in) : post (RunImpl inp) (kept _mode).
Proof. kept_unfold. repeat kept_step _mode. Qed.

Lemma kept_interval_RunImpl (inp : orb_in) : post (RunImpl inp) (kept _i2cpwm_interval).
Proof. kept_unfold. repeat kept_step _i2cpwm_interval. Qed.

Lemma kept_interval_custom_method (c : Z) : post (custom_method c) (kept _i2cpwm_interval).
Proof. kept_unfold. repeat kept_step _i2cpwm_interval. Qed.

Lemma kept_interval_init (r : Z) : post (init r) (kept _i2cpwm_interval).
Proof. kept_unfold. repeat kept_step _i2cpwm_interval. Qed.

Lemma kept_values_RunImpl_test : post RunImpl_test (kept _current_values).
Proof. kept_unfold. repeat kept_step _current_values. Qed.

Lemma kept_period_RunImpl_test : post RunImpl_test (kept _pwm_period_us).
Proof. kept_unfold. repeat kept_step _pwm_period_us. Qed.

Lemma kept_cmd_RunImpl_test : post RunImpl_test (kept _pca_pwm).
Proof. kept_unfold. repeat kept_step _pca_pwm. Qed.

Lemma kept_freq_RunImpl_test : post RunImpl_test (kept _pwm_freq).
Proof. kept_unfold. repeat kept_step _pwm_freq. Qed.

Lemma kept_period_custom_method (c : Z) : post (custom_method c) (kept _pwm_period_us).
Proof. kept_unfold. repeat kept_step _pwm_period_us. Qed.

Lemma kept_values_custom_method (c : Z) : post (custom_method c) (kept _current_values).
Proof. kept_unfold. repeat kept_step _current_values. Qed.

Lemma kept_test_pwm_custom_method (c : Z) : post (custom_method c) (kept _test_pwm).
Proof. kept_unfold. repeat kept_step _test_pwm. Qed.

Lemma kept_test_pwm_RunImpl_on (inp : orb_in) : post (RunImpl_on inp) (kept _test_pwm).
Proof. kept_unfold. repeat kept_step _test_pwm. Qed.

(* ===================================================================== *)
(** ** Further properties: the test pattern *)
(* ===================================================================== *)

Lemma test_loop_frames (n : nat) : forall (k : nat) (m : Machine),
  (k + n <= 16)%nat ->
  0 <= _test_pwm (dev m) ->
  exists m',
    for_range k n (fun i =>
      let* d := get_dev in
      let* _ := setPin (u8 (Z.of_nat i)) (_test_pwm d) in
      ret tt) m = Some (tt, m')
    /\ dev_kept (dev m) (dev m')
    /\ n_xfer m' = (n_xfer m + n)%nat
    /\ forall i, (i < 16)%nat ->
         channel_frames i (trace m') =
           channel_frames i (trace m)
           ++ if in_range k n i
              then [setPWM_frame (Z.of_nat i) (fst (pin_encoding (_test_pwm (dev m))))
                                 (snd (pin_encoding (_test_pwm (dev m))))]
              else [].
Proof.
  induction n as [|n IH]; intros k m Hk Ht.
  - exists m. split; [reflexivity|]. split; [apply dev_kept_refl|]. split; [lia|].
    intros i Hi.
    replace (in_range k 0 i) with false; [rewrite app_nil_r; reflexivity|].
    unfold in_range. destruct (Nat.leb_spec k i), (Nat.ltb_spec i (k + 0)); simpl; auto; lia.
  - cbn [for_range]. unfold bind at 1. unfold bind at 1, get_dev at 1. cbn beta iota.
    unfold bind at 1.
    destruct (setPin_run (u8 (Z.of_nat k)) (_test_pwm (dev m)) m Ht)
      as (m1 & E1 & _ & Hn1 & Ht1 & Hd1 & _).
    rewrite E1. unfold ret at 1.
    assert (Htp : _test_pwm (dev m1) = _test_pwm (dev m))
      by (destruct Hd1 as (_ & _ & _ & _ & _ & _ & H & _); exact H).
    destruct (IH (S k) m1 ltac:(lia) ltac:(rewrite Htp; exact Ht))
      as (m' & E' & Hd' & Hn' & Hi').
    exists m'. split; [exact E'|]. split; [eapply dev_kept_trans; eauto|].
    split; [lia|].
    intros i Hi. rewrite (Hi' i Hi), Htp, Ht1.
    unfold channel_frames at 1. rewrite frames_to_app.
    fold (channel_frames i (trace m)).
    match goal with |- context [frames_to (channel_reg i) [?e]] =>
      change (frames_to (channel_reg i) [e]) with (channel_frames i [e]) end.
    rewrite (channel_frames_setPWM k i) by lia.
    rewrite <- app_assoc. f_equal.
    destruct (Nat.eq_dec k i) as [->|Hne].
    + rewrite Nat.eqb_refl.
      replace (in_range (S i) n i) with false
        by (unfold in_range; destruct (Nat.leb_spec (S i) i); [lia|reflexivity]).
      replace (in_range i (S n) i) with true
        by (unfold in_range; destruct (Nat.leb_spec i i), (Nat.ltb_spec i (i + S n));
            simpl; auto; lia).
      reflexivity.
    + replace (k =? i)%nat with false by (symmetry; apply Nat.eqb_neq; lia).
      replace (in_range k (S n) i) with (in_range (S k) n i)
        by (unfold in_range; destruct (Nat.leb_spec (S k) i), (Nat.leb_spec k i),
              (Nat.ltb_spec i (S k + n)), (Nat.ltb_spec i (k + S n)); simpl; auto; lia).
      reflexivity.
Qed.

Lemma test_duty_range (t : Z) : 0 <= t -> 0 <= test_duty t <= 4096.
Proof. unfold test_duty. destruct (Z.gtb_spec t 4096); lia. Qed.

(** A tick in test mode, in full. *)
Lemma test_tick_run (inp : orb_in) (m : Machine) :
  _mode (dev m) = IOX_MODE_TEST_OUT ->
  0 <= _test_pwm (dev m) ->
  exists m',
    RunImpl inp m = Some (tt, m')
    /\ _mode (dev m') = IOX_MODE_TEST_OUT
    /\ _test_pwm (dev m') = next_test_pwm (_test_pwm (dev m))
    /\ n_xfer m' = (n_xfer m + 16)%nat
    /\ forall i, (i < 16)%nat ->
         channel_frames i (trace m') =
           channel_frames i (trace m)
           ++ [setPWM_frame (Z.of_nat i)
                 (fst (pin_encoding (test_duty (_test_pwm (dev m)))))
                 (snd (pin_encoding (test_duty (_test_pwm (dev m)))))].
Proof.
  intros Hmode Ht.
  unfold RunImpl, bind at 1, get_dev at 1. cbn beta iota. rewrite Hmode.
  unfold bind at 1, RunImpl_test at 1.
  unfold bind at 1, get_dev at 1. cbn beta iota.
  unfold bind at 1.
  set (m0 := mkMachine (set_test_pwm (test_duty (_test_pwm (dev m))) (dev m))
                       (bus m) (n_xfer m) (trace m) (console m)).
  assert (Hw : when (_test_pwm (dev m) >? 4096) (upd_dev (set_test_pwm 0)) m = Some (tt, m0)).
  { unfold when, upd_dev, ret, m0, test_duty. destruct (_test_pwm (dev m) >? 4096).
    - reflexivity.
    - destruct m as [d b n t c]. destruct d. reflexivity. }
  rewrite Hw. unfold bind at 1. change NUMBER_PWM_CHANNELS with 16%nat.
  pose proof (test_duty_range _ Ht) as Hr.
  destruct (test_loop_frames 16 0 m0 ltac:(lia)) as (m1 & E1 & Hd1 & Hn1 & Hi1).
  { subst m0. simpl_fields. lia. }
  rewrite E1. unfold upd_dev at 1, bind, get_dev, ScheduleDelayed, emit. cbn beta iota.
  eexists. split; [reflexivity|]. simpl_fields.
  destruct Hd1 as (H1 & _ & _ & _ & _ & _ & H7 & _). subst m0. simpl_fields.
  split; [congruence|]. split; [rewrite H7; reflexivity|]. split; [exact Hn1|].
  intros i Hi. rewrite channel_frames_schedule, (Hi1 i Hi).
  replace (in_range 0 16 i) with true
    by (unfold in_range; destruct (Nat.ltb_spec i (0 + 16)); [reflexivity|lia]).
  reflexivity.
Qed.

Lemma RunImpl_test_mode_ignores_input (inp inp' : orb_in) (m : Machine) :
  _mode (dev m) = IOX_MODE_TEST_OUT -> RunImpl inp m = RunImpl inp' m.
Proof.
  intros Hmode. unfold RunImpl, bind, get_dev. rewrite Hmode. reflexivity.
Qed.

Lemma post_RunImpl_test_mode (inp : orb_in) (R : Machine -> Machine -> Prop) (m m' : Machine) :
  (forall m1 m2 m3, R m1 m2 -> R m2 m3 -> R m1 m3) ->
  post RunImpl_test R ->
  (forall e, post (emit e) R) ->
  _mode (dev m) = IOX_MODE_TEST_OUT ->
  RunImpl inp m = Some (tt, m') ->
  R m m'.
Proof.
  intros Rt Hp He Hmode. unfold RunImpl, bind at 1, get_dev at 1. cbn beta iota.
  rewrite Hmode. unfold bind at 1.
  destruct (RunImpl_test m) as [[[] m1]|] eqn:E1; [|discriminate].
  unfold bind, get_dev, ScheduleDelayed. intros E2.
  eapply Rt; [eapply Hp; eauto|eapply He; eauto].
Qed.

(** X7.  A tick in test mode reads no command: whatever the command topic
    holds, it sends the same duty (the ramp value, or 0 once the ramp has
    passed 4096) to each of the sixteen channels, one message per channel,
    moves the ramp on by 409 and leaves the last-applied values, the command
    copy and the period alone. *)
Theorem test_tick_writes_ramp (inp inp' : orb_in) (m : Machine) :
  _mode (dev m) = IOX_MODE_TEST_OUT ->
  0 <= _test_pwm (dev m) ->
  exists m',
    RunImpl inp m = Some (tt, m')
    /\ RunImpl inp' m = Some (tt, m')
    /\ _test_pwm (dev m') = next_test_pwm (_test_pwm (dev m))
    /\ n_xfer m' = (n_xfer m + 16)%nat
    /\ (forall i, (i < 16)%nat ->
          channel_frames i (trace m') =
            channel_frames i (trace m)
            ++ [setPWM_frame (Z.of_nat i)
                  (fst (pin_encoding (test_duty (_test_pwm (dev m)))))
                  (snd (pin_encoding (test_duty (_test_pwm (dev m)))))])
    /\ _current_values (dev m') = _current_values (dev m)
    /\ _pca_pwm (dev m') = _pca_pwm (dev m)
    /\ _pwm_period_us (dev m') = _pwm_period_us (dev m).
Proof.
  intros Hmode Ht.
  destruct (test_tick_run inp m Hmode Ht) as (m' & E & _ & Hr & Hn & Hi).
  exists m'. split; [exact E|].
  split; [rewrite (RunImpl_test_mode_ignores_input inp' inp m Hmode); exact E|].
  split; [exact Hr|]. split; [exact Hn|]. split; [exact Hi|].
  split; [|split].
  - apply (post_RunImpl_test_mode inp (kept _current_values) m m'); auto.
    + apply kept_trans. + apply kept_values_RunImpl_test. + intros e; apply kept_emit.
  - apply (post_RunImpl_test_mode inp (kept _pca_pwm) m m'); auto.
    + apply kept_trans. + apply kept_cmd_RunImpl_test. + intros e; apply kept_emit.
  - apply (post_RunImpl_test_mode inp (kept _pwm_period_us) m m'); auto.
    + apply kept_trans. + apply kept_period_RunImpl_test. + intros e; apply kept_emit.
Qed.

Lemma test_duty_step (t j : Z) :
  0 <= j < 11 -> test_duty t = 409 * j ->
  0 <= next_test_pwm t
  /\ test_duty (next_test_pwm t) = 409 * ((j + 1) mod 11).
Proof.
  intros Hj Hd. unfold next_test_pwm. fold (test_duty t). rewrite Hd.
  change (4096 / 10) with 409. unfold u16.
  rewrite Z.mod_small by lia.
  split; [lia|]. unfold test_duty.
  destruct (Z.eq_dec j 10) as [->|Hne].
  - reflexivity.
  - rewrite (Z.mod_small (j + 1)) by lia.
    destruct (Z.gtb_spec (409 * j + 409) 4096); lia.
Qed.

Lemma test_ramp_steps (inps : list orb_in) : forall (m : Machine) (j : Z),
  _mode (dev m) = IOX_MODE_TEST_OUT ->
  0 <= _test_pwm (dev m) ->
  0 <= j < 11 ->
  test_duty (_test_pwm (dev m)) = 409 * j ->
  exists m',
    run (map Tick inps) m = Some (tt, m')
    /\ _mode (dev m') = IOX_MODE_TEST_OUT
    /\ 0 <= _test_pwm (dev m')
    /\ test_duty (_test_pwm (dev m')) = 409 * ((j + Z.of_nat (length inps)) mod 11).
Proof.
  induction inps as [|inp inps IH]; intros m j Hmode Ht Hj Hd.
  - exists m. cbn. rewrite Z.add_0_r, Z.mod_small by lia. auto.
  - cbn [map run do_action]. unfold bind.
    destruct (test_tick_run inp m Hmode Ht) as (m1 & E1 & Hm1 & Hr1 & _).
    rewrite E1.
    destruct (test_duty_step _ j Hj Hd) as [Hpos Hnext].
    rewrite <- Hr1 in Hpos, Hnext.
    destruct (IH m1 ((j + 1) mod 11) Hm1 Hpos) as (m' & E' & Hm' & Hpos' & Hd').
    { apply Z.mod_pos_bound. lia. }
    { exact Hnext. }
    exists m'. split; [exact E'|]. split; [exact Hm'|]. split; [exact Hpos'|].
    rewrite Hd'. f_equal. rewrite Z.add_mod_idemp_l by lia.
    f_equal. cbn [length]. lia.
Qed.

(** X8.  Started with the ramp at 0, the test pattern cycles with period 11:
    the duty applied by the tick that follows [n] ticks is 409 * (n mod 11),
    so it is never above 4090 and the outputs are never driven fully on. *)
Theorem test_ramp_cycle (inps : list orb_in) (m : Machine) :
  _mode (dev m) = IOX_MODE_TEST_OUT ->
  _test_pwm (dev m) = 0 ->
  exists m',
    run (map Tick inps) m = Some (tt, m')
    /\ test_duty (_test_pwm (dev m')) = 409 * (Z.of_nat (length inps) mod 11)
    /\ test_duty (_test_pwm (dev m')) <= 4090
    /\ fst (pin_encoding (test_duty (_test_pwm (dev m')))) = 0.
Proof.
  intros Hmode H0.
  destruct (test_ramp_steps inps m 0 Hmode) as (m' & E & _ & _ & Hd).
  - rewrite H0. lia.
  - lia.
  - rewrite H0. reflexivity.
  - exists m'. split; [exact E|]. rewrite Z.add_0_l in Hd.
    pose proof (Z.mod_pos_bound (Z.of_nat (length inps)) 11 ltac:(lia)) as Hb.
    split; [exact Hd|]. split; [lia|].
    rewrite pin_encoding_cases by lia.
    destruct (Z.geb_spec (test_duty (_test_pwm (dev m'))) 4095); [lia|].
    destruct (test_duty (_test_pwm (dev m')) =? 0); reflexivity.
Qed.

(* ===================================================================== *)
(** ** Further properties: administrative commands and runs *)
(* ===================================================================== *)

Lemma custom_method_run (c : Z) (m : Machine) :
  exists m',
    custom_method c m = Some (tt, m')
    /\ _mode (dev m') = (if c =? 1 then IOX_MODE_TEST_OUT else _mode (dev m))
    /\ (c = 0 ->
        trace m' = trace m ++ [EvTransfer [PCA9685_MODE1; 0] 0 (ret_at m 0)]
        /\ n_xfer m' = S (n_xfer m)
        /\ _comms_errors (dev m') = _comms_errors (dev m) + (if ret_at m 0 =? OK then 0 else 1))
    /\ (c <> 0 ->
        trace m' = trace m /\ n_xfer m' = n_xfer m
        /\ _comms_errors (dev m') = _comms_errors (dev m) /\ console m' = console m)
    /\ (c <> 0 -> c <> 1 -> m' = m).
Proof.
  unfold custom_method.
  destruct (Z.eqb_spec c 0) as [->|H0].
  - unfold bind at 1, reset at 1, bind at 1, say at 1.
    match goal with |- context [write8 ?a ?v ?mm] =>
      destruct (write8_run a v mm) as (m1 & E1 & Hb1 & Hn1 & Ht1 & He1 & Hc1) end.
    rewrite E1. unfold ret. exists m1. split; [reflexivity|].
    split.
    { cbn [Z.eqb].
      pose proof (kept_mode_RunImpl) as _.
      assert (Hk : post (write8 PCA9685_MODE1 0) (kept _mode))
        by (kept_unfold; repeat kept_step _mode).
      apply (Hk _ _ _ E1). }
    split; [intros _; auto|]. split; [congruence|congruence].
  - destruct (Z.eqb_spec c 1) as [->|H1].
    + unfold upd_dev. eexists. split; [reflexivity|]. simpl_fields.
      split; [reflexivity|]. split; [lia|]. split; [auto|]. congruence.
    + unfold ret. exists m. split; [reflexivity|]. split; [reflexivity|].
      split; [lia|]. auto.
Qed.

Lemma RunImpl_defined (inp : orb_in) (m : Machine) :
  tick_ok inp m -> exists m', RunImpl inp m = Some (tt, m').
Proof.
  unfold tick_ok. intros Hok.
  destruct (_mode (dev m)) eqn:Hmode.
  - destruct (orb_fresh inp) as [cmd|] eqn:Hfresh.
    + destruct Hok as [Hd Hc].
      destruct (RunImpl_fresh_run inp cmd m Hmode Hfresh Hd Hc) as (m' & E & _). eauto.
    + destruct (RunImpl_stale_run inp m Hmode Hfresh) as (m' & E & _). eauto.
  - destruct (RunImpl_test_run inp m Hmode) as (m' & E & _). eauto.
Qed.

Lemma accounted_evolves (P : event -> Prop) (m m' : Machine) :
  accounted m -> evolves P m m' -> accounted m'.
Proof.
  intros [He Hn] (_ & _ & evs & Ht & _ & Hn' & He').
  unfold accounted. rewrite Ht, failures_app, transfer_rets_app, !length_app.
  split; lia.
Qed.

Lemma state_inv_dev_ok (m : Machine) : state_inv m -> dev_ok (dev m).
Proof.
  unfold state_inv, dev_ok, u16_range, PWM_PERIOD_MIN_US, PWM_PERIOD_MAX_US.
  intros (Hp & Hl & _). split; [lia|exact Hl].
Qed.

(** One tick keeps the state of the control loop. *)
Lemma state_inv_tick (inp : orb_in) (m : Machine) :
  state_inv m -> action_ok (Tick inp) ->
  exists m', RunImpl inp m = Some (tt, m') /\ state_inv m'.
Proof.
  intros Hinv Hok. pose proof Hinv as (Hp & Hl & Hv & Hmsg).
  pose proof (state_inv_dev_ok m Hinv) as Hd. cbn in Hok.
  assert (Hmsg' : forall m', RunImpl inp m = Some (tt, m') -> length (_msg (dev m')) = 6%nat).
  { intros m' E. destruct (evolves_RunImpl inp m tt m' E) as (_ & Hm & _). auto. }
  destruct (_mode (dev m)) eqn:Hmode.
  - destruct (orb_fresh inp) as [cmd|] eqn:Hfresh.
    + destruct (RunImpl_fresh_run inp cmd m Hmode Hfresh Hd Hok)
        as (m' & E & _ & _ & _ & _ & _ & _ & Hp' & _ & Hl' & _ & Hi).
      cbv zeta in Hp', Hi. exists m'. split; [exact E|].
      split.
      { rewrite Hp'. destruct (period_guard _ _) eqn:Eg; [|exact Hp].
        apply period_guard_accepted in Eg. unfold period_accepted in Eg.
        unfold PWM_PERIOD_MIN_US, PWM_PERIOD_MAX_US. lia. }
      split; [exact Hl'|]. split; [|auto].
      apply Forall_lookup. intros i v Ev.
      assert (Hi16 : (i < 16)%nat).
      { rewrite <- Hl'. eapply lookup_lt_Some; eauto. }
      destruct (cmd_ok_lookup cmd i Hok Hi16) as (w & Ew & Hw).
      destruct (dev_ok_lookup (dev m) i Hd Hi16) as (c & Ec).
      assert (Hr : u16_range (if period_guard (_pwm_period_us (dev m)) (pwm_period cmd)
                              then pwm_period cmd else _pwm_period_us (dev m))).
      { apply period_after_in_range; [apply Hd|apply Hok]. }
      destruct (new_value_defined _ w Hr Hw) as (nv & En & Hnv).
      specialize (Hi i w c nv Hi16 Ew Ec En).
      destruct (applies nv c) eqn:Ea.
      * apply applies_true in Ea. destruct Hi as [Hi _]. assert (v = nv) by congruence. lia.
      * destruct Hi as [Hi _]. assert (v = c) by congruence. subst v.
        eapply (proj1 (Forall_lookup _ _) Hv); eauto.
    + destruct (RunImpl_stale_run inp m Hmode Hfresh) as (m' & E & _ & Hp' & Hc' & _).
      exists m'. split; [exact E|]. unfold state_inv. rewrite Hp', Hc'. auto.
  - destruct (RunImpl_test_run inp m Hmode) as (m' & E & _ & Hp' & _).
    exists m'. split; [exact E|]. unfold state_inv. rewrite Hp'.
    assert (Hc' : _current_values (dev m') = _current_values (dev m)).
    { apply (post_RunImpl_test_mode inp (kept _current_values) m m'); auto.
      + apply kept_trans. + apply kept_values_RunImpl_test. + intros e; apply kept_emit. }
    rewrite Hc'. auto.
Qed.

Lemma state_inv_admin (c : Z) (m : Machine) :
  state_inv m ->
  exists m', custom_method c m = Some (tt, m') /\ state_inv m'.
Proof.
  intros (Hp & Hl & Hv & Hmsg).
  destruct (custom_method_run c m) as (m' & E & _).
  exists m'. split; [exact E|]. unfold state_inv.
  rewrite (kept_period_custom_method c m tt m' E), (kept_values_custom_method c m tt m' E).
  destruct (evolves_custom_method c m tt m' E) as (_ & Hm & _). auto.
Qed.

Lemma run_invariant (acts : list action) : forall m : Machine,
  state_inv m ->
  Forall action_ok acts ->
  exists m',
    run acts m = Some (tt, m')
    /\ state_inv m'
    /\ evolves any_event m m'
    /\ _i2cpwm_interval (dev m') = _i2cpwm_interval (dev m).
Proof.
  induction acts as [|a acts IH]; intros m Hinv Hok.
  - exists m. split; [reflexivity|]. split; [exact Hinv|]. split; [apply evolves_refl|reflexivity].
  - inversion Hok as [|a' acts' Ha Hrest]; subst.
    cbn [run]. unfold bind.
    assert (Hstep : exists m1, do_action a m = Some (tt, m1) /\ state_inv m1
                               /\ evolves any_event m m1
                               /\ _i2cpwm_interval (dev m1) = _i2cpwm_interval (dev m)).
    { destruct a as [inp|c]; cbn [do_action].
      - destruct (state_inv_tick inp m Hinv Ha) as (m1 & E1 & H1).
        exists m1. split; [exact E1|]. split; [exact H1|]. split.
        + eapply evolves_weaken; [|eapply evolves_RunImpl; eauto]. intros; exact I.
        + apply (kept_interval_RunImpl inp m tt m1 E1).
      - destruct (state_inv_admin c m Hinv) as (m1 & E1 & H1).
        exists m1. split; [exact E1|]. split; [exact H1|]. split.
        + eapply evolves_custom_method; eauto.
        + apply (kept_interval_custom_method c m tt m1 E1). }
    destruct Hstep as (m1 & E1 & Hinv1 & Hev1 & Hiv1). rewrite E1.
    destruct (IH m1 Hinv1 Hrest) as (m' & E' & Hinv' & Hev' & Hiv').
    exists m'. split; [exact E'|]. split; [exact Hinv'|].
    split; [eapply evolves_trans; eauto|congruence].
Qed.

Lemma post_run (R : Machine -> Machine -> Prop) :
  (forall m, R m m) ->
  (forall m1 m2 m3, R m1 m2 -> R m2 m3 -> R m1 m3) ->
  (forall inp, post (RunImpl inp) R) ->
  (forall c, post (custom_method c) R) ->
  forall acts, post (run acts) R.
Proof.
  intros Rr Rt Htick Hadm acts. induction acts as [|a acts IH]; cbn [run].
  - apply post_ret; auto.
  - apply post_bind; auto. destruct a; cbn [do_action]; auto.
Qed.

(* ===================================================================== *)
(** ** Further properties: sample runs of the test pattern *)
(* ===================================================================== *)

Lemma test_tick_writes_ramp_witness :
  exists m',
    RunImpl (uniform_cmd 20000 1500) (test_machine (bus_ok 0)) = Some (tt, m')
    /\ RunImpl (mk_orb_in 3 None) (test_machine (bus_ok 0)) = Some (tt, m')
    /\ _test_pwm (dev m') = next_test_pwm (_test_pwm (dev (test_machine (bus_ok 0))))
    /\ n_xfer m' = (n_xfer (test_machine (bus_ok 0)) + 16)%nat.
Proof.
  destruct (test_tick_writes_ramp (uniform_cmd 20000 1500) (mk_orb_in 3 None)
              (test_machine (bus_ok 0)))
    as (m' & E & E' & Hr & Hn & _).
  - reflexivity.
  - cbn. lia.
  - exists m'. auto.
Defined.

Lemma test_ramp_cycle_witness :
  exists m',
    run (map Tick (replicate 12 (mk_orb_in 3 None))) (test_machine (bus_ok 0)) = Some (tt, m')
    /\ test_duty (_test_pwm (dev m')) = 409.
Proof.
  destruct (test_ramp_cycle (replicate 12 (mk_orb_in 3 None)) (test_machine (bus_ok 0)))
    as (m' & E & Hd & _).
  - reflexivity.
  - reflexivity.
  - exists m'. split; [exact E|exact Hd].
Defined.

(* ===================================================================== *)
(** ** Further properties: what ticks and commands keep *)
(* ===================================================================== *)

Lemma state_inv_fresh (b : nat -> Z * Z) : state_inv (fresh_machine b).
Proof.
  unfold state_inv, fresh_machine, fresh_dev, PWM_PERIOD_MIN_US, PWM_PERIOD_MAX_US.
  simpl_fields. split; [lia|]. split; [reflexivity|]. split; [|reflexivity].
  cbn. repeat constructor; lia.
Qed.

Lemma cmd_ok_uniform (period pw : Z) :
  0 <= period < 65536 -> 0 < pw < 65536 ->
  action_ok (Tick (uniform_cmd period pw)).
Proof.
  intros Hp Hw. cbn. split; [exact Hp|]. split; [reflexivity|].
  cbn. repeat constructor; lia.
Qed.

(** X3.  Whatever well-formed commands arrive and whatever the transport
    answers, every tick and every administrative command returns, the
    period in use stays within 656..41666 us, every last-applied duty stays
    below 4096, and the rescheduling interval is never changed. *)
Theorem run_keeps_state (acts : list action) (m : Machine) :
  state_inv m ->
  Forall action_ok acts ->
  exists m',
    run acts m = Some (tt, m')
    /\ PWM_PERIOD_MIN_US <= _pwm_period_us (dev m') <= PWM_PERIOD_MAX_US
    /\ length (_current_values (dev m')) = NUMBER_PWM_CHANNELS
    /\ (forall i v, _current_values (dev m') !! i = Some v -> 0 <= v < 4096)
    /\ _i2cpwm_interval (dev m') = _i2cpwm_interval (dev m)
    /\ bus m' = bus m.
Proof.
  intros Hinv Hok.
  destruct (run_invariant acts m Hinv Hok) as (m' & E & (Hp & Hl & Hv & _) & Hev & Hi).
  exists m'. split; [exact E|]. split; [exact Hp|]. split; [exact Hl|].
  split; [|split; [exact Hi|apply Hev]].
  intros i v Ev. eapply (proj1 (Forall_lookup _ _) Hv); eauto.
Qed.

Lemma run_keeps_state_witness :
  exists m',
    run [Tick (uniform_cmd 10000 30000); Admin 0; Tick (uniform_cmd 500 400)]
        (fresh_machine (bus_fail 5)) = Some (tt, m')
    /\ PWM_PERIOD_MIN_US <= _pwm_period_us (dev m') <= PWM_PERIOD_MAX_US
    /\ _i2cpwm_interval (dev m') = 20000.
Proof.
  destruct (run_keeps_state
              [Tick (uniform_cmd 10000 30000); Admin 0; Tick (uniform_cmd 500 400)]
              (fresh_machine (bus_fail 5)))
    as (m' & E & Hp & _ & _ & Hi & _).
  - apply state_inv_fresh.
  - repeat constructor; try (apply cmd_ok_uniform; lia).
  - exists m'. split; [exact E|]. split; [exact Hp|exact Hi].
Defined.

Lemma test_mode_run (acts : list action) : forall m : Machine,
  _mode (dev m) = IOX_MODE_TEST_OUT ->
  exists m', run acts m = Some (tt, m') /\ _mode (dev m') = IOX_MODE_TEST_OUT.
Proof.
  induction acts as [|a acts IH]; intros m Hmode.
  - exists m. split; [reflexivity|exact Hmode].
  - cbn [run]. unfold bind.
    assert (Hstep : exists m1, do_action a m = Some (tt, m1)
                               /\ _mode (dev m1) = IOX_MODE_TEST_OUT).
    { destruct a as [inp|c]; cbn [do_action].
      - destruct (RunImpl_test_run inp m Hmode) as (m1 & E1 & _).
        exists m1. split; [exact E1|].
        rewrite (kept_mode_RunImpl inp m tt m1 E1). exact Hmode.
      - destruct (custom_method_run c m) as (m1 & E1 & Hm1 & _).
        exists m1. split; [exact E1|]. rewrite Hm1, Hmode. destruct (c =? 1); reflexivity. }
    destruct Hstep as (m1 & E1 & Hm1). rewrite E1. apply IH. exact Hm1.
Qed.

Lemma kept_in_test_mode {A} (f : PCA9685 -> A) :
  post RunImpl_test (kept f) ->
  (forall c, post (custom_method c) (kept f)) ->
  forall (acts : list action) (m m' : Machine),
    _mode (dev m) = IOX_MODE_TEST_OUT ->
    run acts m = Some (tt, m') ->
    f (dev m') = f (dev m).
Proof.
  intros Htest Hadm acts. induction acts as [|a acts IH]; intros m m' Hmode.
  - intros [= <-]. reflexivity.
  - cbn [run]. unfold bind.
    destruct (do_action a m) as [[[] m1]|] eqn:E1; [|discriminate]. intros E2.
    assert (Hm1 : _mode (dev m1) = IOX_MODE_TEST_OUT /\ f (dev m1) = f (dev m)).
    { destruct a as [inp|c]; cbn [do_action] in E1.
      - split; [rewrite (kept_mode_RunImpl inp m tt m1 E1); exact Hmode|].
        apply (post_RunImpl_test_mode inp (kept f) m m1); auto.
        + apply kept_trans. + intros e; apply kept_emit.
      - split; [|apply (Hadm c m tt m1 E1)].
        destruct (custom_method_run c m) as (m1' & E1' & Hm1' & _).
        assert (m1' = m1) by congruence. subst m1'.
        rewrite Hm1', Hmode. destruct (c =? 1); reflexivity. }
    destruct Hm1 as [Hm1 Hf1]. rewrite (IH m1 m' Hm1 E2). exact Hf1.
Qed.

Lemma kept_cmd_custom_method (c : Z) : post (custom_method c) (kept _pca_pwm).
Proof. kept_unfold. repeat kept_step _pca_pwm. Qed.

Lemma kept_freq_custom_method (c : Z) : post (custom_method c) (kept _pwm_freq).
Proof. kept_unfold. repeat kept_step _pwm_freq. Qed.

(** X4.  Test mode is never left: once the mode is [IOX_MODE_TEST_OUT], every
    sequence of ticks and administrative commands returns, with no condition
    on the commands that arrive, the mode is still [IOX_MODE_TEST_OUT]
    afterwards, and neither the last-applied duties nor the command copy,
    the period in use or the stored frequency have changed: commands are no
    longer read. *)
Theorem test_mode_is_permanent (acts : list action) (m : Machine) :
  _mode (dev m) = IOX_MODE_TEST_OUT ->
  exists m',
    run acts m = Some (tt, m')
    /\ _mode (dev m') = IOX_MODE_TEST_OUT
    /\ _current_values (dev m') = _current_values (dev m)
    /\ _pca_pwm (dev m') = _pca_pwm (dev m)
    /\ _pwm_period_us (dev m') = _pwm_period_us (dev m)
    /\ _pwm_freq (dev m') = _pwm_freq (dev m).
Proof.
  intros Hmode. destruct (test_mode_run acts m Hmode) as (m' & E & Hm').
  exists m'. split; [exact E|]. split; [exact Hm'|].
  split; [|split; [|split]].
  - apply (kept_in_test_mode _current_values kept_values_RunImpl_test
             kept_values_custom_method acts m m' Hmode E).
  - apply (kept_in_test_mode _pca_pwm kept_cmd_RunImpl_test
             kept_cmd_custom_method acts m m' Hmode E).
  - apply (kept_in_test_mode _pwm_period_us kept_period_RunImpl_test
             kept_period_custom_method acts m m' Hmode E).
  - apply (kept_in_test_mode _pwm_freq kept_freq_RunImpl_test
             kept_freq_custom_method acts m m' Hmode E).
Qed.

Lemma test_mode_is_permanent_witness :
  exists m',
    run [Tick (uniform_cmd 10000 0); Admin 0; Admin 7; Tick (mk_orb_in 3 None)]
        (test_machine (bus_ok 0)) = Some (tt, m')
    /\ _mode (dev m') = IOX_MODE_TEST_OUT
    /\ _pwm_period_us (dev m') = 20000.
Proof.
  destruct (test_mode_is_permanent
              [Tick (uniform_cmd 10000 0); Admin 0; Admin 7; Tick (mk_orb_in 3 None)]
              (test_machine (bus_ok 0)))
    as (m' & E & Hm & _ & _ & Hp & _).
  - reflexivity.
  - exists m'. split; [exact E|]. split; [exact Hm|exact Hp].
Defined.

(* ===================================================================== *)
(** ** Further properties: what a tick sends *)
(* ===================================================================== *)

Lemma frames_to_tick_event (reg : Z) (e : event) :
  tick_event e ->
  (forall i, (i < 16)%nat -> reg <> channel_reg i) ->
  frames_to reg [e] = [].
Proof.
  intros [(i & on & off & r & Hi & ->)|(d & ->)] Hreg; [|reflexivity].
  unfold frames_to, setPWM_frame. cbn [flat_map app].
  rewrite u8_small by (unfold LED0_ON_L; lia).
  specialize (Hreg i Hi). unfold channel_reg in Hreg.
  destruct (Z.eqb_spec (LED0_ON_L + 4 * Z.of_nat i) reg); [congruence|reflexivity].
Qed.

Lemma frames_to_tick_events (reg : Z) (evs : list event) :
  Forall tick_event evs ->
  (forall i, (i < 16)%nat -> reg <> channel_reg i) ->
  frames_to reg evs = [].
Proof.
  intros Hev Hreg. induction Hev as [|e evs He _ IH]; [reflexivity|].
  change (e :: evs) with ([e] ++ evs).
  rewrite frames_to_app, IH, (frames_to_tick_event reg e He Hreg). reflexivity.
Qed.

Lemma tick_event_no_usleep (evs : list event) (us : Z) :
  Forall tick_event evs -> ~ In (EvUsleep us) evs.
Proof.
  intros Hev Hin. rewrite List.Forall_forall in Hev. apply Hev in Hin.
  destruct Hin as [(i & on & off & r & _ & H)|(d & H)]; discriminate.
Qed.

(** X5.  A tick talks to the channel registers only: every transfer it makes
    is the five-byte message of one of the sixteen channels, it never
    sleeps, and it addresses neither MODE1 nor the prescaler, nor any other
    register outside the channels' (so a period adopted by the tick is not
    configured into the chip). *)
Theorem tick_writes_channels_only (inp : orb_in) (m : Machine) :
  tick_ok inp m ->
  exists m' evs,
    RunImpl inp m = Some (tt, m')
    /\ trace m' = trace m ++ evs
    /\ Forall tick_event evs
    /\ frames_to PCA9685_MODE1 evs = []
    /\ frames_to PCA9685_PRESCALE evs = []
    /\ (forall reg, (forall i, (i < 16)%nat -> reg <> channel_reg i) -> frames_to reg evs = [])
    /\ (forall us, ~ In (EvUsleep us) evs).
Proof.
  intros Hok. destruct (RunImpl_defined inp m Hok) as (m' & E).
  destruct (evolves_RunImpl inp m tt m' E) as (_ & _ & evs & Ht & Hev & _).
  exists m', evs. split; [exact E|]. split; [exact Ht|]. split; [exact Hev|].
  split; [|split; [|split]].
  - apply frames_to_tick_events; [exact Hev|].
    intros i _. unfold channel_reg, PCA9685_MODE1, LED0_ON_L. lia.
  - apply frames_to_tick_events; [exact Hev|].
    intros i Hi. unfold channel_reg, PCA9685_PRESCALE, LED0_ON_L. lia.
  - intros reg Hreg. apply frames_to_tick_events; assumption.
  - intros us. apply tick_event_no_usleep. exact Hev.
Qed.

Lemma tick_ok_uniform (period pw : Z) (b : nat -> Z * Z) :
  0 <= period < 65536 -> 0 < pw < 65536 ->
  tick_ok (uniform_cmd period pw) (fresh_machine b).
Proof.
  intros Hp Hw. cbn. split.
  - split; [unfold u16_range; cbn; lia|reflexivity].
  - apply (cmd_ok_uniform period pw Hp Hw).
Qed.

Lemma tick_writes_channels_only_witness :
  exists m' evs,
    RunImpl (uniform_cmd 10000 30000) (fresh_machine (bus_ok 0)) = Some (tt, m')
    /\ trace m' = trace (fresh_machine (bus_ok 0)) ++ evs
    /\ frames_to PCA9685_PRESCALE evs = [].
Proof.
  destruct (tick_writes_channels_only (uniform_cmd 10000 30000) (fresh_machine (bus_ok 0)))
    as (m' & evs & E & Ht & _ & _ & Hp & _).
  - apply tick_ok_uniform; lia.
  - exists m', evs. split; [exact E|]. split; [exact Ht|exact Hp].
Defined.

(* ===================================================================== *)
(** ** Further properties: the subscription *)
(* ===================================================================== *)

Lemma subscribed_refl (m : Machine) : subscribed m m.
Proof. intros H. auto. Qed.

Lemma subscribed_trans (m1 m2 m3 : Machine) :
  subscribed m1 m2 -> subscribed m2 m3 -> subscribed m1 m3.
Proof.
  intros H12 H23 H1. destruct (H12 H1) as [H2 E2]. destruct (H23 H2) as [H3 E3].
  split; [exact H3|congruence].
Qed.

Lemma kept_subscribed {A} (c : M A) :
  post c (kept _mode_on_initialized) -> post c (kept _pca_pwm_sub) -> post c subscribed.
Proof.
  intros H1 H2 m a m' E Hm. specialize (H1 m a m' E). specialize (H2 m a m' E).
  unfold kept in *. split; congruence.
Qed.

(** What the normal-mode branch does with the subscription. *)
Lemma RunImpl_on_subscription (inp : orb_in) (m m' : Machine) :
  RunImpl_on inp m = Some (tt, m') ->
  _mode_on_initialized (dev m') = true
  /\ _pca_pwm_sub (dev m') =
       (if _mode_on_initialized (dev m) then _pca_pwm_sub (dev m) else orb_handle inp).
Proof.
  unfold RunImpl_on, bind at 1, get_dev at 1. cbn beta iota. unfold bind at 1.
  set (m0 := mkMachine (set_mode_on_initialized true
                          (set_pca_pwm_sub
                             (if _mode_on_initialized (dev m) then _pca_pwm_sub (dev m)
                              else orb_handle inp) (dev m)))
                       (bus m) (n_xfer m) (trace m) (console m)).
  assert (Hw : when (negb (_mode_on_initialized (dev m)))
                 (upd_dev (fun d => set_mode_on_initialized true
                                      (set_pca_pwm_sub (orb_handle inp) d))) m
               = Some (tt, m0)).
  { unfold when, upd_dev, ret, m0. destruct (_mode_on_initialized (dev m)) eqn:Ei; cbn [negb].
    - destruct m as [d b n t c]. destruct d. cbn in Ei. subst. reflexivity.
    - reflexivity. }
  rewrite Hw. intros E.
  assert (H1 : kept _mode_on_initialized m0 m').
  { revert E. generalize m0 tt m'.
    change (post (let* _ := upd_dev (set_updated (orb_check inp)) in
                  let* d := get_dev in
                  when (_updated d)
                    (let* _ := upd_dev (fun d => set_pca_pwm (orb_copy inp (_pca_pwm d)) d) in
                     let* _ := RunImpl_period in
                     for_range 0 NUMBER_PWM_CHANNELS RunImpl_channel))
                 (kept _mode_on_initialized)).
    kept_unfold. repeat kept_step _mode_on_initialized. }
  assert (H2 : kept _pca_pwm_sub m0 m').
  { revert E. generalize m0 tt m'.
    change (post (let* _ := upd_dev (set_updated (orb_check inp)) in
                  let* d := get_dev in
                  when (_updated d)
                    (let* _ := upd_dev (fun d => set_pca_pwm (orb_copy inp (_pca_pwm d)) d) in
                     let* _ := RunImpl_period in
                     for_range 0 NUMBER_PWM_CHANNELS RunImpl_channel))
                 (kept _pca_pwm_sub)).
    kept_unfold. repeat kept_step _pca_pwm_sub. }
  unfold kept in H1, H2. rewrite H1, H2. subst m0. simpl_fields. auto.
Qed.

Lemma RunImpl_subscription (inp : orb_in) (m m' : Machine) :
  _mode (dev m) = IOX_MODE_ON ->
  RunImpl inp m = Some (tt, m') ->
  _mode_on_initialized (dev m') = true
  /\ _pca_pwm_sub (dev m') =
       (if _mode_on_initialized (dev m) then _pca_pwm_sub (dev m) else orb_handle inp).
Proof.
  intros Hmode. unfold RunImpl, bind at 1, get_dev at 1. cbn beta iota. rewrite Hmode.
  unfold bind at 1.
  destruct (RunImpl_on inp m) as [[[] m1]|] eqn:E1; [|discriminate].
  unfold bind, get_dev, ScheduleDelayed, emit. intros [= <-]. simpl_fields.
  apply (RunImpl_on_subscription inp m m1 E1).
Qed.

Lemma kept_flag_RunImpl_test : post RunImpl_test (kept _mode_on_initialized).
Proof. kept_unfold. repeat kept_step _mode_on_initialized. Qed.

Lemma kept_sub_RunImpl_test : post RunImpl_test (kept _pca_pwm_sub).
Proof. kept_unfold. repeat kept_step _pca_pwm_sub. Qed.

Lemma kept_flag_custom_method (c : Z) : post (custom_method c) (kept _mode_on_initialized).
Proof. kept_unfold. repeat kept_step _mode_on_initialized. Qed.

Lemma kept_sub_custom_method (c : Z) : post (custom_method c) (kept _pca_pwm_sub).
Proof. kept_unfold. repeat kept_step _pca_pwm_sub. Qed.

Lemma subscribed_RunImpl (inp : orb_in) : post (RunImpl inp) subscribed.
Proof.
  intros m a m' E Hflag. destruct a.
  destruct (_mode (dev m)) eqn:Hmode.
  - destruct (RunImpl_subscription inp m m' Hmode E) as [H1 H2].
    rewrite Hflag in H2. auto.
  - split.
    + rewrite <- Hflag.
      apply (post_RunImpl_test_mode inp (kept _mode_on_initialized) m m'); auto.
      * apply kept_trans. * apply kept_flag_RunImpl_test. * intros e; apply kept_emit.
    + apply (post_RunImpl_test_mode inp (kept _pca_pwm_sub) m m'); auto.
      * apply kept_trans. * apply kept_sub_RunImpl_test. * intros e; apply kept_emit.
Qed.

Lemma subscribed_run (acts : list action) : post (run acts) subscribed.
Proof.
  apply post_run.
  - apply subscribed_refl.
  - apply subscribed_trans.
  - apply subscribed_RunImpl.
  - intros c. apply kept_subscribed; [apply kept_flag_custom_method|apply kept_sub_custom_method].
Qed.

(** X6.  The command topic is subscribed once: the first tick in normal mode
    stores the handle it is given, and whatever ticks and administrative
    commands follow, the handle stored is still that one. *)
Theorem subscribes_once (inp : orb_in) (rest : list action) (m : Machine) :
  state_inv m ->
  _mode (dev m) = IOX_MODE_ON ->
  _mode_on_initialized (dev m) = false ->
  Forall action_ok (Tick inp :: rest) ->
  exists m',
    run (Tick inp :: rest) m = Some (tt, m')
    /\ _mode_on_initialized (dev m') = true
    /\ _pca_pwm_sub (dev m') = orb_handle inp.
Proof.
  intros Hinv Hmode Hflag Hok.
  destruct (run_invariant (Tick inp :: rest) m Hinv Hok) as (m' & E & _).
  exists m'. split; [exact E|].
  revert E. cbn [run do_action]. unfold bind.
  destruct (RunImpl inp m) as [[[] m1]|] eqn:E1; [|discriminate]. intros E2.
  destruct (RunImpl_subscription inp m m1 Hmode E1) as [H1 H2].
  rewrite Hflag in H2.
  destruct (subscribed_run rest m1 tt m' E2 H1) as [H3 H4].
  split; [exact H3|congruence].
Qed.

Lemma subscribes_once_witness :
  exists m',
    run [Tick (uniform_cmd 10000 30000); Tick (mk_orb_in 9 None); Admin 1; Tick (mk_orb_in 11 None)]
        (fresh_machine (bus_ok 0)) = Some (tt, m')
    /\ _pca_pwm_sub (dev m') = 3.
Proof.
  destruct (subscribes_once (uniform_cmd 10000 30000)
              [Tick (mk_orb_in 9 None); Admin 1; Tick (mk_orb_in 11 None)]
              (fresh_machine (bus_ok 0)))
    as (m' & E & _ & Hs).
  - apply state_inv_fresh.
  - reflexivity.
  - reflexivity.
  - repeat constructor. apply cmd_ok_uniform; lia.
  - exists m'. split; [exact E|exact Hs].
Defined.

(* ===================================================================== *)
(** ** Further properties: administrative commands *)
(* ===================================================================== *)

(** X11.  An administrative command always returns and reports nothing.
    [reset] (0) makes one transfer, the message [MODE1, 0], and a failure of
    it is only counted; [test] (1) only assigns the mode; any other number
    does nothing at all.  None of them touches the period, the command copy,
    the last-applied duties, the ramp or the rescheduling interval. *)
Theorem admin_command_effects (c : Z) (m : Machine) :
  exists m',
    custom_method c m = Some (tt, m')
    /\ _mode (dev m') = (if c =? 1 then IOX_MODE_TEST_OUT else _mode (dev m))
    /\ trace m' = trace m ++ (if c =? 0 then [EvTransfer [PCA9685_MODE1; 0] 0 (ret_at m 0)] else [])
    /\ _comms_errors (dev m') =
         _comms_errors (dev m) + (if (c =? 0) && negb (ret_at m 0 =? OK) then 1 else 0)
    /\ _pwm_period_us (dev m') = _pwm_period_us (dev m)
    /\ _pca_pwm (dev m') = _pca_pwm (dev m)
    /\ _current_values (dev m') = _current_values (dev m)
    /\ _test_pwm (dev m') = _test_pwm (dev m)
    /\ _i2cpwm_interval (dev m') = _i2cpwm_interval (dev m).
Proof.
  destruct (custom_method_run c m) as (m' & E & Hmode & H0 & Hn0 & _).
  exists m'. split; [exact E|]. split; [exact Hmode|].
  split; [|split].
  - destruct (Z.eqb_spec c 0) as [Hc|Hc].
    + apply (H0 Hc).
    + rewrite app_nil_r. apply (Hn0 Hc).
  - destruct (Z.eqb_spec c 0) as [Hc|Hc]; cbn [andb].
    + destruct (H0 Hc) as (_ & _ & He). rewrite He.
      destruct (ret_at m 0 =? OK); reflexivity.
    + destruct (Hn0 Hc) as (_ & _ & He & _). lia.
  - split; [apply (kept_period_custom_method c m tt m' E)|].
    split; [apply (kept_cmd_custom_method c m tt m' E)|].
    split; [apply (kept_values_custom_method c m tt m' E)|].
    split; [apply (kept_test_pwm_custom_method c m tt m' E)|].
    apply (kept_interval_custom_method c m tt m' E).
Qed.

(* ===================================================================== *)
(** ** Further properties: construction *)
(* ===================================================================== *)

Lemma pos_iter_xO_value (p d : positive) :
  Z.pos (Pos.iter xO p d) = Z.pos p * 2 ^ Z.pos d.
Proof.
  induction d as [|d IH] using Pos.peano_ind.
  - simpl. lia.
  - rewrite Pos.iter_succ, Pos2Z.inj_succ, Z.pow_succ_r by lia.
    replace (Z.pos (Pos.iter xO p d)~0) with (2 * Z.pos (Pos.iter xO p d)) by lia.
    rewrite IH. lia.
Qed.

(** An integer below [2^24] is converted exactly. *)
Lemma of_Z_trunc (z : Z) : 0 <= z < 2 ^ 24 -> F32.trunc (F32.of_Z z) = Some z.
Proof.
  intros Hz. destruct z as [|p|p]; try lia; [reflexivity|].
  assert (Hd : Zdigits2 (Z.pos p) <= 24) by (apply Zdigits2_le_iff; lia).
  simpl in Hd. unfold F32.of_Z, binary_normalize, binary_round, shl_align.
  rewrite fexp32.
  destruct (Z.max (Z.pos (digits2_pos p) + 0 - 24) (-149) - 0) as [|d|d] eqn:Ed; try lia.
  - rewrite binary_round_aux_exact by (rewrite ?fexp32; lia).
    cbn [F32.trunc cond_Zopp]. rewrite Z.shiftl_0_r. reflexivity.
  - rewrite binary_round_aux_exact by (rewrite ?fexp32, ?digits2_pos_iter_xO; lia).
    cbn [F32.trunc cond_Zopp]. unfold shift_pos.
    replace (Z.max (Z.pos (digits2_pos p) + 0 - 24) (-149)) with (- Z.pos d) by lia.
    rewrite Z.shiftl_opp_r, Z.shiftr_div_pow2, pos_iter_xO_value by lia.
    rewrite Z.div_mul; [reflexivity|]. apply Z.pow_nonzero; lia.
Qed.

Lemma of_Z_to_uint (w z : Z) :
  0 <= z < 2 ^ 24 -> F32.to_uint w (F32.of_Z z) = Some (z mod 2 ^ w).
Proof.
  intros Hz. unfold F32.to_uint. rewrite (of_Z_trunc z Hz).
  replace (0 <=? z) with true by (symmetry; apply Z.leb_le; lia).
  replace (z <? 2 ^ 31) with true; [reflexivity|].
  symmetry. apply Z.ltb_lt. apply Z.lt_trans with (2 ^ 24); [lia|reflexivity].
Qed.

Lemma ctor_run (stale : Z) :
  0 <= stale < 65536 ->
  PCA9685_ctor stale =
    Some (mkPCA9685 IOX_MODE_ON stale 0 (replicate 6 0) (-1)
            (mk_pca_pwm 0 (replicate 16 0)) 20000 (F32.of_Z 50) 0
            (replicate 16 0) false false).
Proof.
  intros Hs. unfold PCA9685_ctor.
  rewrite of_Z_to_uint by (split; [lia|apply Z.lt_trans with 65536; [lia|reflexivity]]).
  rewrite Z.mod_small; [reflexivity|].
  split; [lia|]. apply Z.lt_trans with 65536; [lia|reflexivity].
Qed.

(** X13.  Whatever sixteen-bit value the storage of [_pwm_period_us] held
    before its initialiser ran, the constructor is defined and the
    rescheduling interval is that value, converted to [float] and back
    without loss; the period in use is 20000 us, all sixteen last-applied
    duties are 0, the mode is normal and nothing is subscribed yet. *)
Theorem ctor_interval_is_stale (stale : Z) :
  0 <= stale < 65536 ->
  exists d,
    PCA9685_ctor stale = Some d
    /\ _i2cpwm_interval d = stale
    /\ _pwm_period_us d = 20000
    /\ _current_values d = replicate 16 0
    /\ _mode d = IOX_MODE_ON
    /\ _mode_on_initialized d = false
    /\ _comms_errors d = 0.
Proof.
  intros Hs. rewrite (ctor_run stale Hs). eexists. split; [reflexivity|].
  simpl_fields. repeat split; reflexivity.
Qed.

Lemma ctor_interval_is_stale_witness :
  exists d, PCA9685_ctor 1234 = Some d /\ _i2cpwm_interval d = 1234.
Proof.
  destruct (ctor_interval_is_stale 1234) as (d & E & Hi & _); [lia|].
  exists d. split; [exact E|exact Hi].
Defined.

(* ===================================================================== *)
(** ** Further properties: start-up *)
(* ===================================================================== *)

Lemma first_failure_from_some (m : Machine) (n : nat) : forall (j k : nat),
  first_failure_from m j n = Some k ->
  ret_at m k <> OK
  /\ (j <= k < j + n)%nat
  /\ forall i, (j <= i < k)%nat -> ret_at m i = OK.
Proof.
  induction n as [|n IH]; intros j k; cbn [first_failure_from]; [discriminate|].
  destruct (Z.eqb_spec (ret_at m j) OK) as [Hj|Hj].
  - intros E. destruct (IH (S j) k E) as (H1 & H2 & H3).
    split; [exact H1|]. split; [lia|].
    intros i Hi. destruct (Nat.eq_dec i j) as [->|Hne]; [exact Hj|apply H3; lia].
  - intros [= <-]. split; [exact Hj|]. split; [lia|]. intros i Hi. lia.
Qed.

Lemma first_failure_from_none (m : Machine) (n : nat) : forall j : nat,
  first_failure_from m j n = None ->
  forall i, (j <= i < j + n)%nat -> ret_at m i = OK.
Proof.
  induction n as [|n IH]; intros j; cbn [first_failure_from]; [intros _ i Hi; lia|].
  destruct (Z.eqb_spec (ret_at m j) OK) as [Hj|Hj]; [|discriminate].
  intros E i Hi. destruct (Nat.eq_dec i j) as [->|Hne]; [exact Hj|apply (IH (S j) E); lia].
Qed.

Lemma ret_at_ext (m m' : Machine) (j : nat) :
  bus m' = bus m -> n_xfer m' = n_xfer m -> ret_at m' j = ret_at m j.
Proof. unfold ret_at. intros -> ->. reflexivity. Qed.

Lemma byte_at_ext (m m' : Machine) (j : nat) :
  bus m' = bus m -> n_xfer m' = n_xfer m -> byte_at m' j = byte_at m j.
Proof. unfold byte_at. intros -> ->. reflexivity. Qed.

Lemma first_failure_from_ext (m m' : Machine) (n : nat) : forall j : nat,
  bus m' = bus m -> n_xfer m' = n_xfer m ->
  first_failure_from m' j n = first_failure_from m j n.
Proof.
  induction n as [|n IH]; intros j Hb Hn; cbn [first_failure_from]; [reflexivity|].
  rewrite (ret_at_ext m m' j Hb Hn), (IH (S j) Hb Hn). reflexivity.
Qed.

Lemma freq_sequence_ext (m m' : Machine) (p : Z) :
  bus m' = bus m -> n_xfer m' = n_xfer m -> freq_sequence m' p = freq_sequence m p.
Proof.
  intros Hb Hn. unfold freq_sequence.
  rewrite !(ret_at_ext m m' _ Hb Hn), (byte_at_ext m m' 1 Hb Hn). reflexivity.
Qed.

Lemma ret_at_skip (m : Machine) (k j : nat) : ret_at (skip k m) j = ret_at m (k + j).
Proof. unfold ret_at, skip. simpl_fields. f_equal. f_equal. lia. Qed.

Lemma kept_freq_reset : post reset (kept _pwm_freq).
Proof. kept_unfold. repeat kept_step _pwm_freq. Qed.

Lemma reset_run (m : Machine) :
  exists m',
    reset m = Some (ret_at m 0, m')
    /\ bus m' = bus m
    /\ n_xfer m' = S (n_xfer m)
    /\ trace m' = trace m ++ [EvTransfer [PCA9685_MODE1; 0] 0 (ret_at m 0)]
    /\ _pwm_freq (dev m') = _pwm_freq (dev m).
Proof.
  unfold reset, bind at 1, say at 1.
  match goal with |- context [write8 ?a ?v ?mm] =>
    destruct (write8_run a v mm) as (m1 & E1 & Hb1 & Hn1 & Ht1 & _) end.
  exists m1. split; [exact E1|]. split; [exact Hb1|]. split; [exact Hn1|].
  split; [exact Ht1|].
  assert (Er : reset m = Some (ret_at m 0, m1)) by exact E1.
  apply (kept_freq_reset m _ m1 Er).
Qed.

Lemma init_steps (i2c_ret p : Z) (m : Machine) :
  prescale_of (_pwm_freq (dev m)) = Some p ->
  exists r m',
    init i2c_ret m = Some (r, m')
    /\ bus m' = bus m
    /\ if negb (i2c_ret =? OK) then r = i2c_ret /\ m' = m
       else if negb (ret_at m 0 =? OK) then
         r = ret_at m 0
         /\ trace m' = trace m ++ [EvTransfer [PCA9685_MODE1; 0] 0 (ret_at m 0)]
       else
         match first_failure_from (skip 1 m) 0 6 with
         | None =>
             r = OK
             /\ trace m' = trace m ++ [EvTransfer [PCA9685_MODE1; 0] 0 OK]
                           ++ freq_sequence (skip 1 m) p ++ [EvSchedule 0]
         | Some k =>
             r = ret_at (skip 1 m) k
             /\ r <> OK
             /\ trace m' = trace m ++ [EvTransfer [PCA9685_MODE1; 0] 0 OK]
                           ++ take (if (k =? 5)%nat then 7 else S k) (freq_sequence (skip 1 m) p)
         end.
Proof.
  intros Hp. unfold init.
  destruct (i2c_ret =? OK) eqn:Ei; cbn [negb].
  - unfold bind at 1.
    destruct (reset_run m) as (m1 & E1 & Hb1 & Hn1 & Ht1 & Hf1).
    rewrite E1. cbn beta iota.
    destruct (Z.eqb_spec (ret_at m 0) OK) as [E0|E0]; cbn [negb].
    + unfold bind at 1, get_dev at 1. cbn beta iota. unfold bind at 1.
      rewrite <- Hf1 in Hp.
      destruct (setPWMFreq_run (_pwm_freq (dev m1)) p m1 Hp) as (r & m2 & E2 & Hb2 & Hcase).
      rewrite E2.
      assert (Hb : bus m1 = bus (skip 1 m)) by exact Hb1.
      assert (Hn : n_xfer m1 = n_xfer (skip 1 m))
        by (unfold skip; simpl_fields; lia).
      rewrite (first_failure_from_ext (skip 1 m) m1 6 0 Hb Hn) in Hcase.
      rewrite (freq_sequence_ext (skip 1 m) m1 p Hb Hn) in Hcase.
      destruct (first_failure_from (skip 1 m) 0 6) as [k|] eqn:Ek.
      * destruct Hcase as (Hr & Ht2 & _).
        rewrite (ret_at_ext (skip 1 m) m1 k Hb Hn) in Hr.
        destruct (first_failure_from_some _ _ _ _ Ek) as (Hne & _).
        rewrite <- Hr in Hne.
        replace (r =? 0) with false by (symmetry; apply Z.eqb_neq; exact Hne).
        unfold when, bind, ret. exists r, m2. split; [reflexivity|].
        split; [congruence|]. split; [exact Hr|]. split; [exact Hne|].
        rewrite Ht2, Ht1, E0, <- app_assoc. reflexivity.
      * destruct Hcase as (Hr & Ht2 & _). subst r.
        unfold when, bind, ScheduleNow, emit, ret. cbn [Z.eqb OK].
        eexists _, _. split; [reflexivity|]. simpl_fields.
        split; [congruence|]. split; [reflexivity|].
        rewrite Ht2, Ht1, E0, <- !app_assoc. reflexivity.
    + unfold ret. exists (ret_at m 0), m1. split; [reflexivity|].
      split; [exact Hb1|]. split; [reflexivity|exact Ht1].
  - unfold ret. exists i2c_ret, m. auto.
Qed.

Lemma schedules_app (t1 t2 : list event) :
  schedules (t1 ++ t2) = schedules t1 ++ schedules t2.
Proof. unfold schedules. apply flat_map_app. Qed.

Lemma init_schedules (i2c_ret p : Z) (m : Machine) (r : Z) (m' : Machine) :
  prescale_of (_pwm_freq (dev m)) = Some p ->
  init i2c_ret m = Some (r, m') ->
  schedules (trace m') = schedules (trace m) ++ (if r =? OK then [0] else []).
Proof.
  intros Hp E.
  destruct (init_steps i2c_ret p m Hp) as (r' & m'' & E' & _ & Hcase).
  assert (r' = r /\ m'' = m') as [-> ->] by (split; congruence).
  destruct (Z.eqb_spec i2c_ret OK) as [Ei|Ei]; cbn [negb] in Hcase.
  - destruct (Z.eqb_spec (ret_at m 0) OK) as [E0|E0]; cbn [negb] in Hcase.
    + destruct (first_failure_from (skip 1 m) 0 6) as [k|] eqn:Ek.
      * destruct Hcase as (_ & Hne & Ht).
        replace (r =? OK) with false by (symmetry; apply Z.eqb_neq; exact Hne).
        rewrite Ht, !schedules_app. f_equal.
        destruct (first_failure_from_some _ _ _ _ Ek) as (_ & Hk & _).
        unfold freq_sequence.
        do 6 (destruct k as [|k]; [reflexivity|]). lia.
      * destruct Hcase as (-> & Ht). rewrite Ht, !schedules_app. reflexivity.
    + destruct Hcase as (-> & Ht).
      replace (ret_at m 0 =? OK) with false by (symmetry; apply Z.eqb_neq; exact E0).
      rewrite Ht, schedules_app. reflexivity.
  - destruct Hcase as (-> & ->).
    replace (i2c_ret =? OK) with false by (symmetry; apply Z.eqb_neq; exact Ei).
    rewrite app_nil_r. reflexivity.
Qed.

(** X9.  [init] reports success exactly when the transport's own start-up
    succeeded and the seven transfers that follow (the reset and the six of
    the frequency configuration) were all acknowledged, and it schedules the
    first tick exactly then.  If the transport's start-up failed, nothing is
    done at all; if the reset failed, its code is returned and the frequency
    is not configured; on success the trace is the reset, the complete
    configuration sequence and the scheduling call. *)
Theorem init_outcome (i2c_ret p : Z) (m : Machine) :
  prescale_of (_pwm_freq (dev m)) = Some p ->
  exists r m',
    init i2c_ret m = Some (r, m')
    /\ (r = OK <-> i2c_ret = OK /\ forall j, (j < 7)%nat -> ret_at m j = OK)
    /\ schedules (trace m') = schedules (trace m) ++ (if r =? OK then [0] else [])
    /\ (i2c_ret <> OK -> r = i2c_ret /\ m' = m)
    /\ (i2c_ret = OK -> ret_at m 0 <> OK ->
        r = ret_at m 0
        /\ trace m' = trace m ++ [EvTransfer [PCA9685_MODE1; 0] 0 (ret_at m 0)])
    /\ (r = OK ->
        trace m' = trace m ++ [EvTransfer [PCA9685_MODE1; 0] 0 OK]
                   ++ freq_sequence (skip 1 m) p ++ [EvSchedule 0]).
Proof.
  intros Hp.
  destruct (init_steps i2c_ret p m Hp) as (r & m' & E & _ & Hcase).
  exists r, m'. split; [exact E|].
  split; [|split; [exact (init_schedules i2c_ret p m r m' Hp E)|]].
  - destruct (Z.eqb_spec i2c_ret OK) as [Ei|Ei]; cbn [negb] in Hcase.
    + destruct (Z.eqb_spec (ret_at m 0) OK) as [E0|E0]; cbn [negb] in Hcase.
      * destruct (first_failure_from (skip 1 m) 0 6) as [k|] eqn:Ek.
        -- destruct Hcase as (Hr & Hne & _).
           destruct (first_failure_from_some _ _ _ _ Ek) as (Hk & Hlt & _).
           split; [intros; contradiction|].
           intros [_ Hall]. exfalso. apply Hk.
           rewrite ret_at_skip. apply Hall. lia.
        -- destruct Hcase as (Hr & _). split; [|intros _; exact Hr].
           intros _. split; [exact Ei|]. intros j Hj.
           destruct j as [|j]; [exact E0|].
           change (ret_at m (S j)) with (ret_at m (1 + j)).
           rewrite <- (ret_at_skip m 1 j).
           apply (first_failure_from_none _ _ _ Ek). lia.
      * destruct Hcase as (Hr & _). split.
        -- intros Hr'. exfalso. apply E0. congruence.
        -- intros [_ Hall]. exfalso. apply E0. apply Hall. lia.
    + destruct Hcase as (Hr & _). split.
      * intros Hr'. exfalso. apply Ei. congruence.
      * intros [Hi _]. contradiction.
  - split; [|split].
    + intros Hne. destruct (Z.eqb_spec i2c_ret OK) as [Ei|Ei]; [contradiction|].
      exact Hcase.
    + intros Hi H0. destruct (Z.eqb_spec i2c_ret OK) as [Ei|Ei]; [|contradiction].
      destruct (Z.eqb_spec (ret_at m 0) OK) as [E0|E0]; [contradiction|].
      exact Hcase.
    + intros Hr. destruct (Z.eqb_spec i2c_ret OK) as [Ei|Ei]; cbn [negb] in Hcase.
      * destruct (Z.eqb_spec (ret_at m 0) OK) as [E0|E0]; cbn [negb] in Hcase.
        -- destruct (first_failure_from (skip 1 m) 0 6) as [k|] eqn:Ek.
           ++ destruct Hcase as (_ & Hne & _). contradiction.
           ++ apply Hcase.
        -- destruct Hcase as (Hr' & _). exfalso. apply E0. congruence.
      * destruct Hcase as (Hr' & _). exfalso. apply Ei. congruence.
Qed.

Lemma init_outcome_witness :
  exists r m',
    init OK (fresh_machine (bus_fail_at 4 (-5) 17)) = Some (r, m')
    /\ schedules (trace m') = schedules (trace (fresh_machine (bus_fail_at 4 (-5) 17)))
                              ++ (if r =? OK then [0] else []).
Proof.
  destruct (init_outcome OK 121 (fresh_machine (bus_fail_at 4 (-5) 17)))
    as (r & m' & E & _ & Hs & _).
  - vm_compute. reflexivity.
  - exists r, m'. split; [exact E|exact Hs].
Defined.

(** X10.  Where an interrupted frequency configuration leaves the chip.  If
    the first transfer to fail is the [k]-th of the sequence, the last value
    acknowledged for MODE1 is: none when the read or the first write failed;
    the sleep value, with the SLEEP bit set and the RESTART bit clear, when
    the prescaler write or the write restoring the old mode failed; the old
    mode when only the final restart write failed.  The prescaler has been
    acknowledged exactly when the failure came after its write. *)
Theorem aborted_configuration_state (freq : F32.f32) (p : Z) (m : Machine) (k : nat) :
  prescale_of freq = Some p ->
  (k < 6)%nat ->
  (forall j, (j < k)%nat -> ret_at m j = OK) ->
  ret_at m k <> OK ->
  exists m' evs,
    setPWMFreq freq m = Some (ret_at m k, m')
    /\ trace m' = trace m ++ evs
    /\ last_written PCA9685_MODE1 evs = mode1_after_abort k (byte_at m 1)
    /\ last_written PCA9685_PRESCALE evs = (if (k <=? 3)%nat then None else Some p)
    /\ (k = 3%nat \/ k = 4%nat ->
        exists v, last_written PCA9685_MODE1 evs = Some v
                  /\ Z.testbit v 4 = true /\ Z.testbit v 7 = false).
Proof.
  intros Hp Hk Hok Hfail.
  destruct (setPWMFreq_run freq p m Hp) as (r & m' & E & _ & Hcase).
  rewrite (first_failure_some m k Hk Hok Hfail) in Hcase.
  destruct Hcase as (-> & Ht & _).
  exists m', (take (if (k =? 5)%nat then 7 else S k) (freq_sequence m p)).
  split; [exact E|]. split; [exact Ht|].
  assert (Htab : last_written PCA9685_MODE1
                   (take (if (k =? 5)%nat then 7 else S k) (freq_sequence m p))
                 = mode1_after_abort k (byte_at m 1)
                 /\ last_written PCA9685_PRESCALE
                      (take (if (k =? 5)%nat then 7 else S k) (freq_sequence m p))
                    = (if (k <=? 3)%nat then None else Some p)).
  { unfold freq_sequence.
    do 6 (destruct k as [|k];
          [ rewrite ?(Hok 0%nat), ?(Hok 1%nat), ?(Hok 2%nat), ?(Hok 3%nat), ?(Hok 4%nat) by lia;
            match type of Hfail with
            | ?x <> OK => destruct x as [|q|q]; [contradiction Hfail; reflexivity| |]
            end; split; reflexivity
          | ]).
    lia. }
  destruct Htab as [Hm1 Hpre]. split; [exact Hm1|]. split; [exact Hpre|].
  intros Hk34. exists (Z.lor (Z.land (byte_at m 1) 0x7F) 0x10).
  split; [rewrite Hm1; destruct Hk34 as [-> | ->]; reflexivity|].
  rewrite !Z.lor_spec, !Z.land_spec.
  split; [apply orb_true_r|].
  change (Z.testbit 127 7) with false. rewrite andb_false_r. reflexivity.
Qed.

Lemma aborted_configuration_state_witness :
  exists m' evs,
    setPWMFreq (F32.of_Z 50) (fresh_machine (bus_fail_at 3 (-5) 17))
      = Some (ret_at (fresh_machine (bus_fail_at 3 (-5) 17)) 3, m')
    /\ trace m' = trace (fresh_machine (bus_fail_at 3 (-5) 17)) ++ evs
    /\ last_written PCA9685_MODE1 evs = Some 17
    /\ last_written PCA9685_PRESCALE evs = None.
Proof.
  destruct (aborted_configuration_state (F32.of_Z 50) 121
              (fresh_machine (bus_fail_at 3 (-5) 17)) 3)
    as (m' & evs & E & Ht & Hm & Hp & _).
  - vm_compute. reflexivity.
  - lia.
  - intros j Hj. do 3 (destruct j as [|j]; [reflexivity|]). lia.
  - vm_compute. discriminate.
  - exists m', evs. split; [exact E|]. split; [exact Ht|]. split; [exact Hm|exact Hp].
Defined.

(* ===================================================================== *)
(** ** Further properties: a driver's life *)
(* ===================================================================== *)

Lemma kept_period_init (r : Z) : post (init r) (kept _pwm_period_us).
Proof. kept_unfold. repeat kept_step _pwm_period_us. Qed.

Lemma kept_values_init (r : Z) : post (init r) (kept _current_values).
Proof. kept_unfold. repeat kept_step _current_values. Qed.

Lemma boot_run (stale : Z) (b : nat -> Z * Z) :
  0 <= stale < 65536 ->
  exists m0,
    boot stale b = Some m0
    /\ state_inv m0
    /\ accounted m0
    /\ bus m0 = b
    /\ trace m0 = []
    /\ _i2cpwm_interval (dev m0) = stale
    /\ _pwm_freq (dev m0) = F32.of_Z 50
    /\ _pwm_period_us (dev m0) = 20000.
Proof.
  intros Hs. unfold boot. rewrite (ctor_run stale Hs). eexists. split; [reflexivity|].
  unfold state_inv, accounted, PWM_PERIOD_MIN_US, PWM_PERIOD_MAX_US. simpl_fields.
  repeat split; try reflexivity; try lia.
  cbn. repeat constructor; lia.
Qed.

Lemma lifecycle_run (stale : Z) (b : nat -> Z * Z) (i2c_ret : Z) (acts : list action) :
  0 <= stale < 65536 ->
  Forall action_ok acts ->
  exists m0 r m1 m2,
    boot stale b = Some m0
    /\ init i2c_ret m0 = Some (r, m1)
    /\ lifecycle stale b i2c_ret acts = Some (r, m2)
    /\ (if r =? OK then run acts m1 = Some (tt, m2) else m2 = m1)
    /\ state_inv m2
    /\ evolves any_event m0 m2
    /\ accounted m0
    /\ bus m0 = b
    /\ trace m0 = []
    /\ _i2cpwm_interval (dev m2) = stale.
Proof.
  intros Hs Hok.
  destruct (boot_run stale b Hs) as (m0 & E0 & Hinv0 & Hacc0 & Hb0 & Ht0 & Hi0 & Hf0 & _).
  assert (Hp : prescale_of (_pwm_freq (dev m0)) = Some 121)
    by (rewrite Hf0; vm_compute; reflexivity).
  destruct (init_steps i2c_ret 121 m0 Hp) as (r & m1 & E1 & _).
  assert (Hinv1 : state_inv m1).
  { destruct Hinv0 as (H1 & H2 & H3 & H4). unfold state_inv.
    rewrite (kept_period_init i2c_ret m0 r m1 E1), (kept_values_init i2c_ret m0 r m1 E1).
    destruct (evolves_init i2c_ret m0 r m1 E1) as (_ & Hm & _). auto. }
  pose proof (evolves_init i2c_ret m0 r m1 E1) as Hev1.
  pose proof (kept_interval_init i2c_ret m0 r m1 E1) as Hi1. unfold kept in Hi1.
  unfold lifecycle. rewrite E0, E1.
  destruct (r =? OK) eqn:Er.
  - destruct (run_invariant acts m1 Hinv1 Hok) as (m2 & E2 & Hinv2 & Hev2 & Hi2).
    rewrite E2. exists m0, r, m1, m2.
    split; [reflexivity|]. split; [exact E1|]. split; [reflexivity|].
    rewrite Er. split; [exact E2|]. split; [exact Hinv2|].
    split; [eapply evolves_trans; eauto|].
    split; [exact Hacc0|]. split; [exact Hb0|]. split; [exact Ht0|]. congruence.
  - exists m0, r, m1, m1.
    split; [reflexivity|]. split; [exact E1|]. split; [reflexivity|].
    rewrite Er. split; [reflexivity|]. split; [exact Hinv1|].
    split; [exact Hev1|].
    split; [exact Hacc0|]. split; [exact Hb0|]. split; [exact Ht0|]. congruence.
Qed.

(** X2.  Over a driver's whole life (construction, start-up and, when
    start-up succeeded, any sequence of ticks with well-formed commands and
    of administrative commands) and for every behaviour of the transport,
    the life is defined, the error counter equals the number of transfers
    that failed, the count of transfers equals the number of transfers in
    the trace, and the rescheduling interval is still what the constructor
    computed.  When start-up failed no tick was ever scheduled. *)
Theorem lifecycle_accounting
    (stale : Z) (b : nat -> Z * Z) (i2c_ret : Z) (acts : list action) :
  0 <= stale < 65536 ->
  Forall action_ok acts ->
  exists r m,
    lifecycle stale b i2c_ret acts = Some (r, m)
    /\ _comms_errors (dev m) = Z.of_nat (length (failures (trace m)))
    /\ n_xfer m = length (transfer_rets (trace m))
    /\ bus m = b
    /\ _i2cpwm_interval (dev m) = stale
    /\ (r <> OK -> schedules (trace m) = []).
Proof.
  intros Hs Hok.
  destruct (lifecycle_run stale b i2c_ret acts Hs Hok)
    as (m0 & r & m1 & m2 & E0 & E1 & E & Hrun & _ & Hev & Hacc & Hb & Ht & Hi).
  exists r, m2. split; [exact E|].
  destruct (accounted_evolves any_event m0 m2 Hacc Hev) as [He Hn].
  split; [exact He|]. split; [exact Hn|].
  split; [destruct Hev as (Hb' & _); congruence|]. split; [exact Hi|].
  intros Hr. apply Z.eqb_neq in Hr. rewrite Hr in Hrun. subst m2.
  assert (Hp : prescale_of (_pwm_freq (dev m0)) = Some 121).
  { destruct (boot_run stale b Hs) as (m0' & E0' & _ & _ & _ & _ & _ & Hf & _).
    assert (m0' = m0) by congruence. subst m0'. rewrite Hf. vm_compute. reflexivity. }
  rewrite (init_schedules i2c_ret 121 m0 r m1 Hp E1), Ht, Hr. reflexivity.
Qed.

Lemma lifecycle_accounting_witness :
  exists r m,
    lifecycle 20000 (bus_fail_at 9 (-5) 0) OK
      [Tick (uniform_cmd 10000 30000); Admin 0; Tick (uniform_cmd 10000 20000)] = Some (r, m)
    /\ _comms_errors (dev m) = Z.of_nat (length (failures (trace m)))
    /\ _i2cpwm_interval (dev m) = 20000.
Proof.
  destruct (lifecycle_accounting 20000 (bus_fail_at 9 (-5) 0) OK
              [Tick (uniform_cmd 10000 30000); Admin 0; Tick (uniform_cmd 10000 20000)])
    as (r & m & E & He & _ & _ & Hi & _).
  - lia.
  - repeat constructor; try (apply cmd_ok_uniform; lia).
  - exists r, m. split; [exact E|]. split; [exact He|exact Hi].
Defined.

(* ===================================================================== *)
(** ** Further properties: the stored frequency *)
(* ===================================================================== *)

Lemma keeps_refl (I : Machine -> Prop) (m : Machine) : keeps I m m.
Proof. intros H. exact H. Qed.

Lemma keeps_trans (I : Machine -> Prop) (m1 m2 m3 : Machine) :
  keeps I m1 m2 -> keeps I m2 m3 -> keeps I m1 m3.
Proof. unfold keeps. auto. Qed.

Lemma keeps_freq_kept {A} (c : M A) :
  post c (kept (fun d => (_pwm_period_us d, _pwm_freq d))) ->
  post c (keeps freq_matches).
Proof.
  intros H m a m' E. specialize (H m a m' E). unfold kept in H.
  injection H as Hp Hf. unfold keeps, freq_matches. congruence.
Qed.

Lemma RunImpl_period_freq : post RunImpl_period (keeps freq_matches).
Proof.
  intros m a m'. unfold RunImpl_period, bind at 1, get_dev at 1. cbn beta iota.
  destruct (negb (_pwm_period_us (dev m) =? pwm_period (_pca_pwm (dev m)))
            && (pwm_period (_pca_pwm (dev m)) >=? PWM_PERIOD_MIN_US)
            && (pwm_period (_pca_pwm (dev m)) <=? PWM_PERIOD_MAX_US)).
  - unfold when, bind, upd_dev, get_dev, say. intros [= _ <-].
    unfold keeps, freq_matches. simpl_fields. reflexivity.
  - unfold when, ret. intros [= _ <-]. apply keeps_refl.
Qed.

Ltac freq_step :=
  first
    [ solve [ apply keeps_freq_kept; kept_unfold;
              repeat kept_step (fun d => (_pwm_period_us d, _pwm_freq d)) ]
    | apply RunImpl_period_freq
    | apply (post_bind (keeps freq_matches) (keeps_trans freq_matches))
    | apply (post_when (keeps freq_matches) (keeps_refl freq_matches))
    | match goal with |- forall _, post _ _ => intros ? end
    | match goal with |- post (match ?x with _ => _ end) _ => destruct x end ].

Lemma freq_matches_RunImpl (inp : orb_in) : post (RunImpl inp) (keeps freq_matches).
Proof. unfold RunImpl, RunImpl_on. repeat freq_step. Qed.

Lemma freq_matches_custom_method (c : Z) : post (custom_method c) (keeps freq_matches).
Proof. freq_step. Qed.

(** X12.  The stored frequency follows the period in use: from a state in
    which [_pwm_freq] is the single-precision quotient 1000000 / period, any
    sequence of ticks with well-formed commands and of administrative
    commands returns in such a state again (as the constructor's 50 Hz and
    20000 us are). *)
Theorem frequency_follows_period (acts : list action) (m : Machine) :
  state_inv m ->
  freq_matches m ->
  Forall action_ok acts ->
  exists m',
    run acts m = Some (tt, m')
    /\ _pwm_freq (dev m') = F32.div (F32.of_Z 1000000) (F32.of_Z (_pwm_period_us (dev m')))
    /\ PWM_PERIOD_MIN_US <= _pwm_period_us (dev m') <= PWM_PERIOD_MAX_US.
Proof.
  intros Hinv Hf Hok.
  destruct (run_invariant acts m Hinv Hok) as (m' & E & (Hp & _) & _).
  exists m'. split; [exact E|]. split; [|exact Hp].
  apply (post_run (keeps freq_matches) (keeps_refl _) (keeps_trans _)
           freq_matches_RunImpl freq_matches_custom_method acts m tt m' E Hf).
Qed.

Lemma frequency_follows_period_witness :
  exists m',
    run [Tick (uniform_cmd 10000 30000); Admin 1; Tick (uniform_cmd 5000 30000)]
        (fresh_machine (bus_ok 0)) = Some (tt, m')
    /\ _pwm_freq (dev m') = F32.div (F32.of_Z 1000000) (F32.of_Z (_pwm_period_us (dev m'))).
Proof.
  destruct (frequency_follows_period
              [Tick (uniform_cmd 10000 30000); Admin 1; Tick (uniform_cmd 5000 30000)]
              (fresh_machine (bus_ok 0)))
    as (m' & E & Hf & _).
  - apply state_inv_fresh.
  - vm_compute. reflexivity.
  - repeat constructor; try (apply cmd_ok_uniform; lia).
  - exists m'. split; [exact E|exact Hf].
Defined.

(* ===================================================================== *)
(** ** Further facts about single-precision arithmetic: bounds kept by
       rounding *)
(* ===================================================================== *)

Lemma Zdigits2_mono (a b : Z) : 0 <= a <= b -> Zdigits2 a <= Zdigits2 b.
Proof.
  intros H. pose proof (Zdigits2_nonneg b).
  apply Zdigits2_le_iff; try lia.
  pose proof (Zdigits2_lt_pow2 b ltac:(lia)). lia.
Qed.

Lemma Zdigits2_bound_mul (m T j : Z) :
  0 <= m -> 0 < T -> 0 <= j -> m <= T * 2 ^ j -> Zdigits2 m <= Zdigits2 T + j.
Proof.
  intros Hm HT Hj Hle. pose proof (Zdigits2_nonneg T).
  apply Zdigits2_le_iff; try lia.
  rewrite Z.pow_add_r by lia.
  pose proof (Zdigits2_lt_pow2 T ltac:(lia)) as Ht.
  assert (H2 : 0 < 2 ^ j) by (apply Z.pow_pos_nonneg; lia).
  apply Z.le_lt_trans with (T * 2 ^ j); [exact Hle|].
  apply Z.mul_lt_mono_pos_r; assumption.
Qed.

Lemma Zdigits2_mul_pow2 (m n : Z) :
  0 < m -> 0 <= n -> Zdigits2 (m * 2 ^ n) = Zdigits2 m + n.
Proof.
  intros Hm Hn.
  assert (H2 : 0 < 2 ^ n) by (apply Z.pow_pos_nonneg; lia).
  rewrite !Zdigits2_log2 by lia. rewrite Z.log2_mul_pow2 by lia. lia.
Qed.

Lemma Zdigits2_div_pow2 (m n : Z) :
  0 < m -> 0 <= n < Zdigits2 m ->
  0 < m / 2 ^ n /\ Zdigits2 (m / 2 ^ n) = Zdigits2 m - n.
Proof.
  intros Hm Hn. rewrite Zdigits2_log2 in Hn by lia.
  assert (H2 : 0 < 2 ^ n) by (apply Z.pow_pos_nonneg; lia).
  assert (Hge : 2 ^ n <= m).
  { apply Z.le_trans with (2 ^ Z.log2 m); [apply Z.pow_le_mono_r; lia|].
    apply Z.log2_spec. lia. }
  assert (Hpos : 0 < m / 2 ^ n) by (apply Z.div_str_pos; lia).
  split; [exact Hpos|].
  rewrite !Zdigits2_log2 by lia.
  rewrite <- Z.shiftr_div_pow2 by lia. rewrite Z.log2_shiftr by lia. lia.
Qed.

Lemma shr_fexp_value (m e : Z) (l : location) :
  0 <= m ->
  let n := Z.max (Zdigits2 m + e - 24) (-149) - e in
  (n <= 0 -> shr_fexp F32.prec F32.emax m e l = (shr_record_of_loc m l, e))
  /\ (0 < n ->
      snd (shr_fexp F32.prec F32.emax m e l) = e + n
      /\ shr_m (fst (shr_fexp F32.prec F32.emax m e l)) = m / 2 ^ n).
Proof.
  intros Hm n. unfold shr_fexp, shr. rewrite fexp32. fold n.
  destruct n as [|q|q] eqn:En; split; intros Hn; try lia; try reflexivity.
  cbn [fst snd]. split; [reflexivity|].
  rewrite iter_pos_shr_m by (rewrite shr_record_of_loc_m; lia).
  rewrite shr_record_of_loc_m. reflexivity.
Qed.

Lemma round_nearest_even_bounds (m : Z) (l : location) :
  m <= round_nearest_even m l <= m + 1.
Proof.
  destruct l as [|[]]; cbn [round_nearest_even]; try lia.
  destruct (Z.even m); lia.
Qed.

(** A shift to the working precision keeps a representable upper bound
    [T * 2^k]. *)
Lemma shr_fexp_le (m e T k : Z) (l : location) :
  0 <= m -> 0 < T -> Zdigits2 T <= 24 -> -149 <= k -> e <= k ->
  m <= T * 2 ^ (k - e) ->
  let r := shr_fexp F32.prec F32.emax m e l in
  snd r <= k
  /\ 0 <= shr_m (fst r)
  /\ shr_m (fst r) <= T * 2 ^ (k - snd r)
  /\ (m < T * 2 ^ (k - e) -> shr_m (fst r) < T * 2 ^ (k - snd r)).
Proof.
  intros Hm HT HdT Hk He Hle.
  destruct (shr_fexp_value m e l Hm) as [Hsame Hshift].
  set (n := Z.max (Zdigits2 m + e - 24) (-149) - e) in *.
  destruct (Z_le_gt_dec n 0) as [Hn|Hn].
  - cbv zeta. rewrite (Hsame Hn). cbn [fst snd]. rewrite shr_record_of_loc_m. auto.
  - destruct (Hshift ltac:(lia)) as [He1 Hm1]. cbv zeta. rewrite He1, Hm1.
    pose proof (Zdigits2_bound_mul m T (k - e) Hm HT ltac:(lia) Hle) as Hd.
    assert (Hek : e + n <= k) by (unfold n; lia).
    assert (H2 : 0 < 2 ^ n) by (apply Z.pow_pos_nonneg; lia).
    assert (Hsplit : T * 2 ^ (k - e) = 2 ^ n * (T * 2 ^ (k - (e + n)))).
    { replace (k - e) with (n + (k - (e + n))) by lia.
      rewrite Z.pow_add_r by lia. ring. }
    split; [exact Hek|]. split; [apply Z.div_pos; lia|]. split.
    + apply Z.div_le_upper_bound; [exact H2|]. rewrite <- Hsplit. exact Hle.
    + intros Hlt. apply Z.div_lt_upper_bound; [exact H2|]. rewrite <- Hsplit. exact Hlt.
Qed.

(** Rounding to nearest never crosses a representable number: what lies
    below [T * 2^k], [T] of at most 24 bits, is rounded to at most
    [T * 2^k]. *)
Lemma binary_round_aux_le (s : bool) (m e T k : Z) (l : location) :
  0 <= m -> 0 < T -> Zdigits2 T <= 24 -> -149 <= k <= 104 -> e <= k ->
  m < T * 2 ^ (k - e) ->
  match binary_round_aux F32.prec F32.emax s m e l with
  | S754_zero s' => s' = s
  | S754_finite s' m' e' => s' = s /\ e' <= k /\ Z.pos m' <= T * 2 ^ (k - e')
  | _ => False
  end.
Proof.
  intros Hm HT HdT Hk He Hlt. unfold binary_round_aux.
  pose proof (shr_fexp_le m e T k l Hm HT HdT ltac:(lia) He ltac:(lia)) as H1.
  destruct (shr_fexp F32.prec F32.emax m e l) as [r1 e1]. cbn [fst snd] in H1.
  destruct H1 as (He1 & Hr1 & _ & Hlt1). specialize (Hlt1 Hlt).
  pose proof (round_nearest_even_bounds (shr_m r1) (loc_of_shr_record r1)) as Hrd.
  set (m2 := round_nearest_even (shr_m r1) (loc_of_shr_record r1)) in *.
  pose proof (shr_fexp_le m2 e1 T k loc_Exact ltac:(lia) HT HdT ltac:(lia) He1 ltac:(lia)) as H2.
  destruct (shr_fexp F32.prec F32.emax m2 e1 loc_Exact) as [r2 e2]. cbn [fst snd] in H2.
  destruct H2 as (He2 & Hr2 & Hle2 & _).
  destruct (shr_m r2) as [|q|q]; [reflexivity| |lia].
  replace (e2 <=? F32.emax - F32.prec) with true
    by (symmetry; apply Z.leb_le; unfold F32.emax, F32.prec; lia).
  auto.
Qed.

(** A shift to the working precision keeps the position of the leading
    bit. *)
Lemma shr_fexp_ge (m e L : Z) (l : location) :
  0 < m -> L <= Zdigits2 m + e -> -148 <= L ->
  let r := shr_fexp F32.prec F32.emax m e l in
  0 < shr_m (fst r) /\ L <= Zdigits2 (shr_m (fst r)) + snd r.
Proof.
  intros Hm HL Hlo.
  destruct (shr_fexp_value m e l ltac:(lia)) as [Hsame Hshift].
  set (n := Z.max (Zdigits2 m + e - 24) (-149) - e) in *.
  destruct (Z_le_gt_dec n 0) as [Hn|Hn].
  - cbv zeta. rewrite (Hsame Hn). cbn [fst snd]. rewrite shr_record_of_loc_m. auto.
  - destruct (Hshift ltac:(lia)) as [He1 Hm1]. cbv zeta. rewrite He1, Hm1.
    destruct (Zdigits2_div_pow2 m n Hm ltac:(unfold n; lia)) as [Hpos Hd].
    split; [exact Hpos|]. rewrite Hd. lia.
Qed.

Lemma binary_round_aux_ge (s : bool) (m e L : Z) (l : location) :
  0 < m -> L <= Zdigits2 m + e -> -148 <= L ->
  match binary_round_aux F32.prec F32.emax s m e l with
  | S754_zero _ => False
  | S754_finite _ m' e' => L <= Z.pos (digits2_pos m') + e'
  | _ => True
  end.
Proof.
  intros Hm HL Hlo. unfold binary_round_aux.
  pose proof (shr_fexp_ge m e L l Hm HL Hlo) as H1.
  destruct (shr_fexp F32.prec F32.emax m e l) as [r1 e1]. cbn [fst snd] in H1.
  destruct H1 as [Hr1 HL1].
  pose proof (round_nearest_even_bounds (shr_m r1) (loc_of_shr_record r1)) as Hrd.
  set (m2 := round_nearest_even (shr_m r1) (loc_of_shr_record r1)) in *.
  pose proof (Zdigits2_mono (shr_m r1) m2 ltac:(lia)) as Hmono.
  pose proof (shr_fexp_ge m2 e1 L loc_Exact ltac:(lia) ltac:(lia) Hlo) as H2.
  destruct (shr_fexp F32.prec F32.emax m2 e1 loc_Exact) as [r2 e2]. cbn [fst snd] in H2.
  destruct H2 as [Hr2 HL2].
  destruct (shr_m r2) as [|q|q]; [lia| |lia].
  destruct (e2 <=? F32.emax - F32.prec); [exact HL2|exact I].
Qed.

(** A positive integer below [2^24] becomes a normal number: its 24-bit
    significand is the integer shifted to the left. *)
Lemma of_Z_norm (z : Z) :
  0 < z < 2 ^ 24 ->
  exists m,
    F32.of_Z z = S754_finite false m (Zdigits2 z - 24)
    /\ Z.pos m = z * 2 ^ (24 - Zdigits2 z)
    /\ Z.pos (digits2_pos m) = 24.
Proof.
  intros Hz. destruct z as [|p|p]; try lia.
  assert (Hd : Zdigits2 (Z.pos p) <= 24) by (apply Zdigits2_le_iff; lia).
  cbn [Zdigits2] in *. unfold F32.of_Z, binary_normalize, binary_round, shl_align.
  rewrite fexp32.
  destruct (Z.max (Z.pos (digits2_pos p) + 0 - 24) (-149) - 0) as [|d|d] eqn:Ed; try lia.
  - exists p. replace (Z.pos (digits2_pos p) - 24) with 0 by lia.
    split; [apply binary_round_aux_exact; [rewrite fexp32|]; lia|].
    replace (24 - Z.pos (digits2_pos p)) with 0 by lia. split; lia.
  - exists (Pos.iter xO p d).
    replace (Z.max (Z.pos (digits2_pos p) + 0 - 24) (-149))
      with (Z.pos (digits2_pos p) - 24) by lia.
    split; [apply binary_round_aux_exact; [rewrite fexp32, digits2_pos_iter_xO|]; lia|].
    rewrite pos_iter_xO_value, digits2_pos_iter_xO.
    replace (24 - Z.pos (digits2_pos p)) with (Z.pos d) by lia. split; lia.
Qed.

(** The quotient and exponent that [SFdiv] hands to the rounding, for two
    normal numbers. *)
Lemma SFdiv_core_norm (mx my : positive) (ex ey : Z) :
  Z.pos (digits2_pos mx) = 24 -> Z.pos (digits2_pos my) = 24 ->
  -125 <= ex - ey ->
  exists l,
    SFdiv_core_binary F32.prec F32.emax (Z.pos mx) ex (Z.pos my) ey
    = (Z.pos mx * 2 ^ 24 / Z.pos my, ex - ey - 24, l).
Proof.
  intros Hx Hy He. unfold SFdiv_core_binary. rewrite fexp32. cbn [Zdigits2].
  rewrite Hx, Hy.
  replace (Z.min (Z.max (24 + ex - (24 + ey) - 24) (-149)) (ex - ey))
    with (ex - ey - 24) by lia.
  replace (ex - ey - (ex - ey - 24)) with 24 by lia.
  rewrite Z.shiftl_mul_pow2 by lia.
  assert (Hq : Z.div_eucl (Z.pos mx * 2 ^ 24) (Z.pos my)
               = (Z.pos mx * 2 ^ 24 / Z.pos my, (Z.pos mx * 2 ^ 24) mod Z.pos my)).
  { unfold Z.div, Z.modulo. destruct (Z.div_eucl (Z.pos mx * 2 ^ 24) (Z.pos my)); reflexivity. }
  rewrite Hq. eexists. reflexivity.
Qed.

Lemma pow2_pos (n : Z) : 0 <= n -> 0 < 2 ^ n.
Proof. intros. apply Z.pow_pos_nonneg; lia. Qed.

(** The quotient of two sixteen-bit integers, against the powers of two
    [2^j]. *)
Lemma div_of_Z_bounds (p w j : Z) :
  0 < p < 65536 -> 0 < w < 65536 -> 0 <= j <= 7 ->
  exists m e,
    F32.div (F32.of_Z p) (F32.of_Z w) = S754_finite false m e
    /\ -15 <= Z.pos (digits2_pos m) + e <= 17
    /\ (p < 2 ^ j * w -> e <= -16 /\ Z.pos m <= (2 ^ (16 + j) - 1) * 2 ^ (-16 - e))
    /\ (2 ^ j * w <= p -> j + 1 <= Z.pos (digits2_pos m) + e).
Proof.
  intros Hp Hw Hj.
  assert (H24 : 65536 < 2 ^ 24) by reflexivity.
  destruct (of_Z_norm p ltac:(lia)) as (mx & Ex & Vx & Dx).
  destruct (of_Z_norm w ltac:(lia)) as (my & Ey & Vy & Dy).
  assert (Hdp : 1 <= Zdigits2 p <= 16).
  { split; [rewrite Zdigits2_log2 by lia; pose proof (Z.log2_nonneg p); lia|].
    apply Zdigits2_le_iff; try lia; change (2 ^ 16) with 65536; lia. }
  assert (Hdw : 1 <= Zdigits2 w <= 16).
  { split; [rewrite Zdigits2_log2 by lia; pose proof (Z.log2_nonneg w); lia|].
    apply Zdigits2_le_iff; try lia; change (2 ^ 16) with 65536; lia. }
  set (dp := Zdigits2 p) in *. set (dw := Zdigits2 w) in *.
  rewrite Ex, Ey. unfold F32.div, SFdiv.
  destruct (SFdiv_core_norm mx my (dp - 24) (dw - 24) Dx Dy ltac:(lia)) as (l & Ec).
  rewrite Ec. cbn [xorb].
  replace (dp - 24 - (dw - 24) - 24) with (dp - dw - 24) by lia.
  set (q := Z.pos mx * 2 ^ 24 / Z.pos my).
  (* the powers of two involved *)
  set (a := 2 ^ (24 - dp)) in *. set (b := 2 ^ (24 - dw)) in *.
  assert (Ha : 0 < a) by (apply pow2_pos; lia).
  assert (Hb : 0 < b) by (apply pow2_pos; lia).
  assert (Hmx_lo : 2 ^ 23 <= Z.pos mx).
  { pose proof (Zdigits2_lower (Z.pos mx) ltac:(lia)) as H. cbn [Zdigits2] in H.
    rewrite Dx in H. exact H. }
  assert (Hmy_hi : Z.pos my < 2 ^ 24).
  { pose proof (Zdigits2_lt_pow2 (Z.pos my) ltac:(lia)) as H. cbn [Zdigits2] in H.
    rewrite Dy in H. exact H. }
  assert (Hqpos : 0 < q).
  { apply Z.div_str_pos. split; [lia|].
    apply Z.le_trans with (2 ^ 23 * 2 ^ 24); [|apply Z.mul_le_mono_nonneg_r; lia].
    change (2 ^ 23 * 2 ^ 24) with 140737488355328. change (2 ^ 24) with 16777216 in Hmy_hi. lia. }
  (* upper bound: the result is finite *)
  pose proof (div_small_pos mx my (dp - 24) (dw - 24) 16 ltac:(lia) ltac:(lia)) as Hsm.
  unfold F32.div, SFdiv in Hsm. rewrite Ec in Hsm. cbn [xorb] in Hsm.
  replace (dp - 24 - (dw - 24) - 24) with (dp - dw - 24) in Hsm by lia.
  pose proof (binary_round_aux_ge false q (dp - dw - 24) (Zdigits2 q + (dp - dw - 24)) l
                Hqpos ltac:(lia)) as Hnz.
  assert (Hdq : 1 <= Zdigits2 q).
  { rewrite Zdigits2_log2 by lia. pose proof (Z.log2_nonneg q). lia. }
  specialize (Hnz ltac:(lia)).
  unfold small_pos in Hsm. fold q in Hsm.
  destruct (binary_round_aux F32.prec F32.emax false q (dp - dw - 24) l)
    as [s|s| |s m e] eqn:Er; try contradiction.
  destruct Hsm as [-> Hhi]. exists m, e. split; [reflexivity|].
  assert (Hq23 : 2 ^ 23 <= q).
  { unfold q. apply Z.div_le_lower_bound; [lia|].
    apply Z.le_trans with (2 ^ 24 * 2 ^ 23); [apply Z.mul_le_mono_nonneg_r; lia|].
    rewrite (Z.mul_comm (Z.pos mx)). apply Z.mul_le_mono_nonneg_l; lia. }
  assert (Hdq24 : 24 <= Zdigits2 q).
  { destruct (Z_lt_le_dec 23 (Zdigits2 q)) as [|Hc]; [lia|].
    apply Zdigits2_le_iff in Hc; lia. }
  split; [lia|]. split.
  - intros Hlt.
    assert (Hdle : dp <= dw + j).
    { unfold dp. apply Z.le_trans with (Zdigits2 (2 ^ j * w)); [apply Zdigits2_mono; lia|].
      rewrite Z.mul_comm, Zdigits2_mul_pow2 by lia. fold dw. lia. }
    pose proof (binary_round_aux_le false q (dp - dw - 24) (2 ^ (16 + j) - 1) (-16) l) as Hle.
    rewrite Er in Hle.
    assert (HT : 0 < 2 ^ (16 + j) - 1).
    { assert (2 ^ 0 < 2 ^ (16 + j)) by (apply Z.pow_lt_mono_r; lia).
      change (2 ^ 0) with 1 in *. lia. }
    assert (HdT : Zdigits2 (2 ^ (16 + j) - 1) <= 24).
    { apply Zdigits2_le_iff; try lia.
      assert (2 ^ (16 + j) <= 2 ^ 24) by (apply Z.pow_le_mono_r; lia). lia. }
    assert (Hqlt : q < (2 ^ (16 + j) - 1) * 2 ^ (-16 - (dp - dw - 24))).
    { replace (-16 - (dp - dw - 24)) with (8 + dw - dp) by lia.
      set (c := 2 ^ (8 + dw - dp)).
      assert (Hc : 0 < c) by (apply pow2_pos; lia).
      assert (Hbc : b * c = a * 256).
      { unfold a, b, c. rewrite <- Z.pow_add_r by lia.
        change 256 with (2 ^ 8). rewrite <- Z.pow_add_r by lia. f_equal. lia. }
      unfold q. apply Z.div_lt_upper_bound; [lia|].
      rewrite Vx, Vy.
      replace (w * b * ((2 ^ (16 + j) - 1) * c)) with (w * (2 ^ (16 + j) - 1) * (b * c)) by ring.
      rewrite Hbc.
      replace (p * a * 2 ^ 24) with (p * 65536 * (a * 256))
        by (change (2 ^ 24) with 16777216; ring).
      apply Z.mul_lt_mono_pos_r; [lia|].
      rewrite Z.pow_add_r by lia. change (2 ^ 16) with 65536.
      assert (H2j : 0 < 2 ^ j) by (apply pow2_pos; lia).
      nia. }
    specialize (Hle ltac:(lia) HT HdT ltac:(lia) ltac:(lia) Hqlt).
    destruct Hle as (_ & He & Hm). split; assumption.
  - intros Hge.
    apply Z.le_trans with (Zdigits2 q + (dp - dw - 24)); [|exact Hnz].
    assert (Hdge : dw + j <= dp).
    { unfold dp. apply Z.le_trans with (Zdigits2 (2 ^ j * w)); [|apply Zdigits2_mono; lia].
      rewrite Z.mul_comm, Zdigits2_mul_pow2 by lia. fold dw. lia. }
    (* 2^(j + 24 + dw - dp) <= q *)
    assert (Hq : 2 ^ (j + 24 + dw - dp) <= q).
    { unfold q. apply Z.div_le_lower_bound; [lia|].
      rewrite Vx, Vy.
      assert (Hby : b * 2 ^ (j + 24 + dw - dp) = a * 2 ^ 24 * 2 ^ j).
      { unfold a, b. rewrite <- !Z.pow_add_r by lia. f_equal. lia. }
      replace (w * b * 2 ^ (j + 24 + dw - dp)) with (w * (b * 2 ^ (j + 24 + dw - dp))) by ring.
      rewrite Hby.
      replace (w * (a * 2 ^ 24 * 2 ^ j)) with (2 ^ j * w * (a * 2 ^ 24)) by ring.
      replace (p * a * 2 ^ 24) with (p * (a * 2 ^ 24)) by ring.
      apply Z.mul_le_mono_nonneg_r; [|exact Hge].
      change (2 ^ 24) with 16777216. lia. }
    assert (Hd : j + 24 + dw - dp < Zdigits2 q).
    { destruct (Z_lt_le_dec (j + 24 + dw - dp) (Zdigits2 q)) as [|Hc]; [assumption|].
      apply Zdigits2_le_iff in Hc; lia. }
    lia.
Qed.

Lemma mul_4096_bounds (m : positive) (e j : Z) :
  -15 <= Z.pos (digits2_pos m) + e <= 17 -> 0 <= j <= 7 ->
  exists m2 e2,
    F32.mul (S754_finite false m e) (F32.of_Z 4096) = S754_finite false m2 e2
    /\ Z.pos (digits2_pos m2) + e2 <= 31
    /\ (e <= -16 -> Z.pos m <= (2 ^ (16 + j) - 1) * 2 ^ (-16 - e) ->
        e2 <= -5 /\ Z.pos m2 <= (2 ^ (17 + j) - 1) * 2 ^ (-5 - e2))
    /\ (j + 1 <= Z.pos (digits2_pos m) + e -> j + 13 <= Z.pos (digits2_pos m2) + e2).
Proof.
  intros Hd Hj.
  assert (E4096 : F32.of_Z 4096 = S754_finite false 8388608 (-11)) by reflexivity.
  rewrite E4096.
  pose proof (mul_small_pos m 8388608 e (-11) 30) as Hsm.
  assert (D4096 : Z.pos (digits2_pos 8388608) = 24) by reflexivity.
  rewrite D4096 in Hsm. specialize (Hsm ltac:(lia) ltac:(lia)).
  unfold F32.mul, SFmul in *. cbn [xorb] in *.
  assert (HM : Z.pos (m * 8388608) = Z.pos m * 2 ^ 23) by (rewrite Pos2Z.inj_mul; reflexivity).
  assert (HdM : Zdigits2 (Z.pos (m * 8388608)) = Z.pos (digits2_pos m) + 23).
  { rewrite HM, Zdigits2_mul_pow2 by lia. reflexivity. }
  pose proof (binary_round_aux_ge false (Z.pos (m * 8388608)) (e + -11)
                (Zdigits2 (Z.pos (m * 8388608)) + (e + -11)) loc_Exact
                ltac:(lia) ltac:(lia) ltac:(lia)) as Hnz.
  pose proof (binary_round_aux_le false (Z.pos (m * 8388608)) (e + -11)
                (2 ^ (17 + j) - 1) (-5) loc_Exact) as Hle.
  unfold small_pos in Hsm.
  destruct (binary_round_aux F32.prec F32.emax false (Z.pos (m * 8388608)) (e + -11) loc_Exact)
    as [s|s| |s m2 e2]; try contradiction.
  destruct Hsm as [-> Hhi]. exists m2, e2. split; [reflexivity|].
  split; [lia|]. split.
  - intros He Hm.
    assert (HT : 0 < 2 ^ (17 + j) - 1).
    { assert (2 ^ 0 < 2 ^ (17 + j)) by (apply Z.pow_lt_mono_r; lia).
      change (2 ^ 0) with 1 in *. lia. }
    assert (HdT : Zdigits2 (2 ^ (17 + j) - 1) <= 24).
    { apply Zdigits2_le_iff; try lia.
      assert (2 ^ (17 + j) <= 2 ^ 24) by (apply Z.pow_le_mono_r; lia). lia. }
    assert (Hlt : Z.pos (m * 8388608) < (2 ^ (17 + j) - 1) * 2 ^ (-5 - (e + -11))).
    { rewrite HM.
      replace (-5 - (e + -11)) with (-16 - e + 22) by lia.
      rewrite (Z.pow_add_r 2 (-16 - e) 22) by lia.
      assert (Hc : 0 < 2 ^ (-16 - e)) by (apply pow2_pos; lia).
      replace (17 + j) with (1 + (16 + j)) by lia.
      rewrite (Z.pow_add_r 2 1 (16 + j)) by lia.
      change (2 ^ 1) with 2. change (2 ^ 23) with 8388608. change (2 ^ 22) with 4194304.
      set (c := 2 ^ (-16 - e)) in *. set (T := 2 ^ (16 + j)) in *.
      assert (HTpos : 0 < T) by (apply pow2_pos; lia).
      nia. }
    specialize (Hle ltac:(lia) HT HdT ltac:(lia) ltac:(lia) Hlt).
    destruct Hle as (_ & He2 & Hm2). split; assumption.
  - intros HL. lia.
Qed.

Lemma shiftl_pos_upper (m : positive) (e j : Z) :
  0 <= j -> e <= -5 -> Z.pos m <= (2 ^ (17 + j) - 1) * 2 ^ (-5 - e) ->
  Z.shiftl (Z.pos m) e < 2 ^ (12 + j).
Proof.
  intros Hj He Hm.
  rewrite <- (Z.opp_involutive e), Z.shiftl_opp_r, Z.shiftr_div_pow2 by lia.
  assert (Hc : 0 < 2 ^ (- e)) by (apply pow2_pos; lia).
  apply Z.div_lt_upper_bound; [exact Hc|].
  replace (- e) with (5 + (-5 - e)) by lia.
  rewrite (Z.pow_add_r 2 5 (-5 - e)) by lia.
  replace (17 + j) with (5 + (12 + j)) in Hm by lia.
  rewrite (Z.pow_add_r 2 5 (12 + j)) in Hm by lia.
  change (2 ^ 5) with 32 in *.
  assert (Hd : 0 < 2 ^ (-5 - e)) by (apply pow2_pos; lia).
  assert (Ht : 0 < 2 ^ (12 + j)) by (apply pow2_pos; lia).
  set (d := 2 ^ (-5 - e)) in *. set (t := 2 ^ (12 + j)) in *.
  nia.
Qed.

Lemma shiftl_pos_lower (m : positive) (e L : Z) :
  0 <= L -> L + 1 <= Z.pos (digits2_pos m) + e ->
  2 ^ L <= Z.shiftl (Z.pos m) e.
Proof.
  intros HL Hd.
  pose proof (Zdigits2_lower (Z.pos m) ltac:(lia)) as Hlo. cbn [Zdigits2] in Hlo.
  set (dm := Z.pos (digits2_pos m)) in *.
  assert (Hdm : 1 <= dm) by (unfold dm; lia).
  destruct (Z_lt_le_dec e 0) as [Hneg|Hpos].
  - rewrite <- (Z.opp_involutive e), Z.shiftl_opp_r, Z.shiftr_div_pow2 by lia.
    assert (Hc : 0 < 2 ^ (- e)) by (apply pow2_pos; lia).
    apply Z.div_le_lower_bound; [exact Hc|].
    rewrite <- Z.pow_add_r by lia.
    apply Z.le_trans with (2 ^ (dm - 1)); [apply Z.pow_le_mono_r; lia|exact Hlo].
  - rewrite Z.shiftl_mul_pow2 by lia.
    destruct (Z_le_gt_dec L e) as [Hle|Hgt].
    + apply Z.le_trans with (1 * 2 ^ e).
      * rewrite Z.mul_1_l. apply Z.pow_le_mono_r; lia.
      * apply Z.mul_le_mono_nonneg_r; [apply Z.pow_nonneg|]; lia.
    + replace L with (L - e + e) by lia. rewrite Z.pow_add_r by lia.
      apply Z.mul_le_mono_nonneg_r; [apply Z.pow_nonneg; lia|].
      apply Z.le_trans with (2 ^ (dm - 1)); [apply Z.pow_le_mono_r; lia|exact Hlo].
Qed.

(** The duty before its reduction to sixteen bits, against the powers of
    two: it is below [4096 * 2^j] exactly when the period is below [2^j]
    pulse widths. *)
Lemma duty_bounds (p w j : Z) :
  0 < p < 65536 -> 0 < w < 65536 -> 0 <= j <= 7 ->
  exists t,
    F32.trunc (F32.mul (F32.div (F32.of_Z p) (F32.of_Z w)) (F32.of_Z 4096)) = Some t
    /\ 0 <= t < 2 ^ 31
    /\ new_value p w = Some (t mod 65536)
    /\ (p < 2 ^ j * w -> t < 2 ^ (12 + j))
    /\ (2 ^ j * w <= p -> 2 ^ (12 + j) <= t).
Proof.
  intros Hp Hw Hj.
  destruct (div_of_Z_bounds p w j Hp Hw Hj) as (m & e & Ed & Hd & Hup & Hlo).
  destruct (mul_4096_bounds m e j Hd Hj) as (m2 & e2 & Em & Hhi & Hup2 & Hlo2).
  unfold new_value, F32.to_uint. rewrite Ed, Em. cbn [F32.trunc cond_Zopp].
  set (t := Z.shiftl (Z.pos m2) e2).
  assert (Ht0 : 0 <= t) by (apply Z.shiftl_nonneg; lia).
  assert (Ht31 : t < 2 ^ 31).
  { unfold t. destruct (Z_lt_le_dec e2 0) as [Hneg|Hpos].
    - rewrite <- (Z.opp_involutive e2), Z.shiftl_opp_r, Z.shiftr_div_pow2 by lia.
      apply Z.div_lt_upper_bound; [apply pow2_pos; lia|].
      rewrite <- Z.pow_add_r by lia.
      pose proof (Zdigits2_lt_pow2 (Z.pos m2) ltac:(lia)) as Hlt. cbn [Zdigits2] in Hlt.
      apply Z.lt_le_trans with (2 ^ Z.pos (digits2_pos m2)); [exact Hlt|].
      apply Z.pow_le_mono_r; lia.
    - rewrite Z.shiftl_mul_pow2 by lia.
      pose proof (Zdigits2_lt_pow2 (Z.pos m2) ltac:(lia)) as Hlt. cbn [Zdigits2] in Hlt.
      apply Z.lt_le_trans with (2 ^ Z.pos (digits2_pos m2) * 2 ^ e2).
      + apply Z.mul_lt_mono_pos_r; [apply pow2_pos; lia|exact Hlt].
      + rewrite <- Z.pow_add_r by lia. apply Z.pow_le_mono_r; lia. }
  exists t. split; [reflexivity|]. split; [lia|]. split.
  - replace (0 <=? t) with true by (symmetry; apply Z.leb_le; lia).
    replace (t <? 2 ^ 31) with true by (symmetry; apply Z.ltb_lt; lia).
    reflexivity.
  - split.
    + intros Hlt. destruct (Hup Hlt) as [He Hm]. destruct (Hup2 He Hm) as [He2 Hm2].
      apply shiftl_pos_upper; [lia|exact He2|exact Hm2].
    + intros Hge. apply shiftl_pos_lower; [lia|]. specialize (Hlo2 (Hlo Hge)). lia.
Qed.

(* ===================================================================== *)
(** ** Further properties: which commands reach a channel *)
(* ===================================================================== *)

(** X14.  The duty against the powers of two.  For a period and a pulse
    width of sixteen bits, neither zero, the single-precision product
    period / pulse_width * 4096, truncated, is below 4096 * 2^j exactly when
    the period is below 2^j pulse widths (j = 0..7): the two roundings never
    carry the value across such a boundary.  So the duty is below 4096
    without reduction exactly when the pulse width exceeds the period, and
    it is reduced modulo 65536 exactly when the period is at least sixteen
    pulse widths. *)
Theorem duty_against_powers_of_two (p w j : Z) :
  0 < p < 65536 -> 0 < w < 65536 -> 0 <= j <= 7 ->
  exists t,
    F32.trunc (F32.mul (F32.div (F32.of_Z p) (F32.of_Z w)) (F32.of_Z 4096)) = Some t
    /\ new_value p w = Some (t mod 65536)
    /\ 0 <= t
    /\ (t < 4096 * 2 ^ j <-> p < 2 ^ j * w).
Proof.
  intros Hp Hw Hj.
  destruct (duty_bounds p w j Hp Hw Hj) as (t & Et & Ht & En & Hup & Hlo).
  exists t. split; [exact Et|]. split; [exact En|]. split; [lia|].
  replace (4096 * 2 ^ j) with (2 ^ (12 + j))
    by (rewrite Z.pow_add_r by lia; reflexivity).
  split.
  - intros Hlt. destruct (Z_lt_le_dec p (2 ^ j * w)) as [|Hge]; [assumption|].
    specialize (Hlo Hge). lia.
  - exact Hup.
Qed.

Lemma duty_against_powers_of_two_witness :
  exists t,
    new_value 20000 1500 = Some (t mod 65536)
    /\ (t < 4096 * 2 ^ 4 <-> 20000 < 2 ^ 4 * 1500).
Proof.
  destruct (duty_against_powers_of_two 20000 1500 4) as (t & _ & En & _ & Hiff); try lia.
  exists t. split; [exact En|exact Hiff].
Defined.

Lemma new_value_between (p w : Z) :
  0 < p < 65536 -> 0 < w < 65536 -> w <= p < 16 * w ->
  exists nv, new_value p w = Some nv /\ 4096 <= nv < 65536.
Proof.
  intros Hp Hw Hb.
  destruct (duty_bounds p w 0 Hp Hw ltac:(lia)) as (t & Et & _ & En & _ & Hlo).
  destruct (duty_bounds p w 4 Hp Hw ltac:(lia)) as (t' & Et' & _ & _ & Hup & _).
  assert (t' = t) by congruence. subst t'.
  change (2 ^ 0 * w) with (1 * w) in Hlo. change (2 ^ (12 + 0)) with 4096 in Hlo.
  change (2 ^ 4 * w) with (16 * w) in Hup. change (2 ^ (12 + 4)) with 65536 in Hup.
  specialize (Hlo ltac:(lia)). specialize (Hup ltac:(lia)).
  exists t. rewrite Z.mod_small in En by lia. split; [exact En|lia].
Qed.

Lemma new_value_below (p w : Z) :
  0 < p < 65536 -> 0 < w < 65536 -> p < w ->
  exists nv, new_value p w = Some nv /\ 0 <= nv < 4096.
Proof.
  intros Hp Hw Hb.
  destruct (duty_bounds p w 0 Hp Hw ltac:(lia)) as (t & Et & Ht & En & Hup & _).
  change (2 ^ 0 * w) with (1 * w) in Hup. change (2 ^ (12 + 0)) with 4096 in Hup.
  specialize (Hup ltac:(lia)).
  exists t. rewrite Z.mod_small in En by lia. split; [exact En|lia].
Qed.

(** X15.  Which commands reach a channel.  In a tick of the normal mode
    with a fresh, well-formed command, [p] being the period in use after the
    command's period has been examined and [w] the pulse width commanded for
    channel [i]: when [w <= p < 16 * w] nothing is sent to the channel and
    its last-applied duty stays (the duty computed is between 4096 and
    65535); when [p < w] the duty computed is below 4096, and it is sent and
    recorded unless it equals the last-applied one. *)
Theorem pulse_width_decides
    (inp : orb_in) (cmd : pca_pwm_s) (m : Machine) (i : nat) (w c : Z) :
  _mode (dev m) = IOX_MODE_ON ->
  orb_fresh inp = Some cmd ->
  dev_ok (dev m) ->
  0 < _pwm_period_us (dev m) ->
  cmd_ok cmd ->
  (i < 16)%nat ->
  pulse_width cmd !! i = Some w ->
  _current_values (dev m) !! i = Some c ->
  let p := if period_guard (_pwm_period_us (dev m)) (pwm_period cmd)
           then pwm_period cmd else _pwm_period_us (dev m) in
  exists m',
    RunImpl inp m = Some (tt, m')
    /\ _pwm_period_us (dev m') = p
    /\ (w <= p < 16 * w ->
        _current_values (dev m') !! i = Some c
        /\ channel_frames i (trace m') = channel_frames i (trace m))
    /\ (p < w ->
        exists nv,
          new_value p w = Some nv /\ 0 <= nv < 4096
          /\ (nv <> c ->
              _current_values (dev m') !! i = Some nv
              /\ channel_frames i (trace m') =
                   channel_frames i (trace m)
                   ++ [setPWM_frame (Z.of_nat i) (fst (pin_encoding nv))
                                    (snd (pin_encoding nv))])).
Proof.
  intros Hmode Hfresh Hd Hpos Hc Hi Hw Hcur p.
  destruct (RunImpl_fresh_run inp cmd m Hmode Hfresh Hd Hc)
    as (m' & E & _ & _ & _ & _ & _ & _ & Hp' & _ & _ & _ & Hch).
  cbv zeta in Hp', Hch. fold p in Hp', Hch.
  assert (Hp : 0 < p < 65536).
  { unfold p. destruct (period_guard _ _) eqn:Eg.
    - apply period_guard_accepted in Eg. unfold period_accepted in Eg. lia.
    - destruct Hd as [Hr _]. unfold u16_range in Hr. lia. }
  assert (Hwr : 0 < w < 65536).
  { destruct Hc as (_ & _ & Hall).
    apply (proj1 (Forall_lookup _ _) Hall i w Hw). }
  exists m'. split; [exact E|]. split; [exact Hp'|]. split.
  - intros Hb. destruct (new_value_between p w Hp Hwr Hb) as (nv & En & Hnv).
    specialize (Hch i w c nv Hi Hw Hcur En).
    replace (applies nv c) with false in Hch; [exact Hch|].
    symmetry. unfold applies. apply andb_false_iff. right. apply Z.ltb_ge. lia.
  - intros Hb. destruct (new_value_below p w Hp Hwr Hb) as (nv & En & Hnv).
    exists nv. split; [exact En|]. split; [exact Hnv|]. intros Hne.
    specialize (Hch i w c nv Hi Hw Hcur En).
    replace (applies nv c) with true in Hch; [exact Hch|].
    symmetry. unfold applies. apply andb_true_iff. split.
    + apply negb_true_iff. apply Z.eqb_neq. exact Hne.
    + apply Z.ltb_lt. lia.
Qed.

Lemma pulse_width_decides_witness :
  exists m',
    RunImpl (uniform_cmd 20000 1500) (fresh_machine (bus_ok 0)) = Some (tt, m')
    /\ _current_values (dev m') !! 0%nat = Some 0
    /\ channel_frames 0 (trace m') = channel_frames 0 (trace (fresh_machine (bus_ok 0))).
Proof.
  destruct (pulse_width_decides (uniform_cmd 20000 1500) (mk_pca_pwm 20000 (replicate 16 1500))
              (fresh_machine (bus_ok 0)) 0 1500 0)
    as (m' & E & _ & Hbetween & _).
  - reflexivity.
  - reflexivity.
  - split; [unfold u16_range; cbn; lia|reflexivity].
  - cbn. lia.
  - apply (cmd_ok_uniform 20000 1500); lia.
  - lia.
  - reflexivity.
  - reflexivity.
  - exists m'. split; [exact E|]. apply Hbetween. cbn. lia.
Defined.

(* ===================================================================== *)
(** ** Further properties: what start-up sends *)
(* ===================================================================== *)

(** A message that does not address register [reg]. *)
Lemma frames_to_others (reg : Z) (evs : list event) :
  Forall (fun e => match e with
                   | EvTransfer (a :: _) _ _ => a <> reg
                   | _ => True
                   end) evs ->
  frames_to reg evs = [].
Proof.
  intros H. induction H as [|e evs He _ IH]; [reflexivity|].
  change (e :: evs) with ([e] ++ evs). rewrite frames_to_app, IH, app_nil_r.
  destruct e as [[|a rest] n r| |]; try reflexivity.
  unfold frames_to. cbn [flat_map app].
  destruct (Z.eqb_spec a reg); [contradiction|reflexivity].
Qed.

Lemma freq_sequence_registers (m : Machine) (p reg : Z) (n : nat) :
  reg <> PCA9685_MODE1 -> reg <> PCA9685_PRESCALE ->
  frames_to reg (take n (freq_sequence m p)) = [].
Proof.
  intros H1 H2. apply frames_to_others. apply Forall_take.
  unfold freq_sequence. repeat constructor; congruence.
Qed.

(** X16.  Start-up writes no channel register.  Whatever the transport
    answers, [init] returns, and none of the messages it sends addresses a
    register other than MODE1 and the prescaler: in particular the ON/OFF
    registers of the sixteen channels are left as the chip has them until
    the first tick. *)
Theorem startup_writes_no_channel (i2c_ret p : Z) (m : Machine) :
  prescale_of (_pwm_freq (dev m)) = Some p ->
  exists r m',
    init i2c_ret m = Some (r, m')
    /\ (forall reg, reg <> PCA9685_MODE1 -> reg <> PCA9685_PRESCALE ->
          frames_to reg (trace m') = frames_to reg (trace m))
    /\ (forall i, (i < 16)%nat -> channel_frames i (trace m') = channel_frames i (trace m))
    /\ _current_values (dev m') = _current_values (dev m).
Proof.
  intros Hp.
  destruct (init_steps i2c_ret p m Hp) as (r & m' & E & _ & Hcase).
  exists r, m'. split; [exact E|].
  assert (Hreg : forall reg, reg <> PCA9685_MODE1 -> reg <> PCA9685_PRESCALE ->
                   frames_to reg (trace m') = frames_to reg (trace m)).
  { intros reg H1 H2.
    assert (Hreset : forall r0, frames_to reg [EvTransfer [PCA9685_MODE1; 0] 0 r0] = []).
    { intros r0. apply frames_to_others. repeat constructor. congruence. }
    destruct (negb (i2c_ret =? OK)).
    - destruct Hcase as (_ & ->). reflexivity.
    - destruct (negb (ret_at m 0 =? OK)).
      + destruct Hcase as (_ & ->). rewrite frames_to_app, Hreset, app_nil_r. reflexivity.
      + destruct (first_failure_from (skip 1 m) 0 6) as [k|].
        * destruct Hcase as (_ & _ & ->).
          rewrite !frames_to_app, Hreset, freq_sequence_registers, app_nil_r by assumption.
          reflexivity.
        * destruct Hcase as (_ & ->).
          rewrite !frames_to_app, Hreset.
          rewrite <- (firstn_all (freq_sequence (skip 1 m) p)).
          change (firstn (length (freq_sequence (skip 1 m) p)) (freq_sequence (skip 1 m) p))
            with (take 7 (freq_sequence (skip 1 m) p)).
          rewrite freq_sequence_registers, app_nil_r by assumption. reflexivity. }
  split; [exact Hreg|]. split.
  - intros i Hi. apply Hreg; unfold channel_reg, PCA9685_MODE1, PCA9685_PRESCALE, LED0_ON_L; lia.
  - apply (kept_values_init i2c_ret m r m' E).
Qed.

Lemma startup_writes_no_channel_witness :
  exists r m',
    init OK (fresh_machine (bus_ok 0)) = Some (r, m')
    /\ channel_frames 3 (trace m') = channel_frames 3 (trace (fresh_machine (bus_ok 0))).
Proof.
  destruct (startup_writes_no_channel OK 121 (fresh_machine (bus_ok 0)))
    as (r & m' & E & _ & Hc & _).
  - vm_compute. reflexivity.
  - exists r, m'. split; [exact E|]. apply (Hc 3%nat). lia.
Defined.
